(** * Cross-network relay: the chain simulator, the relay managers and the
      reconnection policy, embedded from the JavaScript sources.

    Sources embedded here:
    - [src/unnamed/part_002]  : [MockProvider], [MockWebSocketProvider]
    - [src/scripts/relay/relay-manager.js] : [RelayManager] (second variant,
      with [waitForConnections]) and [MainnetRelay]
    - [src/scripts/monitoring/transaction-monitor.js] : [TransactionMonitor]

    Conventions.  JavaScript numbers that count things (block numbers,
    attempt counters, metrics, millisecond clocks) are integers far below
    2^53, where [++] and [*] are exact; they are modelled as [Z].  A number
    read out of a string an endpoint sent is converted as JavaScript
    converts it ([Js.to_number]).  Strings are held as their UTF-8 bytes.
    Every
    read of the outside world ([Date.now()], [Math.random()], an RPC answer,
    a receipt) is an explicit argument of the function that performs it.
    An [await] is a sequencing point only: the code has a single thread of
    control and the functions below are the sequential bodies. *)

From Stdlib Require Import ZArith List Bool Lia Ascii String.
From stdpp Require Import base strings pretty list.

#[local] Open Scope Z_scope.
#[local] Open Scope string_scope.

(* ===================================================================== *)
(** * JavaScript primitives used by the sources *)
(* ===================================================================== *)

Module Js.

(** One lower-case hexadecimal digit. *)
Definition hex_digit (n : N) : ascii :=
  match n with
  | 0%N => "0" | 1%N => "1" | 2%N => "2" | 3%N => "3"
  | 4%N => "4" | 5%N => "5" | 6%N => "6" | 7%N => "7"
  | 8%N => "8" | 9%N => "9" | 10%N => "a" | 11%N => "b"
  | 12%N => "c" | 13%N => "d" | 14%N => "e" | _ => "f"
  end%char.

(** [Buffer.from(s).toString('hex')] on an ASCII string: two digits per
    byte. *)
Fixpoint buffer_hex (s : string) : string :=
  match s with
  | EmptyString => EmptyString
  | String c s' =>
      let b := Ascii.N_of_ascii c in
      String (hex_digit (b / 16)) (String (hex_digit (b mod 16)) (buffer_hex s'))
  end.

Fixpoint replicate_char (n : nat) (c : ascii) : string :=
  match n with
  | O => EmptyString
  | S n' => String c (replicate_char n' c)
  end.

(** [s.padStart(n, c)] with a one-character filler. *)
Definition padStart (n : nat) (c : ascii) (s : string) : string :=
  replicate_char (n - String.length s) c +:+ s.

(** [x.toString()] of an integral number. *)
Definition toString (x : Z) : string := pretty x.

Fixpoint hex_go (fuel : nat) (n : N) (acc : string) : string :=
  match fuel with
  | O => acc
  | S f =>
      if (n =? 0)%N then acc
      else hex_go f (n / 16)%N (String (hex_digit (n mod 16)) acc)
  end.

(** [x.toString(16)] of a non-negative integral number. *)
Definition toString16 (x : Z) : string :=
  let n := Z.to_N x in
  if (n =? 0)%N then "0" else hex_go (N.size_nat n) n EmptyString.

Definition hex_value (c : ascii) : option Z :=
  let n := Z.of_N (Ascii.N_of_ascii c) in
  if ((48 <=? n) && (n <=? 57))%Z then Some (n - 48)
  else if ((97 <=? n) && (n <=? 102))%Z then Some (n - 87)
  else if ((65 <=? n) && (n <=? 70))%Z then Some (n - 55)
  else None.

(** Longest prefix of hexadecimal digits, accumulated left to right;
    [None] when there is not a single digit. *)
Fixpoint hex_prefix (acc : option Z) (s : string) : option Z :=
  match s with
  | EmptyString => acc
  | String c s' =>
      match hex_value c with
      | Some d => hex_prefix (Some (16 * default 0 acc + d)) s'
      | None => acc
      end
  end.

Definition strip_0x (s : string) : string :=
  match s with
  | String "0" (String "x" s') => s'
  | String "0" (String "X" s') => s'
  | _ => s
  end.

(** Strings are held as their UTF-8 bytes.  [trimStart s] drops the
    leading WhiteSpace and LineTerminator code points, as [parseInt] does
    before it reads anything: TAB, LF, VT, FF, CR, SP, and in UTF-8 the
    code points U+00A0, U+1680, U+2000 to U+200A, U+2028, U+2029, U+202F,
    U+205F, U+3000 and U+FEFF. *)
Definition white_space_byte (n : N) : bool :=
  ((9 <=? n) && (n <=? 13) || (n =? 32))%N.

Definition white_space_lead (n : N) : bool :=
  ((n =? 194) || (n =? 225) || (n =? 226) || (n =? 227) || (n =? 239))%N.

Definition white_space_2 (n1 n2 : N) : bool := ((n1 =? 194) && (n2 =? 160))%N.

Definition white_space_3 (n1 n2 n3 : N) : bool :=
  ((n1 =? 225) && (n2 =? 154) && (n3 =? 128)
   || (n1 =? 226) && (n2 =? 128)
      && ((128 <=? n3) && (n3 <=? 138) || (n3 =? 168) || (n3 =? 169) || (n3 =? 175))
   || (n1 =? 226) && (n2 =? 129) && (n3 =? 159)
   || (n1 =? 227) && (n2 =? 128) && (n3 =? 128)
   || (n1 =? 239) && (n2 =? 187) && (n3 =? 191))%N.

Fixpoint trimStart (s : string) : string :=
  match s with
  | EmptyString => s
  | String c1 s1 =>
      let n1 := Ascii.N_of_ascii c1 in
      if white_space_byte n1 then trimStart s1
      else if white_space_lead n1 then
        match s1 with
        | EmptyString => s
        | String c2 s2 =>
            let n2 := Ascii.N_of_ascii c2 in
            if white_space_2 n1 n2 then trimStart s2
            else
              match s2 with
              | EmptyString => s
              | String c3 s3 =>
                  if white_space_3 n1 n2 (Ascii.N_of_ascii c3) then trimStart s3 else s
              end
        end
      else s
  end.

(** The sign [parseInt] reads after the white space: whether it is a
    minus, and the rest. *)
Definition split_sign (s : string) : bool * string :=
  match s with
  | String "-" s' => (true, s')
  | String "+" s' => (false, s')
  | _ => (false, s)
  end.

Definition with_sign (negative : bool) (magnitude : option Z) : option Z :=
  if negative then option_map Z.opp magnitude else magnitude.

(** [parseInt(s, 16)], up to its last step: leading white space is
    skipped, then an optional sign, then an optional [0x], and the longest
    run of hexadecimal digits is read; [None] stands for [NaN].  The value
    is the signed integer the digits denote, which [parseInt] finally
    converts to a Number ([to_number] below); for a magnitude below 2^53
    that conversion changes nothing. *)
Definition parseInt16 (s : string) : option Z :=
  with_sign (fst (split_sign (trimStart s)))
    (hex_prefix None (strip_0x (snd (split_sign (trimStart s))))).

(** The Number nearest to an integer: the integer itself below 2^53 in
    magnitude; beyond, the 53 leading bits rounded to nearest, ties to
    even; [None] stands for an infinity (a rounded magnitude of 2^1024 or
    more). *)
Definition to_number (z : Z) : option Z :=
  let a := Z.abs z in
  if (a <? 2 ^ 53)%Z then Some z
  else
    let e := Z.log2 a - 52 in
    let m := Z.shiftr a e in
    let r := a - Z.shiftl m e in
    let half := Z.shiftl 1 (e - 1) in
    let m' := if (r <? half)%Z then m
              else if (half <? r)%Z then m + 1
              else if Z.even m then m else m + 1 in
    let d := Z.shiftl m' e in
    if (2 ^ 1024 <=? d)%Z then None else Some (Z.sgn z * d).

(** [parseInt(s, 16)] as a Number: [None] is [NaN] or an infinity, neither
    of which is [===] to a finite number. *)
Definition parseInt16_number (s : string) : option Z :=
  match parseInt16 s with
  | Some v => to_number v
  | None => None
  end.

(** [x || d] on a number ([0] is falsy) and on a string (['']  is falsy). *)
Definition or_number (x d : Z) : Z := if (x =? 0)%Z then d else x.
Definition or_string (s d : string) : string :=
  match s with EmptyString => d | _ => s end.

(** [a === b] where [a] may be [NaN] and [b] may be [undefined]. *)
Definition strict_eq (a b : option Z) : bool :=
  match a, b with
  | Some x, Some y => (x =? y)%Z
  | _, _ => false
  end.

Definition dec_value (c : ascii) : option Z :=
  let n := Z.of_N (Ascii.N_of_ascii c) in
  if ((48 <=? n) && (n <=? 57))%Z then Some (n - 48) else None.

(** Longest prefix of decimal digits; [None] when there is none. *)
Fixpoint dec_prefix (acc : option Z) (s : string) : option Z :=
  match s with
  | EmptyString => acc
  | String c s' =>
      match dec_value c with
      | Some d => dec_prefix (Some (10 * default 0 acc + d)) s'
      | None => acc
      end
  end.

(** [parseInt(s)] with no radix, up to the conversion to a Number: white
    space and sign as above, then hexadecimal after [0x] and decimal
    otherwise. *)
Definition parseInt (s : string) : option Z :=
  let body := snd (split_sign (trimStart s)) in
  with_sign (fst (split_sign (trimStart s)))
    match body with
    | String "0" (String "x" digits) => hex_prefix None digits
    | String "0" (String "X" digits) => hex_prefix None digits
    | _ => dec_prefix None body
    end.

(** The first character of a string, if any. *)
Definition head_char (s : string) : option ascii :=
  match s with
  | EmptyString => None
  | String c _ => Some c
  end.

(** One of the ten decimal digit characters. *)
Definition is_digit_char (c : ascii) : Prop :=
  exists d, (d < 10)%N /\ c = pretty_N_char d.

End Js.

(** A JavaScript [Map] with string keys: insertion-ordered; [set] on a key
    that is present replaces the value and keeps the key's position. *)
Module JsMap.
Section WithValue.
Context {V : Type}.

Definition t : Type := list (string * V).

Definition empty : t := [].

Fixpoint set (k : string) (v : V) (m : t) : t :=
  match m with
  | [] => [(k, v)]
  | (k', v') :: m' =>
      if String.eqb k k' then (k, v) :: m' else (k', v') :: set k v m'
  end.

Fixpoint get (k : string) (m : t) : option V :=
  match m with
  | [] => None
  | (k', v') :: m' => if String.eqb k k' then Some v' else get k m'
  end.

Definition keys (m : t) : list string := map fst m.

Definition size (m : t) : nat := length m.
End WithValue.
Arguments t : clear implicits.
End JsMap.

(* ===================================================================== *)
(** * The chain simulator: [MockProvider] (src/unnamed/part_002) *)
(* ===================================================================== *)

Module Tx.
Record t : Type := mk {
  hash : string;
  from : string;
  to : string;
  value : string;
  gasLimit : string;
  gasPrice : string;
  nonce : string;
  data : string;
  chainId : Z;
  blockNumber : Z;
  timestamp : Z;
  status : Z
}.
End Tx.

Module Block.
Record t : Type := mk {
  number : Z;
  hash : string;
  timestamp : Z;
  transactions : list string
}.
End Block.

Module MockProvider.

Record t : Type := mk {
  blockNumber : Z;
  transactions : JsMap.t Tx.t;
  chainId : Z;              (* this.config.chainId *)
  name : string;            (* this.config.name *)
  interval : bool;          (* this.interval !== null *)
  liveTimers : nat          (* timers started by setInterval and not cleared *)
}.

(** [new MockProvider(config)] *)
Definition new (chain : Z) (nm : string) : t :=
  {| blockNumber := 0; transactions := JsMap.empty;
     chainId := chain; name := nm; interval := false; liveTimers := 0 |}.

(** The identifier both [generateMockTransaction] and [sendTransaction]
    derive from the clock:
    [`0x${Buffer.from(Date.now().toString()).toString('hex').padStart(64, '0')}`] *)
Definition hash_of_time (now : Z) : string :=
  "0x" +:+ Js.padStart 64 "0" (Js.buffer_hex (Js.toString now)).

(** [`0x${Buffer.from(this.blockNumber.toString()).toString('hex').padStart(64,'0')}`] *)
Definition block_hash (n : Z) : string :=
  "0x" +:+ Js.padStart 64 "0" (Js.buffer_hex (Js.toString n)).

Definition getBlockNumber (p : t) : Z := blockNumber p.

(** [getBlock(blockNumberOrHash)].  The argument is parsed into the local
    [number], which the returned object never uses; [now] is the
    [Date.now()] read for the timestamp. *)
Definition getBlock (blockNumberOrHash : Z) (now : Z) (p : t) : Block.t :=
  let number := blockNumberOrHash in
  {| Block.number := blockNumber p;
     Block.hash := block_hash (blockNumber p);
     Block.timestamp := now / 1000;
     Block.transactions := JsMap.keys (transactions p) |}.

(** [getTransaction(hash)]: [None] is [null]. *)
Definition getTransaction (h : string) (p : t) : option Tx.t :=
  JsMap.get h (transactions p).

(** [generateMockTransaction()], with [now] the [Date.now()] reading. *)
Definition generateMockTransaction (now : Z) (p : t) : t * Tx.t :=
  let hash := hash_of_time now in
  let tx :=
    {| Tx.hash := hash;
       Tx.from := "0x" +:+ Js.replicate_char 40 "1";
       Tx.to := "0x" +:+ Js.replicate_char 40 "2";
       Tx.value := "0x" +:+ Js.toString16 1000000000000000000;
       Tx.gasLimit := "0x" +:+ Js.toString16 21000;
       Tx.gasPrice := "0x" +:+ Js.toString16 1000000000;
       Tx.nonce := "0x" +:+ Js.toString16 (Z.of_nat (JsMap.size (transactions p)));
       Tx.data := "0x";
       Tx.chainId := chainId p;
       Tx.blockNumber := blockNumber p;
       Tx.timestamp := now / 1000;
       Tx.status := 1 |} in
  ({| blockNumber := blockNumber p;
      transactions := JsMap.set hash tx (transactions p);
      chainId := chainId p; name := name p; interval := interval p;
      liveTimers := liveTimers p |},
   tx).

(** One firing of the timer callback installed by [startBlockProduction]:
    [this.blockNumber++], then [txCount] calls of
    [generateMockTransaction], then [emit('block', this.blockNumber)].
    [nows] holds the clock reading of each generated transaction, so
    [length nows] is [txCount = Math.floor(Math.random() * 3) + 1].
    The second component is the emitted block number. *)
Definition tick (nows : list Z) (p : t) : t * Z :=
  let p1 := {| blockNumber := blockNumber p + 1;
               transactions := transactions p;
               chainId := chainId p; name := name p;
               interval := interval p; liveTimers := liveTimers p |} in
  let p2 := fold_left (fun q now => fst (generateMockTransaction now q)) nows p1 in
  (p2, blockNumber p2).

(** A run of the timer: the ticks in order, with the block events they
    emit. *)
Fixpoint produce (ticks : list (list Z)) (p : t) : t * list Z :=
  match ticks with
  | [] => (p, [])
  | nows :: rest =>
      let '(p1, ev) := tick nows p in
      let '(p2, evs) := produce rest p1 in
      (p2, ev :: evs)
  end.

(** [getTransactionReceipt(hash)]: the stored transaction with [status]
    forced to 1 and two receipt fields added; [None] is [null]. *)
Record Receipt : Type := mkReceipt {
  receipt_tx : Tx.t;
  gasUsed : string;
  effectiveGasPrice : string
}.

Definition with_status (s : Z) (x : Tx.t) : Tx.t :=
  {| Tx.hash := Tx.hash x; Tx.from := Tx.from x; Tx.to := Tx.to x;
     Tx.value := Tx.value x; Tx.gasLimit := Tx.gasLimit x;
     Tx.gasPrice := Tx.gasPrice x; Tx.nonce := Tx.nonce x;
     Tx.data := Tx.data x; Tx.chainId := Tx.chainId x;
     Tx.blockNumber := Tx.blockNumber x; Tx.timestamp := Tx.timestamp x;
     Tx.status := s |}.

Definition getTransactionReceipt (h : string) (p : t) : option Receipt :=
  match getTransaction h p with
  | None => None
  | Some x =>
      Some {| receipt_tx := with_status 1 x;
              gasUsed := "21000";
              effectiveGasPrice := "1000000000" |}
  end.

(** [startBlockProduction()]: a new timer is started and its handle
    stored in [this.interval]; a handle already stored there is overwritten
    without being cleared, so its timer keeps firing. *)
Definition startBlockProduction (p : t) : t :=
  {| blockNumber := blockNumber p; transactions := transactions p;
     chainId := chainId p; name := name p; interval := true;
     liveTimers := S (liveTimers p) |}.

(** [stopBlockProduction()]: only the timer whose handle is stored is
    cleared. *)
Definition stopBlockProduction (p : t) : t :=
  if interval p then
    {| blockNumber := blockNumber p; transactions := transactions p;
       chainId := chainId p; name := name p; interval := false;
       liveTimers := Nat.pred (liveTimers p) |}
  else p.

(** The hashes of the transactions that were stamped with block [n] when
    they were generated, in generation order. *)
Definition hashes_of_block (n : Z) (p : t) : list string :=
  map fst (filter (fun kv => (Tx.blockNumber (snd kv) =? n)%Z) (transactions p)).

(** What [generateMockTransaction] puts in the store: the entry is keyed
    by the transaction's own hash, carries the fixed value, gas and address
    fields, has status 1 and is stamped with a block number not above
    [height]. *)
Definition synthesized_entry (height : Z) (kv : string * Tx.t) : Prop :=
  Tx.hash (snd kv) = fst kv /\
  Tx.to (snd kv) = "0x2222222222222222222222222222222222222222" /\
  Tx.value (snd kv) = "0xde0b6b3a7640000" /\
  Tx.gasLimit (snd kv) = "0x5208" /\
  Tx.gasPrice (snd kv) = "0x3b9aca00" /\
  Tx.data (snd kv) = "0x" /\
  Tx.status (snd kv) = 1 /\
  Tx.blockNumber (snd kv) <= height.

(** A store that holds synthesized transactions only, each key once. *)
Definition store_ok (p : t) : Prop :=
  NoDup (JsMap.keys (transactions p)) /\
  Forall (synthesized_entry (blockNumber p)) (transactions p).

End MockProvider.


(* ===================================================================== *)
(** * [MockWebSocketProvider] (src/unnamed/part_002) *)
(* ===================================================================== *)

Module MockWebSocketProvider.

Inductive error : Type :=
| MaxConnectionAttempts     (* 'Max connection attempts reached' *)
| ProviderNotConnected      (* 'Provider not connected' *)
| MethodNotImplemented (method : string).

Inductive event : Type :=
| EvConnect
| EvDisconnect
| EvError (e : error).

Inductive result (A : Type) : Type :=
| Ok (a : A)
| Throw (e : error).
Arguments Ok {A} a.
Arguments Throw {A} e.

Record t : Type := mk {
  mockProvider : MockProvider.t;
  connected : bool;
  url : string;
  networkState_chainId : Z;
  networkState_name : string;
  connectionAttempts : Z;
  maxRetries : Z;
  blockForwarders : nat      (* listeners added by [connect] on the inner provider's 'block' *)
}.

(** [new MockWebSocketProvider(url, config)] *)
Definition new (u : string) (chain : Z) (nm : string) : t :=
  {| mockProvider := MockProvider.new chain nm;
     connected := false;
     url := u;
     networkState_chainId := Js.or_number chain 138;
     networkState_name := Js.or_string nm "defi-oracle-meta";
     connectionAttempts := 0;
     maxRetries := 3;
     blockForwarders := 0 |}.

(** [connect()].  [detectNetwork] only waits and returns, so the guard is
    the one statement of the [try] that can throw; the [catch] emits
    'error' and rethrows. *)
Definition connect (w : t) : t * list event * result unit :=
  if (maxRetries w <=? connectionAttempts w)%Z then
    (w, [EvError MaxConnectionAttempts], Throw MaxConnectionAttempts)
  else
    ({| mockProvider := MockProvider.startBlockProduction (mockProvider w);
        connected := true;
        url := url w;
        networkState_chainId := networkState_chainId w;
        networkState_name := networkState_name w;
        connectionAttempts := connectionAttempts w + 1;
        maxRetries := maxRetries w;
        blockForwarders := S (blockForwarders w) |},
     [EvConnect], Ok tt).

(** [disconnect()] *)
Definition disconnect (w : t) : t * list event :=
  ({| mockProvider := MockProvider.stopBlockProduction (mockProvider w);
      connected := false;
      url := url w;
      networkState_chainId := networkState_chainId w;
      networkState_name := networkState_name w;
      connectionAttempts := 0;
      maxRetries := maxRetries w;
      blockForwarders := blockForwarders w |},
   [EvDisconnect]).

Definition isConnected (w : t) : bool := connected w.

(** [ensureConnected()] followed by the guarded body. *)
Definition ensureConnected {A : Type} (w : t) (body : result A) : result A :=
  if connected w then body else Throw ProviderNotConnected.

Definition getBlockNumber (w : t) : result Z :=
  ensureConnected w (Ok (MockProvider.getBlockNumber (mockProvider w))).

Definition getBlock (blockNumber now : Z) (w : t) : result Block.t :=
  ensureConnected w (Ok (MockProvider.getBlock blockNumber now (mockProvider w))).

Definition getTransaction (h : string) (w : t) : result (option Tx.t) :=
  ensureConnected w (Ok (MockProvider.getTransaction h (mockProvider w))).

(** The answers of [send(method, params)] the relay reads. *)
Inductive rpc_value : Type :=
| VString (s : string)
| VBool (b : bool)
| VBlock (b : Block.t)
| VTx (o : option Tx.t)
| VReceipt (o : option MockProvider.Receipt).

(** [send(method, params)]; [now] is the clock read by [getBlock]. *)
Definition send (method : string) (params : list string) (now : Z) (w : t)
  : result rpc_value :=
  ensureConnected w
    (if String.eqb method "eth_chainId" then
       Ok (VString ("0x" +:+ Js.toString16 (networkState_chainId w)))
     else if String.eqb method "eth_networkVersion" || String.eqb method "net_version" then
       Ok (VString (Js.toString (networkState_chainId w)))
     else if String.eqb method "eth_blockNumber" then
       Ok (VString ("0x" +:+ Js.toString16 (MockProvider.getBlockNumber (mockProvider w))))
     else if String.eqb method "eth_getBlockByNumber" then
       Ok (VBlock (MockProvider.getBlock
                     (default 0 (Js.parseInt16 (nth 0 params EmptyString)))
                     now (mockProvider w)))
     else if String.eqb method "eth_getTransactionByHash" then
       Ok (VTx (MockProvider.getTransaction (nth 0 params EmptyString) (mockProvider w)))
     else if String.eqb method "eth_getTransactionReceipt" then
       Ok (VReceipt (MockProvider.getTransactionReceipt (nth 0 params EmptyString)
                       (mockProvider w)))
     else if String.eqb method "net_listening" then Ok (VBool true)
     else if String.eqb method "eth_syncing" then Ok (VBool false)
     else Throw (MethodNotImplemented method)).

(** [n] calls of [connect()] in a row, nothing in between; the results
    are listed in call order. *)
Fixpoint connect_times (n : nat) (w : t) : t * list (result unit) :=
  match n with
  | O => (w, [])
  | S n' =>
      let '(w1, _, r) := connect w in
      let '(w2, rs) := connect_times n' w1 in
      (w2, r :: rs)
  end.

Definition with_mockProvider (w : t) (p : MockProvider.t) : t :=
  {| mockProvider := p;
     connected := connected w;
     url := url w;
     networkState_chainId := networkState_chainId w;
     networkState_name := networkState_name w;
     connectionAttempts := connectionAttempts w;
     maxRetries := maxRetries w;
     blockForwarders := blockForwarders w |}.

Definition getTransactionReceipt (h : string) (w : t)
  : result (option MockProvider.Receipt) :=
  ensureConnected w (Ok (MockProvider.getTransactionReceipt h (mockProvider w))).

(** [generateTestTransaction()] *)
Definition generateTestTransaction (now : Z) (w : t) : result (t * Tx.t) :=
  ensureConnected w
    (let '(p, x) := MockProvider.generateMockTransaction now (mockProvider w) in
     Ok (with_mockProvider w p, x)).

(** One firing of the inner provider's timer as this provider's
    subscribers see it: the inner tick emits the new block number once, and
    each forwarding listener that [connect] has installed on the inner
    provider re-emits it. *)
Definition on_tick (nows : list Z) (w : t) : t * list Z :=
  let '(p, n) := MockProvider.tick nows (mockProvider w) in
  (with_mockProvider w p, repeat n (blockForwarders w)).

(** The provider after the given firings of block timers, in order. *)
Definition after_ticks (ticks : list (list Z)) (w : t) : t :=
  fold_left (fun v nows => fst (on_tick nows v)) ticks w.

(** [disconnect()] followed by [connect()]. *)
Definition reconnect (w : t) : t * result unit :=
  let '(w1, _) := disconnect w in
  let '(w2, _, r) := connect w1 in
  (w2, r).

Record Network : Type := mkNetwork {
  net_chainId : option Z;              (* [None]: NaN *)
  net_name : string
}.

(** The object [getNetwork] returns from its two [catch] blocks. *)
Definition minimal_network (w : t) : Network :=
  {| net_chainId := Some (networkState_chainId w); net_name := networkState_name w |}.

(** The second [try] of [getNetwork]: the chain id is asked through
    [send] and parsed.  The text parsed is this provider's own rendering of
    its chain id, a Number, which the parse gives back as it is. *)
Definition detect_network (now : Z) (w : t) : Network :=
  match send "eth_chainId" [] now w with
  | Ok (VString chainIdHex) =>
      {| net_chainId := Js.parseInt16 chainIdHex; net_name := networkState_name w |}
  | Ok _ => {| net_chainId := None; net_name := networkState_name w |}
  | Throw _ => minimal_network w
  end.

(** [getNetwork()]: connects first when not connected. *)
Definition getNetwork (now : Z) (w : t) : t * Network :=
  if connected w then (w, detect_network now w)
  else
    match connect w with
    | (w1, _, Ok _) => (w1, detect_network now w1)
    | (w1, _, Throw _) => (w1, minimal_network w1)
    end.

(** The methods [send] dispatches on. *)
Definition supported_methods : list string :=
  ["eth_chainId"; "eth_networkVersion"; "net_version"; "eth_blockNumber";
   "eth_getBlockByNumber"; "eth_getTransactionByHash"; "eth_getTransactionReceipt";
   "net_listening"; "eth_syncing"].

End MockWebSocketProvider.

(* ===================================================================== *)
(** * [RelayManager] (src/scripts/relay/relay-manager.js, lines 137-448) *)
(* ===================================================================== *)

Module RelayManager.

Inductive network : Type := source | target.

Record Metrics : Type := mkMetrics {
  transactions : Z;
  successful : Z;
  failed : Z;
  retries : Z;
  disconnections : Z
}.

Record t : Type := mk {
  provider : bool;                    (* this.provider is set (not null) *)
  ethProvider : bool;                 (* this.ethProvider is set (not null) *)
  metrics : Metrics;
  connectionState_source : bool;
  connectionState_target : bool;
  retryAttempts : Z;                  (* this.config.metrics.retryAttempts *)
  retryDelay : Z;                     (* this.config.metrics.retryDelay *)
  sourceChainId : option Z;           (* this.config.sourceNetwork.chainId;
                                         [None]: left undefined *)
  ethereumChainId : Z                 (* this.config.ethereum.chainId *)
}.

(** The state the constructor leaves, for the given retry settings and
    source chain id; [ethereum.chainId] is the default configuration's. *)
Definition new (attempts delay : Z) (chain : option Z) : t :=
  {| provider := false;
     ethProvider := false;
     metrics := {| transactions := 0; successful := 0; failed := 0;
                   retries := 0; disconnections := 0 |};
     connectionState_source := false;
     connectionState_target := false;
     retryAttempts := attempts;
     retryDelay := delay;
     sourceChainId := chain;
     ethereumChainId := 1 |}.

(** A manager constructed with [{ ethereum: { chainId: c } }] overriding
    the default configuration. *)
Definition with_ethereumChainId (c : Z) (m : t) : t :=
  {| provider := provider m;
     ethProvider := ethProvider m;
     metrics := metrics m;
     connectionState_source := connectionState_source m;
     connectionState_target := connectionState_target m;
     retryAttempts := retryAttempts m;
     retryDelay := retryDelay m;
     sourceChainId := sourceChainId m;
     ethereumChainId := c |}.

(** Both providers constructed, as [initialize] leaves them. *)
Definition with_providers (m : t) : t :=
  {| provider := true;
     ethProvider := true;
     metrics := metrics m;
     connectionState_source := connectionState_source m;
     connectionState_target := connectionState_target m;
     retryAttempts := retryAttempts m;
     retryDelay := retryDelay m;
     sourceChainId := sourceChainId m;
     ethereumChainId := ethereumChainId m |}.

Definition with_metrics (m : t) (x : Metrics) : t :=
  {| provider := provider m;
     ethProvider := ethProvider m;
     metrics := x;
     connectionState_source := connectionState_source m;
     connectionState_target := connectionState_target m;
     retryAttempts := retryAttempts m;
     retryDelay := retryDelay m;
     sourceChainId := sourceChainId m;
     ethereumChainId := ethereumChainId m |}.

Definition set_connectionState (n : network) (b : bool) (m : t) : t :=
  {| provider := provider m;
     ethProvider := ethProvider m;
     metrics := metrics m;
     connectionState_source :=
       match n with source => b | target => connectionState_source m end;
     connectionState_target :=
       match n with source => connectionState_target m | target => b end;
     retryAttempts := retryAttempts m;
     retryDelay := retryDelay m;
     sourceChainId := sourceChainId m;
     ethereumChainId := ethereumChainId m |}.

Definition incr_transactions (x : Metrics) : Metrics :=
  {| transactions := transactions x + 1; successful := successful x;
     failed := failed x; retries := retries x;
     disconnections := disconnections x |}.
Definition incr_successful (x : Metrics) : Metrics :=
  {| transactions := transactions x; successful := successful x + 1;
     failed := failed x; retries := retries x;
     disconnections := disconnections x |}.
Definition incr_failed (x : Metrics) : Metrics :=
  {| transactions := transactions x; successful := successful x;
     failed := failed x + 1; retries := retries x;
     disconnections := disconnections x |}.
Definition incr_retries (x : Metrics) : Metrics :=
  {| transactions := transactions x; successful := successful x;
     failed := failed x; retries := retries x + 1;
     disconnections := disconnections x |}.
Definition incr_disconnections (x : Metrics) : Metrics :=
  {| transactions := transactions x; successful := successful x;
     failed := failed x; retries := retries x;
     disconnections := disconnections x + 1 |}.

(** ** Connection events *)

(** What a handler asks of the outside world, in order. *)
Inductive effect : Type :=
| CallConnect (n : network)            (* provider.connect() *)
| SetTimeout (ms : Z).                 (* new Promise(r => setTimeout(r, ms)) *)

(** [handleConnect(network)] *)
Definition handleConnect (n : network) (m : t) : t :=
  set_connectionState n true m.

(** [handleDisconnect(network)]: flag cleared, counter bumped, then
    [provider.connect()] is awaited at once. *)
Definition handleDisconnect (n : network) (m : t) : t * list effect :=
  let m1 := set_connectionState n false m in
  let m2 := with_metrics m1 (incr_disconnections (metrics m1)) in
  (m2, [CallConnect n]).

(** [handleDisconnect('source')] against the mock source provider: the
    manager, the provider after the [connect()] call, and that call's
    result. *)
Definition handleDisconnect_mock (m : t) (w : MockWebSocketProvider.t)
  : t * MockWebSocketProvider.t * MockWebSocketProvider.result unit :=
  let '(m1, _) := handleDisconnect source m in
  let '(w', _, r) := MockWebSocketProvider.connect w in
  (* a successful connect emits 'connect', which runs handleConnect('source') *)
  let m2 := match r with
            | MockWebSocketProvider.Ok _ => handleConnect source m1
            | MockWebSocketProvider.Throw _ => m1
            end in
  (m2, w', r).

(** ** Relaying one transaction *)

(** What the two networks answer during one invocation of
    [relayTransaction]. *)
Inductive source_answer : Type :=
| GetTransactionRejects                 (* provider.getTransaction throws *)
| GetTransactionResolves (o : option Tx.t).

Inductive wait_answer : Type :=
| WaitRejects                           (* relayedTx.wait() throws *)
| WaitResolves (status : Z).            (* receipt.status *)

Inductive send_answer : Type :=
| SendRejects                           (* wallet.sendTransaction throws *)
| SendResolves (targetHash : string) (w : wait_answer).

Record answers : Type := mkAnswers {
  onGetTransaction : source_answer;
  onSendTransaction : send_answer
}.

(** [ethers.BigNumber.from(s)] on a string (ethers 5): an optional minus
    sign, then either [0x] (any case) and at least one hexadecimal digit, or
    at least one decimal digit; anything else throws ([None]). *)
Fixpoint all_digits (base : Z) (acc : Z) (s : string) : option Z :=
  match s with
  | EmptyString => Some acc
  | String c s' =>
      match Js.hex_value c with
      | Some d => if (d <? base)%Z then all_digits base (base * acc + d) s' else None
      | None => None
      end
  end.

Definition magnitude (body : string) : option Z :=
  match body with
  | EmptyString => None
  | String "0" (String "x" EmptyString) => None
  | String "0" (String "X" EmptyString) => None
  | String "0" (String "x" digits) => all_digits 16 0 digits
  | String "0" (String "X" digits) => all_digits 16 0 digits
  | _ => all_digits 10 0 body
  end.

Definition BigNumber_from (s : string) : option Z :=
  match s with
  | String "-" body => option_map Z.opp (magnitude body)
  | _ => magnitude s
  end.

(** The request handed to [wallet.sendTransaction]. *)
Record FormattedTx : Type := mkFormattedTx {
  f_to : string;
  f_value : Z;
  f_data : string;
  f_gasLimit : Z;
  f_gasPrice : Z
}.

Definition format (x : Tx.t) : option FormattedTx :=
  match BigNumber_from (Tx.value x),
        BigNumber_from (Tx.gasLimit x),
        BigNumber_from (Tx.gasPrice x) with
  | Some v, Some gl, Some gp =>
      Some {| f_to := Tx.to x; f_value := v;
              f_data := Js.or_string (Tx.data x) "0x";
              f_gasLimit := gl; f_gasPrice := gp |}
  | _, _, _ => None
  end.

(** The observable history of a run: how many times [relayTransaction] has
    been entered (the index of the next answers), every call of the
    target's [sendTransaction] with the source hash it was made for, and
    the delays slept. *)
Record world : Type := mkWorld {
  calls : nat;
  submissions : list (string * FormattedTx);
  sleeps : list Z
}.

Definition world0 : world := {| calls := 0; submissions := []; sleeps := [] |}.

Definition enter (w : world) : world :=
  {| calls := S (calls w); submissions := submissions w; sleeps := sleeps w |}.
Definition submit (h : string) (f : FormattedTx) (w : world) : world :=
  {| calls := calls w; submissions := submissions w ++ [(h, f)]; sleeps := sleeps w |}.
Definition sleep (ms : Z) (w : world) : world :=
  {| calls := calls w; submissions := submissions w; sleeps := sleeps w ++ [ms] |}.

(** [shouldRetry(txHash)] *)
Definition shouldRetry (txHash : string) (m : t) : bool :=
  (retries (metrics m) <? retryAttempts m)%Z.

(** How the [try] block of [relayTransaction] ends. *)
Inductive try_end : Type :=
| Returned        (* the early [return] on a missing transaction *)
| Completed       (* fell through after the success branch *)
| Raised.         (* an exception reached the [catch] *)

(** The [try] block, after [this.metrics.transactions++]. *)
Definition try_block (a : answers) (txHash : string) (m : t) (w : world)
  : try_end * t * world :=
  match onGetTransaction a with
  | GetTransactionRejects => (Raised, m, w)
  | GetTransactionResolves None => (Returned, m, w)
  | GetTransactionResolves (Some x) =>
      match format x with
      | None => (Raised, m, w)
      | Some f =>
          let w1 := submit txHash f w in
          match onSendTransaction a with
          | SendRejects => (Raised, m, w1)
          | SendResolves _ WaitRejects => (Raised, m, w1)
          | SendResolves _ (WaitResolves st) =>
              if (st =? 1)%Z
              then (Completed, with_metrics m (incr_successful (metrics m)), w1)
              else (Raised, m, w1)
          end
      end
  end.

(** [relayTransaction(txHash)], with [retryTransaction] inlined at its
    one call site.  The recursion is the source's mutual recursion; [fuel]
    bounds its depth and [None] means the bound was too small. *)
Fixpoint relayTransaction_fuel (fuel : nat) (env : nat -> answers)
    (txHash : string) (m : t) (w : world) : option (t * world) :=
  match fuel with
  | O => None
  | S fuel' =>
      let a := env (calls w) in
      let w0 := enter w in
      let m0 := with_metrics m (incr_transactions (metrics m)) in
      match try_block a txHash m0 w0 with
      | (Raised, m1, w1) =>
          let m2 := with_metrics m1 (incr_failed (metrics m1)) in
          if shouldRetry txHash m2 then
            let m3 := with_metrics m2 (incr_retries (metrics m2)) in
            (* retryTransaction: sleep retryDelay, then relay again *)
            relayTransaction_fuel fuel' env txHash m3 (sleep (retryDelay m3) w1)
          else Some (m2, w1)
      | (_, m1, w1) => Some (m1, w1)
      end
  end.

(** Depth that always suffices: one entry, plus one per retry still
    allowed by [shouldRetry]. *)
Definition depth (m : t) : nat :=
  S (Z.to_nat (retryAttempts m - retries (metrics m))).

Definition relayTransaction (env : nat -> answers) (txHash : string)
    (m : t) (w : world) : option (t * world) :=
  relayTransaction_fuel (depth m) env txHash m w.


(** The answers make this invocation succeed, submitting [f]. *)
Definition confirms (a : answers) (f : FormattedTx) : Prop :=
  exists x targetHash,
    onGetTransaction a = GetTransactionResolves (Some x) /\
    format x = Some f /\
    onSendTransaction a = SendResolves targetHash (WaitResolves 1).

(** The submissions made for one source hash. *)
Definition submissions_for (h : string) (w : world) : list (string * FormattedTx) :=
  filter (fun s => String.eqb (fst s) h) (submissions w).

(** ** Connection verification: [waitForConnections(timeout)] *)

Inductive rpc (A : Type) : Type :=
| Rejects
| Resolves (a : A).
Arguments Rejects {A}.
Arguments Resolves {A} a.

(** What one endpoint answers in one polling round. *)
Record poll_answers : Type := mkPoll {
  onBlockNumber : rpc string;          (* send('eth_blockNumber', []) *)
  onChainId : rpc string               (* send('eth_chainId', []) *)
}.

(** One polling round as the outside world presents it: the value of
    [Date.now() - start] when the loop condition is evaluated, and the
    answers each endpoint would give if asked. *)
Record round : Type := mkRound {
  elapsed : Z;
  src : poll_answers;
  tgt : poll_answers
}.

(** An RPC issued by the loop: round number, endpoint, method. *)
Definition rpc_call : Type := (nat * network * string)%type.

Definition maxAttempts : nat := 5.
Definition verifyRetryDelay : Z := 2000.
Definition settleDelay : Z := 3000.

(** The local helper [verifyChainId(provider, expectedChainId)]: the
    answer is whatever the endpoint sent, parsed to a Number and compared
    with [===]. *)
Definition verifyChainId (a : rpc string) (expected : option Z) : bool :=
  match a with
  | Rejects => false
  | Resolves chainIdHex => Js.strict_eq (Js.parseInt16_number chainIdHex) expected
  end.

(** One guarded block [if (provider && !verified) { try { ... } catch {} }]:
    the flag afterwards and the RPCs issued. *)
Definition poll (present verified : bool) (n : network) (attempt : nat)
    (a : poll_answers) (expected : option Z) : bool * list rpc_call :=
  if present && negb verified then
    match onBlockNumber a with
    | Rejects => (false, [(attempt, n, "eth_blockNumber")])
    | Resolves _ =>
        (verifyChainId (onChainId a) expected,
         [(attempt, n, "eth_blockNumber"); (attempt, n, "eth_chainId")])
    end
  else (verified, []).

(** The payload of the error thrown after the loop. *)
Record VerificationFailure : Type := mkFailure {
  failure_attempts : nat;
  failure_timeout : Z;
  failure_sourceVerified : bool;
  failure_targetVerified : bool
}.

Inductive verdict : Type :=
| ResolvesTrue
| RejectsWith (e : VerificationFailure).

(** The locals of [waitForConnections] together with what it has done. *)
Record locals : Type := mkLocals {
  sourceVerified : bool;
  targetVerified : bool;
  attempts : nat;
  manager : t;
  issued : list rpc_call;
  slept : list Z
}.

(** The body of the [try] in one iteration, after [attempts++] and up to
    the test of both flags: the two guarded polls, source first. *)
Definition round_step (r : round) (l : locals) : locals :=
  let k := S (attempts l) in
  let m := manager l in
  let '(sv, calls_s) :=
    poll (provider m) (sourceVerified l) source k (src r) (sourceChainId m) in
  let m1 := if sv && negb (sourceVerified l)
            then set_connectionState source true m else m in
  let '(tv, calls_t) :=
    poll (ethProvider m) (targetVerified l) target k (tgt r) (Some 1) in
  let m2 := if tv && negb (targetVerified l)
            then set_connectionState target true m1 else m1 in
  {| sourceVerified := sv; targetVerified := tv; attempts := k;
     manager := m2;
     issued := issued l ++ calls_s ++ calls_t;
     slept := slept l |}.

(** [await new Promise(resolve => setTimeout(resolve, retryDelay))] *)
Definition sleep_retry (l : locals) : locals :=
  {| sourceVerified := sourceVerified l; targetVerified := targetVerified l;
     attempts := attempts l; manager := manager l; issued := issued l;
     slept := slept l ++ [verifyRetryDelay] |}.

(** The error built after the loop from the locals. *)
Definition failure_of (timeout : Z) (l : locals) : VerificationFailure :=
  {| failure_attempts := attempts l; failure_timeout := timeout;
     failure_sourceVerified := sourceVerified l;
     failure_targetVerified := targetVerified l |}.

(** The [while] loop.  [remaining] is [maxAttempts - attempts]: the test
    [attempts < maxAttempts] is [remaining <> 0]; [env k] is what round
    [k] meets.  Leaving the loop reaches the [throw] after it. *)
Fixpoint poll_loop (remaining : nat) (env : nat -> round) (timeout : Z)
    (l : locals) : verdict * locals :=
  match remaining with
  | O => (RejectsWith (failure_of timeout l), l)
  | S remaining' =>
      let r := env (S (attempts l)) in
      if (elapsed r <? timeout)%Z then
        let l1 := round_step r l in
        if sourceVerified l1 && targetVerified l1 then (ResolvesTrue, l1)
        else poll_loop remaining' env timeout (sleep_retry l1)
      else (RejectsWith (failure_of timeout l), l)
  end.

Definition waitForConnections (timeout : Z) (env : nat -> round) (m : t)
  : verdict * locals :=
  poll_loop maxAttempts env timeout
    {| sourceVerified := false; targetVerified := false; attempts := 0;
       manager := m; issued := []; slept := [settleDelay] |}.

(** An endpoint's answers in round [i] verify it: the liveness query
    answers and the reported chain id is the expected one. *)
Definition answers_verify (a : poll_answers) (expected : option Z) : bool :=
  match onBlockNumber a with
  | Rejects => false
  | Resolves _ => verifyChainId (onChainId a) expected
  end.

Definition source_ok (env : nat -> round) (m : t) (i : nat) : bool :=
  provider m && answers_verify (src (env i)) (sourceChainId m).

Definition target_ok (env : nat -> round) (m : t) (i : nat) : bool :=
  ethProvider m && answers_verify (tgt (env i)) (Some 1).

Definition endpoint_ok (env : nat -> round) (m : t) (n : network) (i : nat) : bool :=
  match n with
  | source => source_ok env m i
  | target => target_ok env m i
  end.

(** The loop touches the manager's connection flags only: the providers
    and the expected source chain id are those of the manager [m0] it
    started with. *)
Definition same_config (m0 : t) (l : locals) : Prop :=
  provider (manager l) = provider m0 /\
  ethProvider (manager l) = ethProvider m0 /\
  sourceChainId (manager l) = sourceChainId m0.

(** After [attempts l] rounds: a flag that is still down means the
    endpoint's answers verified it in none of these rounds, and every RPC
    issued so far went, in one of these rounds, to an endpoint whose
    answers had verified it in no earlier round. *)
Definition polls_justified (env : nat -> round) (m0 : t) (l : locals) : Prop :=
  (sourceVerified l = false ->
   forall j, (1 <= j <= attempts l)%nat -> source_ok env m0 j = false) /\
  (targetVerified l = false ->
   forall j, (1 <= j <= attempts l)%nat -> target_ok env m0 j = false) /\
  (forall i n method, In (i, n, method) (issued l) ->
     (1 <= i <= attempts l)%nat /\
     forall j, (1 <= j < i)%nat -> endpoint_ok env m0 n j = false).

(** ** Blocks and shutdown *)

(** What [provider.getBlock(blockNumber)] answers. *)
Inductive block_answer : Type :=
| GetBlockRejects
| GetBlockResolves (b : option Block.t).

(** The [for ... of] loop of [handleNewBlock]: the hashes are relayed one
    after the other, each call awaited before the next starts.  [envFor h]
    is what the two networks answer to the calls made for [h]. *)
Fixpoint relay_each (envFor : string -> nat -> answers) (hashes : list string)
    (m : t) (w : world) : option (t * world) :=
  match hashes with
  | [] => Some (m, w)
  | h :: rest =>
      match relayTransaction (envFor h) h m w with
      | Some (m1, w1) => relay_each envFor rest m1 w1
      | None => None
      end
  end.

(** How [handleNewBlock] ends: it has no [try], so a rejection of
    [getBlock] leaves it as a rejection. *)
Inductive handled : Type :=
| Handled (m : t) (w : world)
| GetBlockFailed.

(** [handleNewBlock(blockNumber)] *)
Definition handleNewBlock (blk : block_answer) (envFor : string -> nat -> answers)
    (m : t) (w : world) : option handled :=
  match blk with
  | GetBlockRejects => Some GetBlockFailed
  | GetBlockResolves None => Some (Handled m w)
  | GetBlockResolves (Some b) =>
      match relay_each envFor (Block.transactions b) m w with
      | Some (m', w') => Some (Handled m' w')
      | None => None
      end
  end.

(** The source side played by the mock provider. *)
Definition block_of (r : MockWebSocketProvider.result Block.t) : block_answer :=
  match r with
  | MockWebSocketProvider.Ok b => GetBlockResolves (Some b)
  | MockWebSocketProvider.Throw _ => GetBlockRejects
  end.

Definition source_of (r : MockWebSocketProvider.result (option Tx.t)) : source_answer :=
  match r with
  | MockWebSocketProvider.Ok o => GetTransactionResolves o
  | MockWebSocketProvider.Throw _ => GetTransactionRejects
  end.

Definition mock_answers (src : MockWebSocketProvider.t) (target : nat -> send_answer)
    (h : string) (k : nat) : answers :=
  {| onGetTransaction := source_of (MockWebSocketProvider.getTransaction h src);
     onSendTransaction := target k |}.

(** [handleNewBlock(blockNumber)] with the mock provider [src] as source. *)
Definition handleNewBlock_mock (src : MockWebSocketProvider.t)
    (target : nat -> send_answer) (blockNumber now : Z) (m : t) (w : world)
  : option handled :=
  handleNewBlock (block_of (MockWebSocketProvider.getBlock blockNumber now src))
    (mock_answers src target) m w.

(** [stop()] on a manager that [initialize] has wired to the mock provider:
    [provider.disconnect()] emits 'disconnect', whose listener is
    [handleDisconnect('source')]. *)
Definition stop_mock (m : t) (src : MockWebSocketProvider.t)
  : t * MockWebSocketProvider.t * MockWebSocketProvider.result unit :=
  if provider m then
    let '(src1, _) := MockWebSocketProvider.disconnect src in
    handleDisconnect_mock m src1
  else (m, src, MockWebSocketProvider.Ok tt).

End RelayManager.

(* ===================================================================== *)
(** * [TransactionMonitor] (src/scripts/monitoring/transaction-monitor.js) *)
(* ===================================================================== *)

Module TransactionMonitor.

Record t : Type := mk {
  isRunning : bool;
  reconnectAttempts : Z;
  maxReconnectAttempts : Z;
  reconnectDelay : Z
}.

(** The constructor's state. *)
Definition new : t :=
  {| isRunning := false; reconnectAttempts := 0;
     maxReconnectAttempts := 5; reconnectDelay := 1000 |}.

(** [start()], when set-up succeeds. *)
Definition start (m : t) : t :=
  {| isRunning := true; reconnectAttempts := reconnectAttempts m;
     maxReconnectAttempts := maxReconnectAttempts m;
     reconnectDelay := reconnectDelay m |}.

(** [stop()], when the clean-up it awaits succeeds: a no-op unless
    running. *)
Definition stop (m : t) : t :=
  if isRunning m then
    {| isRunning := false; reconnectAttempts := reconnectAttempts m;
       maxReconnectAttempts := maxReconnectAttempts m;
       reconnectDelay := reconnectDelay m |}
  else m.

(** The 'open' listener installed by [setupWebSocket]. *)
Definition on_open (m : t) : t :=
  {| isRunning := isRunning m; reconnectAttempts := 0;
     maxReconnectAttempts := maxReconnectAttempts m;
     reconnectDelay := 1000 |}.

(** What [handleReconnection] does besides updating its fields. *)
Inductive action : Type :=
| Stop                               (* await this.stop(); return *)
| ScheduleReconnect (delay : Z).     (* setTimeout(reconnect, this.reconnectDelay) *)

(** [handleReconnection()], the 'close' listener. *)
Definition handleReconnection (m : t) : t * action :=
  if (maxReconnectAttempts m <=? reconnectAttempts m)%Z then (stop m, Stop)
  else
    let m' := {| isRunning := isRunning m;
                 reconnectAttempts := reconnectAttempts m + 1;
                 maxReconnectAttempts := maxReconnectAttempts m;
                 reconnectDelay := reconnectDelay m * 2 |} in
    (m', ScheduleReconnect (reconnectDelay m')).

(** [n] 'close' events in a row with no 'open' between them. *)
Fixpoint closes (n : nat) (m : t) : t * list action :=
  match n with
  | O => (m, [])
  | S n' =>
      let '(m1, a) := handleReconnection m in
      let '(m2, rest) := closes n' m1 in
      (m2, a :: rest)
  end.

(** The socket events the listeners of [setupWebSocket] react to. *)
Inductive socket_event : Type :=
| SocketOpen
| SocketClose.

Definition on_event (e : socket_event) (m : t) : t * list action :=
  match e with
  | SocketOpen => (on_open m, [])
  | SocketClose => let '(m', a) := handleReconnection m in (m', [a])
  end.

(** A history of socket events, in order, with the actions taken. *)
Fixpoint run (events : list socket_event) (m : t) : t * list action :=
  match events with
  | [] => (m, [])
  | e :: rest =>
      let '(m1, acts) := on_event e m in
      let '(m2, more) := run rest m1 in
      (m2, (acts ++ more)%list)
  end.

(** The backoff fields agree with each other: the ceiling is the
    constructor's 5, the attempt counter is within it, and the delay is the
    1s base doubled once per counted attempt. *)
Definition backoff_consistent (m : t) : Prop :=
  maxReconnectAttempts m = 5 /\
  0 <= reconnectAttempts m <= 5 /\
  reconnectDelay m = 1000 * 2 ^ reconnectAttempts m.

End TransactionMonitor.

(* ===================================================================== *)
(** * [MainnetRelay] (src/scripts/relay/relay-manager.js, lines 451-637) *)
(* ===================================================================== *)

Module MainnetRelay.

(** The argument of [relayTransaction]; [None] is an absent field. *)
Record Transaction : Type := mkTransaction {
  to : string;
  value : option Z;
  data : option string;
  gasLimit : option Z;
  maxFeePerGas : option Z;
  maxPriorityFeePerGas : option Z
}.

Record Receipt : Type := mkReceipt {
  status : Z;
  blockNumber : Z;
  gasUsed : Z;
  effectiveGasPrice : Z
}.

Inductive rpc (A : Type) : Type :=
| Rejects (message : string)
| Resolves (a : A).
Arguments Rejects {A} message.
Arguments Resolves {A} a.

(** What the target network and the clock answer during one pass through
    the [try] block. *)
Record answers : Type := mkAnswers {
  onEstimateGas : Z;                   (* this.estimateGas(...), which never throws *)
  onGetTransactionCount : rpc Z;
  onGetGasPrice : rpc Z;
  onSendTransaction : rpc string;      (* sentTx.hash *)
  onGetNetwork : rpc unit;
  onWait : rpc Receipt;
  onNow : Z                            (* Date.now() *)
}.

(** The request handed to [wallet.sendTransaction]. *)
Record Request : Type := mkRequest {
  r_to : string;
  r_value : Z;
  r_data : string;
  r_gasLimit : Z;
  r_nonce : Z;
  r_type : option Z;
  r_maxFeePerGas : option Z;
  r_maxPriorityFeePerGas : option Z;
  r_gasPrice : option Z
}.

Record TxInfo : Type := mkTxInfo {
  i_status : Z;
  i_blockNumber : Z;
  i_timestamp : Z;
  i_gasUsed : string;
  i_effectiveGasPrice : string
}.

Inductive error : Type :=
| RelayNotInitialized                 (* 'Relay not initialized' *)
| GasPriceExceedsMaximum              (* 'Gas price exceeds maximum allowed' *)
| TransactionFailedOnChain            (* 'Transaction failed on-chain' *)
| External (message : string)         (* a rejection of an awaited call *)
| TypeError (message : string)
| ReferenceError (identifier : string).

Record t : Type := mk {
  isInitialized : bool;
  transactions : JsMap.t TxInfo;
  successesRecorded : Z;              (* metrics.recordTransactionSuccess calls *)
  failuresRecorded : Z;               (* metrics.recordTransactionFailure calls *)
  timersEnded : Z                     (* calls of [end()] *)
}.

Definition new : t :=
  {| isInitialized := false; transactions := JsMap.empty;
     successesRecorded := 0; failuresRecorded := 0; timersEnded := 0 |}.

(** [initialize(privateKey)] with a well-formed key. *)
Definition initialize (s : t) : t :=
  {| isInitialized := true; transactions := transactions s;
     successesRecorded := successesRecorded s;
     failuresRecorded := failuresRecorded s; timersEnded := timersEnded s |}.

(** A value handed to a metric. *)
Inductive metric_value : Type :=
| MetricNumber (z : Z)
| MetricString (s : string).

(** [metrics.updateGasUsage(gasAmount)] of the repository's
    [MetricsCollector] (monitoring/metrics.js) is
    [gasUsageGauge.set(gasAmount)], and prom-client's [Gauge.set] throws a
    TypeError for a value whose type is not number; [None]: it returns. *)
Definition updateGasUsage (gasAmount : metric_value) : option error :=
  match gasAmount with
  | MetricNumber _ => None
  | MetricString shown => Some (TypeError ("Value is not a valid number: " +:+ shown))
  end.

(** [!x] on an optional number: absent and [0] are falsy. *)
Definition falsy (x : option Z) : bool :=
  match x with
  | None => true
  | Some v => (v =? 0)%Z
  end.

(** The [try] block of the loop body: what it did to the relay, the
    requests it submitted, and how it ended ([inl]: the returned hash and
    record; [inr]: the exception raised).  After a confirmed receipt the
    record is stored and the success counted before [updateGasUsage] is
    called with the gas used as a string; [end()] and the [return] come
    after that call. *)
Definition try_block (maxGasPrice : Z) (a : answers) (x : Transaction) (s : t)
  : t * list Request * (string * TxInfo + error) :=
  let gasLimit_ := match gasLimit x with
                   | Some g => if (g =? 0)%Z then onEstimateGas a else g
                   | None => onEstimateGas a
                   end in
  match onGetTransactionCount a with
  | Rejects msg => (s, [], inr (External msg))
  | Resolves nonce =>
      let legacy := falsy (maxFeePerGas x) || falsy (maxPriorityFeePerGas x) in
      let priced : option Z + error :=
        if legacy then
          match onGetGasPrice a with
          | Rejects msg => inr (External msg)
          | Resolves gasPrice =>
              if (maxGasPrice <? gasPrice)%Z then inr GasPriceExceedsMaximum
              else inl (Some gasPrice)
          end
        else inl None in
      match priced with
      | inr e => (s, [], inr e)
      | inl gp =>
          let req :=
            {| r_to := to x;
               r_value := default 0 (value x);
               r_data := Js.or_string (default EmptyString (data x)) "0x";
               r_gasLimit := gasLimit_;
               r_nonce := nonce;
               r_type := if legacy then None else Some 2;
               r_maxFeePerGas := if legacy then None else maxFeePerGas x;
               r_maxPriorityFeePerGas := if legacy then None else maxPriorityFeePerGas x;
               r_gasPrice := gp |} in
          match onSendTransaction a with
          | Rejects msg => (s, [req], inr (External msg))
          | Resolves h =>
              match onGetNetwork a with
              | Rejects msg => (s, [req], inr (External msg))
              | Resolves _ =>
                  match onWait a with
                  | Rejects msg => (s, [req], inr (External msg))
                  | Resolves rc =>
                      if (status rc =? 0)%Z then (s, [req], inr TransactionFailedOnChain)
                      else
                        let info :=
                          {| i_status := status rc;
                             i_blockNumber := blockNumber rc;
                             i_timestamp := onNow a;
                             i_gasUsed := Js.toString (gasUsed rc);
                             i_effectiveGasPrice := Js.toString (effectiveGasPrice rc) |} in
                        let recorded :=
                          {| isInitialized := isInitialized s;
                             transactions := JsMap.set h info (transactions s);
                             successesRecorded := successesRecorded s + 1;
                             failuresRecorded := failuresRecorded s;
                             timersEnded := timersEnded s |} in
                        match updateGasUsage (MetricString (Js.toString (gasUsed rc))) with
                        | Some e => (recorded, [req], inr e)
                        | None =>
                            ({| isInitialized := isInitialized recorded;
                                transactions := transactions recorded;
                                successesRecorded := successesRecorded recorded;
                                failuresRecorded := failuresRecorded recorded;
                                timersEnded := timersEnded recorded + 1 |},
                             [req], inl (h, info))
                        end
                  end
              end
          end
      end
  end.

Inductive outcome : Type :=
| ReturnsSuccess (hash : string) (info : TxInfo)
| ReturnsUndefined                    (* the loop is never entered *)
| Throws (e : error).

(** A finished call: the relay afterwards, the final value of the local
    [attempts], the requests handed to [sendTransaction], how it ended. *)
Record run : Type := mkRun {
  relay : t;
  attempts : Z;
  submitted : list Request;
  result : outcome
}.

(** [relayTransaction(transaction)].  The [catch] block increments
    [attempts], logs, and then evaluates [sentTx?.hash].  [sentTx] is a
    [const] of the [try] block; where the [catch] block runs it is not in
    scope and no enclosing scope declares it, so evaluating the reference
    throws a ReferenceError (optional chaining guards the property access,
    not the resolution of the identifier).  The statements after it (the
    failure metric, the ceiling test, the delay and the next iteration)
    are therefore never reached, and the loop body always leaves the
    function. *)
Definition relayTransaction (maxRetries maxGasPrice : Z) (a : answers)
    (x : Transaction) (s : t) : run :=
  if negb (isInitialized s) then
    {| relay := s; attempts := 0; submitted := []; result := Throws RelayNotInitialized |}
  else
    let attempts0 := 0 in
    if (attempts0 <? maxRetries)%Z then
      match try_block maxGasPrice a x s with
      | (s', reqs, inl (h, info)) =>
          {| relay := s'; attempts := attempts0; submitted := reqs;
             result := ReturnsSuccess h info |}
      | (s', reqs, inr e) =>
          let attempts1 := attempts0 + 1 in
          {| relay := s'; attempts := attempts1; submitted := reqs;
             result := Throws (ReferenceError "sentTx") |}
      end
    else
      {| relay := s; attempts := attempts0; submitted := []; result := ReturnsUndefined |}.

(** [ethers.utils.parseUnits('100', 'gwei')]: the default ceiling. *)
Definition defaultMaxGasPrice : Z := 100 * 1000000000.

(** [estimateGas(transaction)]: the provider's estimate scaled by
    [bufferBasisPoints / 100] with BigNumber's truncating division, or the
    fallback when the estimate fails.  [bufferBasisPoints] is the value of
    [Math.floor(buffer * 100)]. *)
Definition estimateGas (bufferBasisPoints : Z) (a : rpc Z) : Z :=
  match a with
  | Rejects _ => 500000
  | Resolves estimate => Z.quot (estimate * bufferBasisPoints) 100
  end.

(** [getTransaction(hash)]: [None] is [undefined]. *)
Definition getTransaction (h : string) (s : t) : option TxInfo :=
  JsMap.get h (transactions s).

(** [getAllTransactions()]: each entry as its hash with its record. *)
Definition getAllTransactions (s : t) : list (string * TxInfo) := transactions s.


End MainnetRelay.

(* ===================================================================== *)
(** * [MockRelay] (src/unnamed/part_002, lines 296-419) *)
(* ===================================================================== *)

Module MockRelay.

Record Metrics : Type := mkMetrics {
  started : Z;
  successful : Z;
  failed : Z;
  gasUsed : option Z;                  (* [None]: NaN *)
  lastBlockNumber : Z
}.

Record t : Type := mk {
  wsProvider : MockWebSocketProvider.t;
  isRunning : bool;
  metrics : Metrics
}.

(** [new MockRelay(config)] *)
Definition new (chain : Z) (nm : string) : t :=
  {| wsProvider := MockWebSocketProvider.new "wss://mock.defi-oracle.io" chain nm;
     isRunning := false;
     metrics := {| started := 0; successful := 0; failed := 0;
                   gasUsed := Some 0; lastBlockNumber := 0 |} |}.

Definition with_metrics (r : t) (x : Metrics) : t :=
  {| wsProvider := wsProvider r; isRunning := isRunning r; metrics := x |}.

Definition with_provider (r : t) (w : MockWebSocketProvider.t) : t :=
  {| wsProvider := w; isRunning := isRunning r; metrics := metrics r |}.

(** What [simulateRelayToMainnet(tx)] returns: the transaction with three
    fields overwritten. *)
Record Relayed : Type := mkRelayed {
  relayed_tx : Tx.t;
  relayed_status : Z;
  relayed_gasUsed : string;
  relayed_hash : string
}.

Definition simulateRelayToMainnet (now : Z) (x : Tx.t) : Relayed :=
  {| relayed_tx := x; relayed_status := 1; relayed_gasUsed := "50000";
     relayed_hash := MockProvider.hash_of_time now |}.

(** [gasUsed += parseInt(s)] *)
Definition add_gas (g : option Z) (s : string) : option Z :=
  match g, Js.parseInt s with
  | Some a, Some b => Some (a + b)
  | _, _ => None
  end.

(** [processTransaction(txHash)]; [now] is the clock read by the simulated
    relay. *)
Definition processTransaction (txHash : string) (now : Z) (r : t) : t :=
  let x := metrics r in
  match MockWebSocketProvider.getTransaction txHash (wsProvider r) with
  | MockWebSocketProvider.Throw _ =>
      with_metrics r
        {| started := started x; successful := successful x; failed := failed x + 1;
           gasUsed := gasUsed x; lastBlockNumber := lastBlockNumber x |}
  | MockWebSocketProvider.Ok None => r
  | MockWebSocketProvider.Ok (Some tx) =>
      let relayedTx := simulateRelayToMainnet now tx in
      if (relayed_status relayedTx =? 1)%Z then
        with_metrics r
          {| started := started x + 1; successful := successful x + 1;
             failed := failed x;
             gasUsed := add_gas (gasUsed x) (relayed_gasUsed relayedTx);
             lastBlockNumber := lastBlockNumber x |}
      else
        with_metrics r
          {| started := started x + 1; successful := successful x;
             failed := failed x + 1;
             gasUsed := gasUsed x; lastBlockNumber := lastBlockNumber x |}
  end.

(** The loop of [processBlock]; [clock i] is the clock reading while the
    [i]-th hash is processed. *)
Fixpoint processEach (hashes : list string) (clock : nat -> Z) (i : nat) (r : t) : t :=
  match hashes with
  | [] => r
  | h :: rest => processEach rest clock (S i) (processTransaction h (clock i) r)
  end.

(** [processBlock(blockNumber)]: a failure of [getBlock] is caught and
    logged. *)
Definition processBlock (blockNumber : Z) (clock : nat -> Z) (r : t) : t :=
  match MockWebSocketProvider.getBlock blockNumber (clock 0%nat) (wsProvider r) with
  | MockWebSocketProvider.Throw _ => r
  | MockWebSocketProvider.Ok block => processEach (Block.transactions block) clock 1 r
  end.

(** The 'block' listener installed by [start]. *)
Definition on_block (blockNumber : Z) (clock : nat -> Z) (r : t) : t :=
  let x := metrics r in
  processBlock blockNumber clock
    (with_metrics r
       {| started := started x; successful := successful x; failed := failed x;
          gasUsed := gasUsed x; lastBlockNumber := blockNumber |}).

(** [generateAndProcessTransaction()]: a failure to generate is caught and
    logged. *)
Definition generateAndProcessTransaction (now_generate now_relay : Z) (r : t) : t :=
  match MockWebSocketProvider.generateTestTransaction now_generate (wsProvider r) with
  | MockWebSocketProvider.Throw _ => r
  | MockWebSocketProvider.Ok (w, tx) =>
      processTransaction (Tx.hash tx) now_relay (with_provider r w)
  end.

(** [start()]: the relay afterwards, and whether [connect] let it
    through. *)
Definition start (r : t) : t * MockWebSocketProvider.result unit :=
  let '(w, _, res) := MockWebSocketProvider.connect (wsProvider r) in
  ({| wsProvider := w; isRunning := true; metrics := metrics r |}, res).

(** [stop()] *)
Definition stop (r : t) : t :=
  {| wsProvider := fst (MockWebSocketProvider.disconnect (wsProvider r));
     isRunning := false; metrics := metrics r |}.

(** What can happen to a mock relay, one step at a time: its own methods,
    a block announcement reaching its listener, the periodic generator, and
    a firing of the simulator's block timer. *)
Inductive step : Type :=
| DoStart
| DoStop
| DoBlock (blockNumber : Z) (clock : nat -> Z)
| DoGenerate (now_generate now_relay : Z)
| DoProcess (txHash : string) (now : Z)
| DoTick (nows : list Z).

Definition perform (s : step) (r : t) : t :=
  match s with
  | DoStart => fst (start r)
  | DoStop => stop r
  | DoBlock n clock => on_block n clock r
  | DoGenerate g n => generateAndProcessTransaction g n r
  | DoProcess h now => processTransaction h now r
  | DoTick nows =>
      with_provider r (fst (MockWebSocketProvider.on_tick nows (wsProvider r)))
  end.

Definition perform_all (steps : list step) (r : t) : t :=
  fold_left (fun acc s => perform s acc) steps r.

(** The counters agree with each other: every relay that was started
    succeeded, and the gas total is 50000 per success. *)
Definition metrics_consistent (r : t) : Prop :=
  started (metrics r) = successful (metrics r) /\
  gasUsed (metrics r) = Some (50000 * successful (metrics r)) /\
  0 <= successful (metrics r) /\
  0 <= failed (metrics r).

End MockRelay.

(* ===================================================================== *)
(** * Concrete inputs used by the examples *)
(* ===================================================================== *)

Module Scenario.

(** The transaction the simulator synthesizes first at clock reading
    1700000000000. *)
Definition sourceTx : Tx.t :=
  snd (MockProvider.generateMockTransaction 1700000000000
         (MockProvider.new 138 "defi-oracle-meta")).


(** A target whose receipts always report success (status 1). *)
Definition alwaysConfirms (k : nat) : RelayManager.answers :=
  {| RelayManager.onGetTransaction := RelayManager.GetTransactionResolves (Some sourceTx);
     RelayManager.onSendTransaction :=
       RelayManager.SendResolves "0xtarget" (RelayManager.WaitResolves 1) |}.

(** The manager as constructed with the repository's configuration
    ([retryAttempts = 3], [retryDelay = 1000]) and source chain 138. *)
Definition manager : RelayManager.t :=
  RelayManager.with_providers (RelayManager.new 3 1000 (Some 138)).


(** Answers of a healthy target whose current gas price is [gasPrice]. *)
Definition targetAt (gasPrice : Z) : MainnetRelay.answers :=
  {| MainnetRelay.onEstimateGas := 25200;
     MainnetRelay.onGetTransactionCount := MainnetRelay.Resolves 7;
     MainnetRelay.onGetGasPrice := MainnetRelay.Resolves gasPrice;
     MainnetRelay.onSendTransaction := MainnetRelay.Resolves "0xsent";
     MainnetRelay.onGetNetwork := MainnetRelay.Resolves tt;
     MainnetRelay.onWait :=
       MainnetRelay.Resolves
         {| MainnetRelay.status := 1; MainnetRelay.blockNumber := 42;
            MainnetRelay.gasUsed := 21000;
            MainnetRelay.effectiveGasPrice := gasPrice |};
     MainnetRelay.onNow := 1700000000000 |}.

(** A transfer without EIP-1559 fee fields, and one that carries them. *)
Definition legacyTransfer : MainnetRelay.Transaction :=
  {| MainnetRelay.to := "0x2222222222222222222222222222222222222222";
     MainnetRelay.value := Some 1; MainnetRelay.data := None;
     MainnetRelay.gasLimit := Some 21000;
     MainnetRelay.maxFeePerGas := None;
     MainnetRelay.maxPriorityFeePerGas := None |}.


Definition gwei (n : Z) : Z := n * 1000000000.

(** What [waitForConnections] reads from an answer of the mock's
    [send]. *)
Definition answer_of
    (r : MockWebSocketProvider.result MockWebSocketProvider.rpc_value)
  : RelayManager.rpc string :=
  match r with
  | MockWebSocketProvider.Ok (MockWebSocketProvider.VString s) => RelayManager.Resolves s
  | MockWebSocketProvider.Ok _ => RelayManager.Resolves EmptyString
  | MockWebSocketProvider.Throw _ => RelayManager.Rejects
  end.

(** The mock source provider for chain 138, once connected. *)
Definition connectedSource : MockWebSocketProvider.t :=
  fst (fst (MockWebSocketProvider.connect
              (MockWebSocketProvider.new "wss://mock.defi-oracle.io" 138 "defi-oracle-meta"))).

Definition sourceAnswers (w : MockWebSocketProvider.t) : RelayManager.poll_answers :=
  {| RelayManager.onBlockNumber :=
       answer_of (MockWebSocketProvider.send "eth_blockNumber" [] 0 w);
     RelayManager.onChainId :=
       answer_of (MockWebSocketProvider.send "eth_chainId" [] 0 w) |}.

(** A target that answers the liveness query and reports chain id
    [chain] as a hexadecimal string. *)
Definition targetAnswers (chain : Z) : RelayManager.poll_answers :=
  {| RelayManager.onBlockNumber := RelayManager.Resolves "0x12a05f2";
     RelayManager.onChainId := RelayManager.Resolves ("0x" +:+ Js.toString16 chain) |}.

(** Every round: 3s after the start plus 2s per earlier round, the mock
    source on chain 138, and a target reporting [chain]. *)
Definition rounds (chain : Z) (k : nat) : RelayManager.round :=
  {| RelayManager.elapsed := 3000 + 2000 * (Z.of_nat k - 1);
     RelayManager.src := sourceAnswers connectedSource;
     RelayManager.tgt := targetAnswers chain |}.

(** The target reports a foreign chain in the first two rounds and chain 1
    from the third on. *)
Definition slowTarget (k : nat) : RelayManager.round :=
  {| RelayManager.elapsed := 3000 + 2000 * (Z.of_nat k - 1);
     RelayManager.src := sourceAnswers connectedSource;
     RelayManager.tgt := targetAnswers (if (k <? 3)%nat then 5 else 1) |}.

(** The mock source keeps producing blocks while the verification runs:
    by round [k] its timer has fired [k] times; the target reports a
    foreign chain in the first two rounds and chain 1 from the third on. *)
Definition firings (k : nat) : list (list Z) :=
  map (fun i => [1700000000000 + 5000 * Z.of_nat i]) (seq 0 k).

Definition tickingSource (k : nat) : RelayManager.round :=
  {| RelayManager.elapsed := 3000 + 2000 * (Z.of_nat k - 1);
     RelayManager.src :=
       sourceAnswers (MockWebSocketProvider.after_ticks (firings k) connectedSource);
     RelayManager.tgt := targetAnswers (if (k <? 3)%nat then 5 else 1) |}.

(** The manager configured for a target on chain 5, with a target that
    reports chain 5 in every round. *)
Definition managerForChain5 : RelayManager.t :=
  RelayManager.with_ethereumChainId 5 manager.

(** A block naming three hashes, and two networks for which the second
    hash cannot be fetched from the source while the others relay and
    confirm. *)
Definition threeHashes : Block.t :=
  {| Block.number := 1; Block.hash := MockProvider.block_hash 1;
     Block.timestamp := 1700000000;
     Block.transactions := ["0xa"; "0xb"; "0xc"] |}.

Definition fetchable (h : string) : bool := negb (String.eqb h "0xb").

Definition patchy (h : string) (k : nat) : RelayManager.answers :=
  if fetchable h then alwaysConfirms k
  else {| RelayManager.onGetTransaction := RelayManager.GetTransactionResolves None;
          RelayManager.onSendTransaction := RelayManager.SendRejects |}.

(** A target that confirms every submission. *)
Definition confirmingTarget (k : nat) : RelayManager.send_answer :=
  RelayManager.SendResolves "0xtarget" (RelayManager.WaitResolves 1).

(** The connected mock source after two firings of its block timer, with
    two and one syntheses. *)
Definition sourceAfterTwoBlocks : MockWebSocketProvider.t :=
  fst (MockWebSocketProvider.on_tick [1700000010000]
         (fst (MockWebSocketProvider.on_tick [1700000005000; 1700000005001]
                 connectedSource))).

(** A mock relay that was started and whose periodic generator has fired
    twice, and a clock for the block handler. *)
Definition runningMockRelay : MockRelay.t :=
  MockRelay.perform_all
    [MockRelay.DoStart;
     MockRelay.DoGenerate 1700000010000 1700000011000;
     MockRelay.DoGenerate 1700000020000 1700000021000]
    (MockRelay.new 138 "defi-oracle-meta").

Definition blockClock (i : nat) : Z := 1700000025000 + 1000 * Z.of_nat i.

End Scenario.

(** Linear arithmetic with division and remainder by constants. *)
Ltac div_lia := zify; Z.to_euclidean_division_equations; lia.

(* ===================================================================== *)
(** * Properties of the chain simulator *)
(* ===================================================================== *)

Section MockProviderFacts.
Import MockProvider.
#[local] Arguments tick : simpl never.
#[local] Arguments generateMockTransaction : simpl never.

Lemma generate_keeps_blockNumber now p :
  blockNumber (fst (generateMockTransaction now p)) = blockNumber p.
Proof. reflexivity. Qed.

Lemma generate_all_keeps_blockNumber nows p :
  blockNumber (fold_left (fun q now => fst (generateMockTransaction now q)) nows p)
  = blockNumber p.
Proof.
  revert p. induction nows as [|now nows IH]; intros p; simpl; [reflexivity|].
  rewrite IH. apply generate_keeps_blockNumber.
Qed.

Lemma tick_event nows p : snd (tick nows p) = blockNumber p + 1.
Proof. unfold tick. cbn [snd]. apply generate_all_keeps_blockNumber. Qed.

Lemma tick_blockNumber nows p :
  blockNumber (fst (tick nows p)) = blockNumber p + 1.
Proof. unfold tick. cbn [fst]. apply generate_all_keeps_blockNumber. Qed.

Lemma produce_cons nows rest p :
  produce (nows :: rest) p =
  (fst (produce rest (fst (tick nows p))),
   snd (tick nows p) :: snd (produce rest (fst (tick nows p)))).
Proof.
  cbn [produce]. destruct (tick nows p) as [p1 ev]. cbn [fst snd].
  destruct (produce rest p1) as [p2 evs]. reflexivity.
Qed.

Lemma produce_events ticks : forall p i a,
  snd (produce ticks p) !! i = Some a ->
  a = blockNumber p + Z.of_nat (S i).
Proof.
  induction ticks as [|nows rest IH]; intros p i a H.
  - simpl in H. destruct i; discriminate.
  - rewrite produce_cons in H. cbn [snd] in H. destruct i as [|i].
    + change (Some (snd (tick nows p)) = Some a) in H.
      apply (inj Some) in H. rewrite <- H, tick_event. lia.
    + change (snd (produce rest (fst (tick nows p))) !! i = Some a) in H.
      apply IH in H. rewrite tick_blockNumber in H. lia.
Qed.

Lemma produce_length ticks : forall p,
  length (snd (produce ticks p)) = length ticks.
Proof.
  induction ticks as [|nows rest IH]; intros p; [reflexivity|].
  rewrite produce_cons. cbn [snd length]. now rewrite IH.
Qed.

Lemma produce_blockNumber ticks : forall p,
  blockNumber (fst (produce ticks p)) = blockNumber p + Z.of_nat (length ticks).
Proof.
  induction ticks as [|nows rest IH]; intros p.
  - simpl. lia.
  - rewrite produce_cons. cbn [fst]. rewrite IH, tick_blockNumber.
    cbn [length]. lia.
Qed.

End MockProviderFacts.

(** C8.  Within one run of the simulator's block-production timer, the
    block numbers carried by the emitted block events start one above the
    initial height and each is exactly the previous one plus 1; the block
    served right after a tick carries the number that tick emitted. *)
Theorem block_numbers_increase_by_one :
  forall (ticks : list (list Z)) (p : MockProvider.t),
    let events := snd (MockProvider.produce ticks p) in
    length events = length ticks /\
    (forall a, events !! 0%nat = Some a -> a = MockProvider.blockNumber p + 1) /\
    (forall i a b, events !! i = Some a -> events !! S i = Some b -> b = a + 1) /\
    (forall nows now,
        Block.number (MockProvider.getBlock (snd (MockProvider.tick nows p)) now
                        (fst (MockProvider.tick nows p)))
        = MockProvider.blockNumber p + 1).
Proof.
  intros ticks p events. subst events. repeat split.
  - apply produce_length.
  - intros a H. apply produce_events in H. lia.
  - intros i a b Ha Hb. apply produce_events in Ha, Hb. lia.
  - intros nows now. unfold MockProvider.getBlock. cbn [Block.number].
    apply tick_blockNumber.
Qed.

Section JsMapFacts.
Context {V : Type}.
Implicit Types (m : JsMap.t V) (k : string) (v : V).

Lemma keys_set k v m :
  JsMap.keys (JsMap.set k v m) =
  if bool_decide (k ∈ JsMap.keys m) then JsMap.keys m else (JsMap.keys m ++ [k])%list.
Proof.
  induction m as [|[k' v'] m IH]; cbn [JsMap.set JsMap.keys map fst].
  - rewrite bool_decide_eq_false_2; [reflexivity | apply not_elem_of_nil].
  - destruct (String.eqb_spec k k') as [->|Hne]; cbn [map fst].
    + rewrite bool_decide_eq_true_2; [reflexivity | apply list_elem_of_here].
    + fold (JsMap.keys (JsMap.set k v m)). fold (JsMap.keys m). rewrite IH.
      destruct (bool_decide_reflect (k ∈ JsMap.keys m)) as [Hin|Hnin].
      * rewrite bool_decide_eq_true_2; [reflexivity | now apply list_elem_of_further].
      * rewrite bool_decide_eq_false_2; [reflexivity|].
        intros Hin. apply elem_of_cons in Hin as [?|?]; congruence.
Qed.

Lemma keys_set_prefix k v m :
  JsMap.keys m `prefix_of` JsMap.keys (JsMap.set k v m).
Proof.
  rewrite keys_set. case_bool_decide; [reflexivity | now apply prefix_app_r].
Qed.

Lemma size_set_present k v m :
  k ∈ JsMap.keys m -> JsMap.size (JsMap.set k v m) = JsMap.size m.
Proof.
  intros Hin. unfold JsMap.size.
  rewrite <- !(length_map fst). fold (JsMap.keys (JsMap.set k v m)).
  fold (JsMap.keys m). rewrite keys_set, bool_decide_eq_true_2; auto.
Qed.

Lemma get_set_same k v m : JsMap.get k (JsMap.set k v m) = Some v.
Proof.
  induction m as [|[k' v'] m IH]; cbn [JsMap.set JsMap.get].
  - now rewrite String.eqb_refl.
  - destruct (String.eqb_spec k k') as [->|Hne]; cbn [JsMap.get].
    + now rewrite String.eqb_refl.
    + destruct (String.eqb_spec k k'); [congruence | exact IH].
Qed.
End JsMapFacts.

Section SnapshotFacts.
Import MockProvider.
#[local] Arguments tick : simpl never.

Lemma generate_keys_prefix now p :
  JsMap.keys (transactions p)
    `prefix_of` JsMap.keys (transactions (fst (generateMockTransaction now p))).
Proof. apply keys_set_prefix. Qed.

Lemma generate_all_keys_prefix nows : forall p,
  JsMap.keys (transactions p)
    `prefix_of`
  JsMap.keys (transactions
                (fold_left (fun q now => fst (generateMockTransaction now q)) nows p)).
Proof.
  induction nows as [|now nows IH]; intros p; cbn [fold_left]; [reflexivity|].
  etransitivity; [apply (generate_keys_prefix now) | apply IH].
Qed.

Lemma tick_keys_prefix nows p :
  JsMap.keys (transactions p)
    `prefix_of` JsMap.keys (transactions (fst (tick nows p))).
Proof.
  unfold tick. cbn [fst].
  exact (generate_all_keys_prefix nows
           {| blockNumber := blockNumber p + 1; transactions := transactions p;
              chainId := chainId p; name := name p; interval := interval p;
              liveTimers := liveTimers p |}).
Qed.

Lemma produce_keys_prefix ticks : forall p,
  JsMap.keys (transactions p)
    `prefix_of` JsMap.keys (transactions (fst (produce ticks p))).
Proof.
  induction ticks as [|nows rest IH]; intros p; [reflexivity|].
  rewrite produce_cons. cbn [fst].
  etransitivity; [apply (tick_keys_prefix nows) | apply IH].
Qed.

Lemma hashes_of_block_listed n p h :
  h ∈ hashes_of_block n p -> h ∈ JsMap.keys (transactions p).
Proof.
  unfold hashes_of_block, JsMap.keys. intros Hin.
  apply list_elem_of_fmap in Hin as [kv [-> Hkv]].
  apply list_elem_of_fmap. exists kv. split; [reflexivity|].
  apply list_elem_of_filter in Hkv. tauto.
Qed.
End SnapshotFacts.

(** C3, as the code has it.  The simulator keeps no per-block store:
    [getBlock] answers every query with a snapshot of the current head.  Its
    [transactions] field lists, in insertion order, the hashes of all
    transactions held by the simulator (so it contains those stamped with
    any block), and it only grows as blocks are produced; two queries in
    the same simulator state agree on number, hash and transactions
    whatever block they ask for, and a query for the current height gets
    that number back.  The timestamp is the query's wall-clock second. *)
Theorem getBlock_is_head_snapshot :
  forall (p : MockProvider.t) (n now : Z),
    Block.transactions (MockProvider.getBlock n now p)
      = JsMap.keys (MockProvider.transactions p) /\
    (forall n' h, h ∈ MockProvider.hashes_of_block n' p ->
                  h ∈ Block.transactions (MockProvider.getBlock n now p)) /\
    (forall n' now',
        Block.number (MockProvider.getBlock n now p)
          = Block.number (MockProvider.getBlock n' now' p) /\
        Block.hash (MockProvider.getBlock n now p)
          = Block.hash (MockProvider.getBlock n' now' p) /\
        Block.transactions (MockProvider.getBlock n now p)
          = Block.transactions (MockProvider.getBlock n' now' p)) /\
    Block.number (MockProvider.getBlock (MockProvider.blockNumber p) now p)
      = MockProvider.blockNumber p /\
    Block.timestamp (MockProvider.getBlock n now p) = now / 1000 /\
    (forall ticks now',
        Block.transactions (MockProvider.getBlock n now p)
          `prefix_of`
        Block.transactions
          (MockProvider.getBlock n now' (fst (MockProvider.produce ticks p)))).
Proof.
  intros p n now. repeat split.
  - intros n' h Hin. cbn [MockProvider.getBlock Block.transactions].
    now apply hashes_of_block_listed with n'.
  - intros ticks now'. cbn [MockProvider.getBlock Block.transactions].
    apply produce_keys_prefix.
Qed.

(** C3, counterexample.  After two ticks (one transaction each, generated
    at clock readings 1000 and 6000), the query for block 1 returns a block
    numbered 2 whose transaction list also holds the transaction of block 2;
    and the same query made before and after the second tick returns
    different contents. *)
Lemma getBlock_ignores_requested_number :
  let p0 := MockProvider.new 138 "defi-oracle-meta" in
  let p1 := fst (MockProvider.tick [1000] p0) in
  let p2 := fst (MockProvider.tick [6000] p1) in
  Block.number (MockProvider.getBlock 1 7000 p2) = 2 /\
  Block.number (MockProvider.getBlock 1 7000 p2) <> 1 /\
  length (MockProvider.hashes_of_block 1 p2) = 1%nat /\
  length (Block.transactions (MockProvider.getBlock 1 7000 p2)) = 2%nat /\
  Block.transactions (MockProvider.getBlock 1 7000 p2)
    <> MockProvider.hashes_of_block 1 p2 /\
  MockProvider.getBlock 1 7000 p1 <> MockProvider.getBlock 1 7000 p2.
Proof.
  vm_compute. repeat split; discriminate.
Qed.

Section HashFacts.
Import MockProvider.
Import Js.

Lemma below_listed (k : nat) (n : N) :
  (n < N.of_nat k)%N -> In n (map N.of_nat (seq 0 k)).
Proof.
  intros Hn. apply in_map_iff. exists (N.to_nat n). split; [lia|].
  apply in_seq. lia.
Qed.

Lemma hex_digit_inj a b :
  (a < 16)%N -> (b < 16)%N -> Js.hex_digit a = Js.hex_digit b -> a = b.
Proof.
  intros Ha Hb Heq.
  assert (Htable :
            forallb (fun x =>
              forallb (fun y =>
                implb (Ascii.eqb (Js.hex_digit x) (Js.hex_digit y)) (N.eqb x y))
                (map N.of_nat (seq 0 16)))
              (map N.of_nat (seq 0 16)) = true) by (vm_compute; reflexivity).
  rewrite forallb_forall in Htable.
  specialize (Htable a (below_listed 16 a Ha)).
  rewrite forallb_forall in Htable.
  specialize (Htable b (below_listed 16 b Hb)).
  rewrite Heq, Ascii.eqb_refl in Htable. cbn [implb] in Htable.
  now apply N.eqb_eq.
Qed.

Lemma byte_digits_inj c c' :
  Js.hex_digit (N_of_ascii c / 16) = Js.hex_digit (N_of_ascii c' / 16) ->
  Js.hex_digit (N_of_ascii c mod 16) = Js.hex_digit (N_of_ascii c' mod 16) ->
  c = c'.
Proof.
  intros Hhi Hlo.
  pose proof (N_ascii_bounded c) as Hc. pose proof (N_ascii_bounded c') as Hc'.
  apply hex_digit_inj in Hhi;
    [| apply N.Div0.div_lt_upper_bound; lia | apply N.Div0.div_lt_upper_bound; lia].
  apply hex_digit_inj in Hlo; [| apply N.mod_lt; lia | apply N.mod_lt; lia].
  rewrite <- (ascii_N_embedding c), <- (ascii_N_embedding c'). f_equal.
  rewrite (N.div_mod (N_of_ascii c) 16), (N.div_mod (N_of_ascii c') 16) by lia.
  now rewrite Hhi, Hlo.
Qed.

Lemma buffer_hex_inj s : forall s', Js.buffer_hex s = Js.buffer_hex s' -> s = s'.
Proof.
  induction s as [|c s IH]; intros [|c' s'] H; cbn in H; try discriminate.
  - reflexivity.
  - injection H as Hhi Hlo Hrest.
    f_equal; [now apply byte_digits_inj | now apply IH].
Qed.

Lemma pretty_N_go_head x : forall s,
  (0 < x)%N -> exists c, head_char (pretty_N_go x s) = Some c /\ is_digit_char c.
Proof.
  induction (N.lt_wf_0 x) as [x _ IH]; intros s Hx.
  rewrite pretty_N_go_step by assumption.
  destruct (N.eq_dec (x / 10)%N 0%N) as [H0|Hne].
  - rewrite H0, pretty_N_go_0. eexists. split; [reflexivity|].
    exists (x mod 10)%N. split; [apply N.mod_lt; lia | reflexivity].
  - apply IH; [apply N.div_lt; lia | now apply N.neq_0_lt_0].
Qed.

Lemma toString_head (z : Z) :
  exists c, head_char (Js.toString z) = Some c /\
            (is_digit_char c \/ c = "-"%char).
Proof.
  unfold Js.toString, pretty, pretty_Z. destruct z as [|q|q].
  - exists "0"%char. split; [reflexivity|]. left. exists 0%N. split; [lia|reflexivity].
  - unfold pretty, pretty_positive, pretty, pretty_N.
    destruct (decide (N.pos q = 0%N)) as [H|_]; [discriminate H|].
    destruct (pretty_N_go_head (N.pos q) EmptyString) as [c [Hc Hd]]; [lia|].
    exists c. split; [exact Hc | now left].
  - exists "-"%char. split; [reflexivity | now right].
Qed.

Lemma digit_char_high_nibble d :
  (d < 10)%N -> Js.hex_digit (N_of_ascii (pretty_N_char d) / 16) <> "0"%char.
Proof.
  intros Hd.
  assert (Htable :
            forallb (fun x =>
              negb (Ascii.eqb (Js.hex_digit (N_of_ascii (pretty_N_char x) / 16)) "0"))
              (map N.of_nat (seq 0 10)) = true) by (vm_compute; reflexivity).
  rewrite forallb_forall in Htable.
  specialize (Htable d (below_listed 10 d Hd)).
  intros Heq. rewrite Heq in Htable. discriminate Htable.
Qed.

Lemma buffer_hex_head s c :
  head_char s = Some c -> is_digit_char c \/ c = "-"%char ->
  exists h, head_char (Js.buffer_hex s) = Some h /\ h <> "0"%char.
Proof.
  destruct s as [|c0 s]; cbn [head_char]; [discriminate|].
  intros [= ->] [[d [Hd ->]]| ->]; cbn [Js.buffer_hex head_char]; eexists;
    (split; [reflexivity|]).
  - now apply digit_char_high_nibble.
  - cbn. discriminate.
Qed.

Lemma pad_cancel n : forall m x y h h',
  head_char x = Some h -> h <> "0"%char ->
  head_char y = Some h' -> h' <> "0"%char ->
  Js.replicate_char n "0" +:+ x = Js.replicate_char m "0" +:+ y -> x = y.
Proof.
  induction n as [|n IH]; intros [|m] x y h h' Hx Hh Hy Hh' H; cbn in H.
  - exact H.
  - destruct x as [|c x]; [discriminate|]. cbn in Hx. injection H as Hc _.
    congruence.
  - destruct y as [|c y]; [discriminate|]. cbn in Hy. injection H as Hc _.
    congruence.
  - injection H as H. now apply (IH m x y h h').
Qed.

Lemma hash_of_time_inj a b : hash_of_time a = hash_of_time b -> a = b.
Proof.
  unfold hash_of_time, Js.padStart. intros H. cbn in H. injection H as H.
  destruct (toString_head a) as [ca [Ha Hca]].
  destruct (toString_head b) as [cb [Hb Hcb]].
  destruct (buffer_hex_head _ _ Ha Hca) as [ha [Hha Hna]].
  destruct (buffer_hex_head _ _ Hb Hcb) as [hb [Hhb Hnb]].
  apply (pad_cancel _ _ _ _ ha hb) in H; try assumption.
  apply buffer_hex_inj in H. now apply (inj pretty) in H.
Qed.

Lemma generate_hash now p :
  Tx.hash (snd (generateMockTransaction now p)) = hash_of_time now.
Proof. reflexivity. Qed.

Lemma generate_stores now p :
  getTransaction (hash_of_time now) (fst (generateMockTransaction now p))
  = Some (snd (generateMockTransaction now p)).
Proof. unfold getTransaction, generateMockTransaction. cbn [fst snd transactions]. apply get_set_same. Qed.

Lemma generate_listed now p :
  hash_of_time now ∈ JsMap.keys (transactions (fst (generateMockTransaction now p))).
Proof.
  unfold generateMockTransaction. cbn [fst transactions]. rewrite keys_set.
  case_bool_decide; [assumption|]. apply elem_of_app. right. apply list_elem_of_here.
Qed.

End HashFacts.

(** C6, at the failing input.  The hash of a synthesized transaction is a
    function of the millisecond clock reading alone: two syntheses carry the
    same hash exactly when they read the same millisecond.  Two calls in the
    same millisecond (the loop of one tick) therefore collide: the second
    transaction replaces the first in the store, which does not grow.  From
    a fresh simulator, a tick that synthesizes three transactions at reading
    1700000000000 leaves a single stored transaction, and the two
    transactions of the collision are different objects (their nonces
    differ). *)
Theorem synthesized_hash_collides_within_a_millisecond :
  (forall a b p q,
      Tx.hash (snd (MockProvider.generateMockTransaction a p))
      = Tx.hash (snd (MockProvider.generateMockTransaction b q)) <-> a = b) /\
  (forall now p,
      let p1 := fst (MockProvider.generateMockTransaction now p) in
      let p2 := fst (MockProvider.generateMockTransaction now p1) in
      JsMap.size (MockProvider.transactions p2) = JsMap.size (MockProvider.transactions p1) /\
      MockProvider.getTransaction (MockProvider.hash_of_time now) p2
      = Some (snd (MockProvider.generateMockTransaction now p1))) /\
  (let p0 := MockProvider.new 138 "defi-oracle-meta" in
   let now := 1700000000000 in
   let tx1 := snd (MockProvider.generateMockTransaction now p0) in
   let tx2 := snd (MockProvider.generateMockTransaction now
                     (fst (MockProvider.generateMockTransaction now p0))) in
   Tx.hash tx1 = Tx.hash tx2 /\ tx1 <> tx2 /\
   JsMap.size (MockProvider.transactions
                 (fst (MockProvider.tick [now; now; now] p0))) = 1%nat).
Proof.
  split; [|split].
  - intros a b p q. rewrite !generate_hash. split.
    + apply hash_of_time_inj.
    + now intros ->.
  - intros now p p1 p2. subst p1 p2. split.
    + unfold MockProvider.generateMockTransaction at 1.
      cbn [fst MockProvider.transactions].
      apply size_set_present. apply generate_listed.
    + apply generate_stores.
  - vm_compute. repeat split. discriminate.
Qed.

(* ===================================================================== *)
(** * Properties of the mock WebSocket provider *)
(* ===================================================================== *)

Section ConnectFacts.
Import MockWebSocketProvider.

Lemma connect_refused w :
  (maxRetries w <= connectionAttempts w)%Z ->
  connect w = (w, [EvError MaxConnectionAttempts], Throw MaxConnectionAttempts).
Proof.
  intros H. unfold connect.
  destruct (Z.leb_spec (maxRetries w) (connectionAttempts w)); [reflexivity | lia].
Qed.

Lemma connect_allowed w :
  (connectionAttempts w < maxRetries w)%Z ->
  exists w', connect w = (w', [EvConnect], Ok tt) /\
             connectionAttempts w' = connectionAttempts w + 1 /\
             maxRetries w' = maxRetries w /\
             connected w' = true.
Proof.
  intros H. unfold connect.
  destruct (Z.leb_spec (maxRetries w) (connectionAttempts w)); [lia|].
  eexists. repeat split.
Qed.

Lemma connect_times_S n w :
  connect_times (S n) w =
  (fst (connect_times n (fst (fst (connect w)))),
   snd (connect w) :: snd (connect_times n (fst (fst (connect w))))).
Proof.
  cbn [connect_times]. destruct (connect w) as [[w1 evs] r]. cbn [fst snd].
  destruct (connect_times n w1) as [w2 rs]. reflexivity.
Qed.

(** After [n] calls the counter has risen by [n] or reached the ceiling,
    whatever the individual calls returned. *)
Lemma connect_times_progress n : forall w,
  let w' := fst (connect_times n w) in
  maxRetries w' = maxRetries w /\
  (Z.min (connectionAttempts w + Z.of_nat n) (maxRetries w) <= connectionAttempts w')%Z.
Proof.
  induction n as [|n IH]; intros w.
  - cbn. lia.
  - rewrite connect_times_S. cbn [fst].
    destruct (Z.le_gt_cases (maxRetries w) (connectionAttempts w)) as [Hfull|Hroom].
    + rewrite (connect_refused w Hfull). cbn [fst].
      destruct (IH w) as [Hm Hc]. cbn zeta in Hm, Hc. split; [exact Hm | lia].
    + destruct (connect_allowed w) as [w1 [E [Ha [Hm1 _]]]]; [lia|].
      rewrite E. cbn [fst].
      destruct (IH w1) as [Hm Hc]. cbn zeta in Hm, Hc.
      split; [congruence|]. rewrite Hm1, Ha in Hc. lia.
Qed.

End ConnectFacts.

(** C10.  [connect()] raises the attempt counter by one on every call it
    lets through, and a call it lets through succeeds; a refused call
    leaves the counter as it is; [disconnect()] puts it back to 0.  Hence,
    from any state with the ceiling of 3, after three [connect()] calls
    with nothing in between, a fourth call is refused with 'Max connection
    attempts reached'; and from a counter of 0 the three earlier calls all
    succeeded. *)
Theorem fourth_connect_is_refused :
  forall w : MockWebSocketProvider.t,
    MockWebSocketProvider.maxRetries w = 3 ->
    0 <= MockWebSocketProvider.connectionAttempts w ->
    (* a call that is let through succeeds and counts *)
    (MockWebSocketProvider.connectionAttempts w < 3 ->
     exists w', MockWebSocketProvider.connect w
                = (w', [MockWebSocketProvider.EvConnect], MockWebSocketProvider.Ok tt) /\
                MockWebSocketProvider.connected w' = true /\
                MockWebSocketProvider.connectionAttempts w'
                = MockWebSocketProvider.connectionAttempts w + 1) /\
    (* a refused call changes nothing *)
    (3 <= MockWebSocketProvider.connectionAttempts w ->
     MockWebSocketProvider.connect w
     = (w, [MockWebSocketProvider.EvError MockWebSocketProvider.MaxConnectionAttempts],
        MockWebSocketProvider.Throw MockWebSocketProvider.MaxConnectionAttempts)) /\
    (* disconnect resets *)
    MockWebSocketProvider.connectionAttempts (fst (MockWebSocketProvider.disconnect w)) = 0 /\
    (* the fourth call in a row *)
    snd (MockWebSocketProvider.connect (fst (MockWebSocketProvider.connect_times 3 w)))
    = MockWebSocketProvider.Throw MockWebSocketProvider.MaxConnectionAttempts /\
    (MockWebSocketProvider.connectionAttempts w = 0 ->
     snd (MockWebSocketProvider.connect_times 3 w)
     = [MockWebSocketProvider.Ok tt; MockWebSocketProvider.Ok tt; MockWebSocketProvider.Ok tt]).
Proof.
  intros w Hmax Hge. repeat split.
  - intros Hlt. destruct (connect_allowed w) as [w' [E [Ha [_ Hc]]]]; [lia|].
    exists w'. auto.
  - intros Hfull. apply connect_refused. lia.
  - destruct (connect_times_progress 3 w) as [Hm Hc]. cbn zeta in Hm, Hc.
    rewrite connect_refused; [reflexivity | lia].
  - intros H0.
    destruct (connect_allowed w) as [w1 [E1 [A1 [M1 _]]]]; [lia|].
    destruct (connect_allowed w1) as [w2 [E2 [A2 [M2 _]]]]; [lia|].
    destruct (connect_allowed w2) as [w3 [E3 [A3 [M3 _]]]]; [lia|].
    rewrite !connect_times_S, E1. cbn [fst snd]. rewrite E2. cbn [fst snd].
    rewrite E3. reflexivity.
Qed.

(** C10, on the constructor's state: three successful connects, then the
    refusal. *)
Lemma fourth_connect_is_refused_witness :
  let w := MockWebSocketProvider.new "wss://mock.defi-oracle.io" 138 "defi-oracle-meta" in
  snd (MockWebSocketProvider.connect_times 3 w)
  = [MockWebSocketProvider.Ok tt; MockWebSocketProvider.Ok tt; MockWebSocketProvider.Ok tt] /\
  snd (MockWebSocketProvider.connect (fst (MockWebSocketProvider.connect_times 3 w)))
  = MockWebSocketProvider.Throw MockWebSocketProvider.MaxConnectionAttempts.
Proof.
  intros w.
  destruct (fourth_connect_is_refused w) as (_ & _ & _ & H4 & H3);
    [reflexivity | cbn; lia |].
  split; [apply H3; reflexivity | exact H4].
Defined.

(* ===================================================================== *)
(** * Properties of [RelayManager.relayTransaction] *)
(* ===================================================================== *)

Section RelayFacts.
Import RelayManager.


Lemma try_block_confirms a f h m w :
  confirms a f ->
  try_block a h m w
  = (Completed, with_metrics m (incr_successful (metrics m)), submit h f w).
Proof.
  intros (x & th & Hget & Hfmt & Hsend). unfold try_block.
  now rewrite Hget, Hfmt, Hsend.
Qed.




End RelayFacts.




(** C2, as the code has it.  [relayTransaction] keeps nothing per source
    hash: a call for a hash that was already relayed with success fetches
    the source transaction and submits it again.  Two calls for the same
    hash that both confirm leave two submissions for it and count two
    transactions and two successes. *)
Theorem relaying_a_confirmed_hash_again_resubmits :
  forall (env : nat -> RelayManager.answers) (h : string)
         (m : RelayManager.t) (w : RelayManager.world)
         (f1 f2 : RelayManager.FormattedTx),
    RelayManager.confirms (env (RelayManager.calls w)) f1 ->
    RelayManager.confirms (env (S (RelayManager.calls w))) f2 ->
    exists m1 w1 m2 w2,
      RelayManager.relayTransaction env h m w = Some (m1, w1) /\
      RelayManager.relayTransaction env h m1 w1 = Some (m2, w2) /\
      RelayManager.submissions w1 = (RelayManager.submissions w ++ [(h, f1)])%list /\
      RelayManager.submissions w2 = (RelayManager.submissions w ++ [(h, f1); (h, f2)])%list /\
      RelayManager.successful (RelayManager.metrics m2)
      = RelayManager.successful (RelayManager.metrics m) + 2 /\
      RelayManager.transactions (RelayManager.metrics m2)
      = RelayManager.transactions (RelayManager.metrics m) + 2 /\
      RelayManager.failed (RelayManager.metrics m2) = RelayManager.failed (RelayManager.metrics m) /\
      RelayManager.retries (RelayManager.metrics m2) = RelayManager.retries (RelayManager.metrics m).
Proof.
  intros env h m w f1 f2 H1 H2.
  unfold RelayManager.relayTransaction, RelayManager.depth.
  cbn [RelayManager.relayTransaction_fuel].
  rewrite (try_block_confirms _ f1 h _ _ H1).
  eexists _, _, _, _. split; [reflexivity|].
  cbn [RelayManager.relayTransaction_fuel RelayManager.calls RelayManager.submit
       RelayManager.enter].
  rewrite (try_block_confirms _ f2 h _ _ H2).
  split; [reflexivity|].
  cbn. rewrite <- app_assoc. repeat split; lia.
Qed.

(** C2, on a fresh manager and a target that always confirms. *)
Lemma relaying_a_confirmed_hash_again_resubmits_witness :
  exists f m1 w1 m2 w2,
    RelayManager.relayTransaction Scenario.alwaysConfirms "0xa" Scenario.manager
      RelayManager.world0 = Some (m1, w1) /\
    RelayManager.relayTransaction Scenario.alwaysConfirms "0xa" m1 w1 = Some (m2, w2) /\
    RelayManager.submissions w2 = [("0xa", f); ("0xa", f)] /\
    RelayManager.successful (RelayManager.metrics m2) = 2.
Proof.
  assert (Hc : exists f, forall k, RelayManager.confirms (Scenario.alwaysConfirms k) f).
  { eexists. intros k. exists Scenario.sourceTx, "0xtarget".
    split; [reflexivity|]. split; [vm_compute; reflexivity | reflexivity]. }
  destruct Hc as [f Hf]. exists f.
  destruct (relaying_a_confirmed_hash_again_resubmits
              Scenario.alwaysConfirms "0xa" Scenario.manager RelayManager.world0 f f
              (Hf _) (Hf _))
    as (m1 & w1 & m2 & w2 & E1 & E2 & _ & Hsub & Hsu & _).
  exists m1, w1, m2, w2. repeat split; assumption.
Defined.

(** C2, counterexample.  From a fresh manager and a target that always
    confirms, relaying the same source hash twice hands two requests for it
    to the target's [sendTransaction]; the second call is counted as a new
    transaction and a new success. *)
Lemma second_relay_of_a_confirmed_hash_submits_again :
  exists m1 w1 m2 w2,
    RelayManager.relayTransaction Scenario.alwaysConfirms "0xa" Scenario.manager
      RelayManager.world0 = Some (m1, w1) /\
    RelayManager.successful (RelayManager.metrics m1) = 1 /\
    length (RelayManager.submissions_for "0xa" w1) = 1%nat /\
    RelayManager.relayTransaction Scenario.alwaysConfirms "0xa" m1 w1 = Some (m2, w2) /\
    length (RelayManager.submissions_for "0xa" w2) = 2%nat /\
    RelayManager.transactions (RelayManager.metrics m2) = 2 /\
    RelayManager.successful (RelayManager.metrics m2) = 2.
Proof.
  do 4 eexists. split; [vm_compute; reflexivity|].
  split; [reflexivity|]. split; [reflexivity|].
  split; [vm_compute; reflexivity|]. vm_compute. repeat split.
Qed.

(* ===================================================================== *)
(** * Properties of [MainnetRelay.relayTransaction] *)
(* ===================================================================== *)




(* ===================================================================== *)
(** * Reconnection *)
(* ===================================================================== *)

Section ReconnectionFacts.
Import TransactionMonitor.

Lemma closes_S n m :
  closes (S n) m =
  (fst (closes n (fst (handleReconnection m))),
   snd (handleReconnection m) :: snd (closes n (fst (handleReconnection m)))).
Proof.
  cbn [closes]. destruct (handleReconnection m) as [m1 a]. cbn [fst snd].
  destruct (closes n m1) as [m2 rest]. reflexivity.
Qed.


Lemma handleReconnection_at_ceiling m :
  maxReconnectAttempts m <= reconnectAttempts m ->
  handleReconnection m = (stop m, Stop).
Proof.
  intros H. unfold handleReconnection.
  destruct (Z.leb_spec (maxReconnectAttempts m) (reconnectAttempts m)); [reflexivity | lia].
Qed.



End ReconnectionFacts.





(* ===================================================================== *)
(** * Properties of [RelayManager.waitForConnections] *)
(* ===================================================================== *)

Section VerificationFacts.
Import RelayManager.
Variables (env : nat -> round) (timeout : Z) (m0 : t).

Lemma poll_flag present verified n k a e :
  fst (poll present verified n k a e) = verified || (present && answers_verify a e).
Proof.
  unfold poll, answers_verify.
  destruct present, verified; cbn; destruct (onBlockNumber a); reflexivity.
Qed.

Lemma poll_calls present verified n k a e c :
  In c (snd (poll present verified n k a e)) ->
  verified = false /\ exists method, c = (k, n, method).
Proof using Type.
  unfold poll. destruct present, verified; cbn [andb negb snd In]; try (intros []).
  destruct (onBlockNumber a); cbn [snd In]; intros H; (split; [reflexivity|]).
  - destruct H as [<-|[]]. eexists; reflexivity.
  - destruct H as [<-|[<-|[]]]; eexists; reflexivity.
Qed.

Lemma set_connectionState_config n b m :
  provider (set_connectionState n b m) = provider m /\
  ethProvider (set_connectionState n b m) = ethProvider m /\
  sourceChainId (set_connectionState n b m) = sourceChainId m.
Proof. repeat split. Qed.

Lemma round_step_attempts r l : attempts (round_step r l) = S (attempts l).
Proof.
  unfold round_step.
  destruct (poll _ _ source _ _ _), (poll _ _ target _ _ _). reflexivity.
Qed.

Lemma round_step_source r l :
  sourceVerified (round_step r l)
  = fst (poll (provider (manager l)) (sourceVerified l) source (S (attempts l))
           (src r) (sourceChainId (manager l))).
Proof.
  unfold round_step.
  destruct (poll _ _ source _ _ _), (poll _ _ target _ _ _). reflexivity.
Qed.

Lemma round_step_target r l :
  targetVerified (round_step r l)
  = fst (poll (ethProvider (manager l)) (targetVerified l) target (S (attempts l))
           (tgt r) (Some 1)).
Proof.
  unfold round_step.
  destruct (poll _ _ source _ _ _), (poll _ _ target _ _ _). reflexivity.
Qed.

Lemma round_step_issued r l :
  issued (round_step r l)
  = (issued l
       ++ snd (poll (provider (manager l)) (sourceVerified l) source (S (attempts l))
                 (src r) (sourceChainId (manager l)))
       ++ snd (poll (ethProvider (manager l)) (targetVerified l) target (S (attempts l))
                 (tgt r) (Some 1)))%list.
Proof.
  unfold round_step.
  destruct (poll _ _ source _ _ _), (poll _ _ target _ _ _). reflexivity.
Qed.

Lemma round_step_config r l : same_config m0 l -> same_config m0 (round_step r l).
Proof.
  unfold same_config, round_step. intros (Hp & He & Hc).
  destruct (poll _ _ source _ _ _) as [sv cs], (poll _ _ target _ _ _) as [tv ct].
  cbn [manager].
  destruct (tv && negb (targetVerified l)), (sv && negb (sourceVerified l));
    repeat split; assumption.
Qed.

Lemma round_step_source_flag l :
  same_config m0 l ->
  sourceVerified (round_step (env (S (attempts l))) l)
  = sourceVerified l || source_ok env m0 (S (attempts l)).
Proof.
  intros (Hp & _ & Hc). rewrite round_step_source, poll_flag, Hp, Hc. reflexivity.
Qed.

Lemma round_step_target_flag l :
  same_config m0 l ->
  targetVerified (round_step (env (S (attempts l))) l)
  = targetVerified l || target_ok env m0 (S (attempts l)).
Proof.
  intros (_ & He & _). rewrite round_step_target, poll_flag, He. reflexivity.
Qed.

Lemma sleep_retry_config l : same_config m0 l -> same_config m0 (sleep_retry l).
Proof. exact (fun H => H). Qed.

(** ** When the loop resolves *)

Lemma poll_loop_resolves remaining : forall l,
  same_config m0 l ->
  fst (poll_loop remaining env timeout l) = ResolvesTrue <->
  exists k,
    (attempts l < k <= attempts l + remaining)%nat /\
    (forall i, (attempts l < i <= k)%nat -> elapsed (env i) < timeout) /\
    (sourceVerified l = true \/
     exists i, (attempts l < i <= k)%nat /\ source_ok env m0 i = true) /\
    (targetVerified l = true \/
     exists j, (attempts l < j <= k)%nat /\ target_ok env m0 j = true).
Proof.
  induction remaining as [|remaining IH]; intros l Hcfg.
  - cbn. split; [discriminate|]. intros (k & Hk & _). lia.
  - cbn [poll_loop].
    destruct (Z.ltb_spec (elapsed (env (S (attempts l)))) timeout) as [Hin|Hout].
    + pose proof (round_step_source_flag l Hcfg) as Hsv.
      pose proof (round_step_target_flag l Hcfg) as Htv.
      pose proof (round_step_attempts (env (S (attempts l))) l) as Hat.
      set (l1 := round_step (env (S (attempts l))) l) in *.
      destruct (sourceVerified l1 && targetVerified l1) eqn:Eboth.
      * cbn [fst]. split; [intros _|reflexivity].
        apply andb_true_iff in Eboth as [Es Et].
        rewrite Hsv in Es. rewrite Htv in Et.
        apply orb_true_iff in Es, Et.
        exists (S (attempts l)). split; [lia|]. split.
        { intros i Hi. assert (i = S (attempts l)) as -> by lia. exact Hin. }
        split.
        { destruct Es as [Es|Es]; [now left | right].
          exists (S (attempts l)). split; [lia | exact Es]. }
        { destruct Et as [Et|Et]; [now left | right].
          exists (S (attempts l)). split; [lia | exact Et]. }
      * rewrite (IH (sleep_retry l1)) by (apply sleep_retry_config, round_step_config, Hcfg).
        cbn [sleep_retry attempts sourceVerified targetVerified].
        rewrite Hat, Hsv, Htv. rewrite Hsv, Htv in Eboth.
        split.
        -- intros (k & Hk & Hel & Hs & Ht). exists k. split; [lia|]. split.
           { intros i Hi. destruct (Nat.eq_dec i (S (attempts l))) as [->|Hne];
               [exact Hin | apply Hel; lia]. }
           split.
           { destruct Hs as [Hs|(i & Hi & Hs)].
             - apply orb_true_iff in Hs as [Hs|Hs]; [now left | right].
               exists (S (attempts l)). split; [lia | exact Hs].
             - right. exists i. split; [lia | exact Hs]. }
           { destruct Ht as [Ht|(j & Hj & Ht)].
             - apply orb_true_iff in Ht as [Ht|Ht]; [now left | right].
               exists (S (attempts l)). split; [lia | exact Ht].
             - right. exists j. split; [lia | exact Ht]. }
        -- intros (k & Hk & Hel & Hs & Ht).
           assert (Hs' : sourceVerified l || source_ok env m0 (S (attempts l)) = true \/
                         exists i, (S (attempts l) < i <= k)%nat /\ source_ok env m0 i = true).
           { destruct Hs as [Hs|(i & Hi & Hs)].
             - left. now rewrite Hs.
             - destruct (Nat.eq_dec i (S (attempts l))) as [->|Hne].
               + left. rewrite Hs. apply orb_true_r.
               + right. exists i. split; [lia | exact Hs]. }
           assert (Ht' : targetVerified l || target_ok env m0 (S (attempts l)) = true \/
                         exists j, (S (attempts l) < j <= k)%nat /\ target_ok env m0 j = true).
           { destruct Ht as [Ht|(j & Hj & Ht)].
             - left. now rewrite Ht.
             - destruct (Nat.eq_dec j (S (attempts l))) as [->|Hne].
               + left. rewrite Ht. apply orb_true_r.
               + right. exists j. split; [lia | exact Ht]. }
           destruct (Nat.eq_dec k (S (attempts l))) as [->|Hne].
           { exfalso.
             destruct Hs' as [Hs'|(i & Hi & _)]; [|lia].
             destruct Ht' as [Ht'|(j & Hj & _)]; [|lia].
             rewrite Hs', Ht' in Eboth. discriminate Eboth. }
           exists k. split; [lia|]. split; [intros i Hi; apply Hel; lia|].
           split; assumption.
    + cbn [fst]. split; [discriminate|].
      intros (k & Hk & Hel & _). specialize (Hel (S (attempts l))). lia.
Qed.

(** ** When the loop gives up *)

Lemma poll_loop_rejects remaining : forall l e,
  same_config m0 l ->
  sourceVerified l && targetVerified l = false ->
  fst (poll_loop remaining env timeout l) = RejectsWith e ->
  (attempts l <= failure_attempts e <= attempts l + remaining)%nat /\
  failure_timeout e = timeout /\
  (failure_sourceVerified e = true <->
   sourceVerified l = true \/
   exists i, (attempts l < i <= failure_attempts e)%nat /\ source_ok env m0 i = true) /\
  (failure_targetVerified e = true <->
   targetVerified l = true \/
   exists j, (attempts l < j <= failure_attempts e)%nat /\ target_ok env m0 j = true) /\
  failure_sourceVerified e && failure_targetVerified e = false.
Proof.
  assert (Hstop : forall l e k,
             sourceVerified l && targetVerified l = false ->
             RejectsWith (failure_of timeout l) = RejectsWith e ->
             (attempts l <= failure_attempts e <= attempts l + k)%nat /\
             failure_timeout e = timeout /\
             (failure_sourceVerified e = true <->
              sourceVerified l = true \/
              exists i, (attempts l < i <= failure_attempts e)%nat /\
                        source_ok env m0 i = true) /\
             (failure_targetVerified e = true <->
              targetVerified l = true \/
              exists j, (attempts l < j <= failure_attempts e)%nat /\
                        target_ok env m0 j = true) /\
             failure_sourceVerified e && failure_targetVerified e = false).
  { intros l e k Hhead [= <-]. cbn. split; [lia|]. split; [reflexivity|].
    split; [|split; [|exact Hhead]].
    - split; [now left | intros [H|(i & Hi & _)]; [exact H | lia]].
    - split; [now left | intros [H|(j & Hj & _)]; [exact H | lia]]. }
  induction remaining as [|remaining IH]; intros l e Hcfg Hhead.
  - cbn [poll_loop fst]. apply Hstop, Hhead.
  - cbn [poll_loop].
    destruct (Z.ltb_spec (elapsed (env (S (attempts l)))) timeout) as [Hin|Hout];
      [|cbn [fst]; apply Hstop, Hhead].
    pose proof (round_step_source_flag l Hcfg) as Hsv.
    pose proof (round_step_target_flag l Hcfg) as Htv.
    pose proof (round_step_attempts (env (S (attempts l))) l) as Hat.
    pose proof (round_step_config (env (S (attempts l))) l Hcfg) as Hcfg1.
    set (l1 := round_step (env (S (attempts l))) l) in *.
    destruct (sourceVerified l1 && targetVerified l1) eqn:Eboth; [discriminate|].
    intros Hrun.
    destruct (IH (sleep_retry l1) e (sleep_retry_config l1 Hcfg1) Eboth Hrun)
      as (Hrange & Hto & Hs & Ht & Hnot).
    cbn [sleep_retry attempts sourceVerified targetVerified] in Hrange, Hs, Ht.
    rewrite Hat in Hrange, Hs, Ht. rewrite Hsv in Hs. rewrite Htv in Ht.
    split; [lia|]. split; [exact Hto|]. split; [|split; [|exact Hnot]].
    + rewrite Hs, orb_true_iff. split.
      * intros [[H|H]|(i & Hi & H)].
        -- now left.
        -- right. exists (S (attempts l)). split; [lia | exact H].
        -- right. exists i. split; [lia | exact H].
      * intros [H|(i & Hi & H)]; [now left; left|].
        destruct (Nat.eq_dec i (S (attempts l))) as [->|Hne];
          [left; now right | right; exists i; split; [lia | exact H]].
    + rewrite Ht, orb_true_iff. split.
      * intros [[H|H]|(j & Hj & H)].
        -- now left.
        -- right. exists (S (attempts l)). split; [lia | exact H].
        -- right. exists j. split; [lia | exact H].
      * intros [H|(j & Hj & H)]; [now left; left|].
        destruct (Nat.eq_dec j (S (attempts l))) as [->|Hne];
          [left; now right | right; exists j; split; [lia | exact H]].
Qed.

(** ** Which RPCs the loop issues *)

Lemma round_step_sticky r l :
  (sourceVerified l = true -> sourceVerified (round_step r l) = true) /\
  (targetVerified l = true -> targetVerified (round_step r l) = true).
Proof.
  rewrite round_step_source, round_step_target, !poll_flag.
  split; intros ->; reflexivity.
Qed.

Lemma round_step_new_calls r l c :
  In c (issued (round_step r l)) ->
  In c (issued l) \/
  (sourceVerified l = false /\ exists method, c = (S (attempts l), source, method)) \/
  (targetVerified l = false /\ exists method, c = (S (attempts l), target, method)).
Proof.
  rewrite round_step_issued, !in_app_iff. intros [H|[H|H]].
  - now left.
  - right; left. now apply poll_calls in H.
  - right; right. now apply poll_calls in H.
Qed.

Lemma round_step_justified l :
  same_config m0 l ->
  polls_justified env m0 l ->
  polls_justified env m0 (round_step (env (S (attempts l))) l).
Proof.
  intros Hcfg (Js & Jt & Ji). unfold polls_justified.
  rewrite round_step_attempts, (round_step_source_flag l Hcfg),
    (round_step_target_flag l Hcfg).
  split; [|split].
  - intros H j Hj. apply orb_false_iff in H as [Hl Hk].
    destruct (Nat.eq_dec j (S (attempts l))) as [->|Hne]; [exact Hk | apply Js; [exact Hl | lia]].
  - intros H j Hj. apply orb_false_iff in H as [Hl Hk].
    destruct (Nat.eq_dec j (S (attempts l))) as [->|Hne]; [exact Hk | apply Jt; [exact Hl | lia]].
  - intros i n method Hin.
    apply round_step_new_calls in Hin as [Hold|[[Hdown (x & [= -> -> _])]|[Hdown (x & [= -> -> _])]]].
    + destruct (Ji i n method Hold) as [Hi Hj]. split; [lia | exact Hj].
    + split; [lia|]. intros j Hj. cbn [endpoint_ok]. apply Js; [exact Hdown | lia].
    + split; [lia|]. intros j Hj. cbn [endpoint_ok]. apply Jt; [exact Hdown | lia].
Qed.

Lemma poll_loop_justified remaining : forall l,
  same_config m0 l ->
  polls_justified env m0 l ->
  polls_justified env m0 (snd (poll_loop remaining env timeout l)).
Proof.
  induction remaining as [|remaining IH]; intros l Hcfg HJ; [exact HJ|].
  cbn [poll_loop].
  destruct (elapsed (env (S (attempts l))) <? timeout)%Z; [|exact HJ].
  pose proof (round_step_justified l Hcfg HJ) as HJ1.
  pose proof (round_step_config (env (S (attempts l))) l Hcfg) as Hcfg1.
  destruct (sourceVerified _ && targetVerified _); [exact HJ1|].
  apply IH; [exact Hcfg1 | exact HJ1].
Qed.

(** ** What it means for an endpoint's answers to verify it *)

Lemma answers_verify_reports a expected :
  answers_verify a expected = true <->
  exists b s c,
    onBlockNumber a = Resolves b /\ onChainId a = Resolves s /\
    Js.parseInt16_number s = Some c /\ expected = Some c.
Proof using Type.
  unfold answers_verify, verifyChainId, Js.strict_eq. split.
  - destruct (onBlockNumber a) as [|b]; [discriminate|].
    destruct (onChainId a) as [|s]; [discriminate|].
    destruct (Js.parseInt16_number s) as [v|] eqn:Hparse; [|discriminate].
    destruct expected as [c|]; [|discriminate].
    intros H. apply Z.eqb_eq in H. subst c. exists b, s, v. now repeat split.
  - intros (b & s & c & -> & -> & -> & ->). apply Z.eqb_refl.
Qed.

Lemma source_ok_reports env' m i :
  source_ok env' m i = true <->
  provider m = true /\
  exists b s c,
    onBlockNumber (src (env' i)) = Resolves b /\
    onChainId (src (env' i)) = Resolves s /\
    Js.parseInt16_number s = Some c /\ sourceChainId m = Some c.
Proof using Type.
  unfold source_ok. rewrite andb_true_iff, answers_verify_reports. reflexivity.
Qed.

Lemma target_ok_reports env' m j :
  target_ok env' m j = true <->
  ethProvider m = true /\
  exists b s,
    onBlockNumber (tgt (env' j)) = Resolves b /\
    onChainId (tgt (env' j)) = Resolves s /\
    Js.parseInt16_number s = Some 1.
Proof using Type.
  unfold target_ok. rewrite andb_true_iff, answers_verify_reports. split.
  - intros (He & b & s & c & Hb & Hs & Hp & [= <-]). split; [exact He|].
    exists b, s. now repeat split.
  - intros (He & b & s & Hb & Hs & Hp). split; [exact He|].
    exists b, s, 1. now repeat split.
Qed.

End VerificationFacts.

(** The verdict of [waitForConnections] in terms of the rounds in which
    each endpoint's answers verify it. *)
Lemma waitForConnections_verdict :
  forall (timeout : Z) (env : nat -> RelayManager.round) (m : RelayManager.t),
    (fst (RelayManager.waitForConnections timeout env m) = RelayManager.ResolvesTrue <->
     exists k,
       (1 <= k <= RelayManager.maxAttempts)%nat /\
       (forall i, (1 <= i <= k)%nat -> RelayManager.elapsed (env i) < timeout) /\
       (exists i, (1 <= i <= k)%nat /\ RelayManager.source_ok env m i = true) /\
       (exists j, (1 <= j <= k)%nat /\ RelayManager.target_ok env m j = true)) /\
    (forall e,
        fst (RelayManager.waitForConnections timeout env m) = RelayManager.RejectsWith e ->
        (RelayManager.failure_attempts e <= RelayManager.maxAttempts)%nat /\
        RelayManager.failure_timeout e = timeout /\
        (RelayManager.failure_sourceVerified e = true <->
         exists i, (1 <= i <= RelayManager.failure_attempts e)%nat /\
                   RelayManager.source_ok env m i = true) /\
        (RelayManager.failure_targetVerified e = true <->
         exists j, (1 <= j <= RelayManager.failure_attempts e)%nat /\
                   RelayManager.target_ok env m j = true) /\
        (RelayManager.failure_sourceVerified e = false \/
         RelayManager.failure_targetVerified e = false)).
Proof.
  intros timeout env m. unfold RelayManager.waitForConnections.
  assert (Hcfg : RelayManager.same_config m
                   {| RelayManager.sourceVerified := false;
                      RelayManager.targetVerified := false;
                      RelayManager.attempts := 0; RelayManager.manager := m;
                      RelayManager.issued := [];
                      RelayManager.slept := [RelayManager.settleDelay] |})
    by (repeat split).
  split.
  - rewrite (poll_loop_resolves env timeout m _ _ Hcfg).
    cbn [RelayManager.attempts RelayManager.sourceVerified RelayManager.targetVerified].
    split.
    + intros (k & Hk & Hel & Hs & Ht). exists k. split; [lia|].
      split; [intros i Hi; apply Hel; lia|]. split.
      * destruct Hs as [Hs|(i & Hi & Hs)]; [discriminate|]. exists i. split; [lia|exact Hs].
      * destruct Ht as [Ht|(j & Hj & Ht)]; [discriminate|]. exists j. split; [lia|exact Ht].
    + intros (k & Hk & Hel & (i & Hi & Hs) & (j & Hj & Ht)). exists k. split; [lia|].
      split; [intros x Hx; apply Hel; lia|]. split; right.
      * exists i. split; [lia|exact Hs].
      * exists j. split; [lia|exact Ht].
  - intros e He.
    destruct (poll_loop_rejects env timeout m _ _ e Hcfg eq_refl He)
      as (Hrange & Hto & Hs & Ht & Hnot).
    cbn [RelayManager.attempts RelayManager.sourceVerified RelayManager.targetVerified]
      in Hrange, Hs, Ht.
    split; [lia|]. split; [exact Hto|]. split; [|split].
    + rewrite Hs. split.
      * intros [H|(i & Hi & H)]; [discriminate|]. exists i. split; [lia|exact H].
      * intros (i & Hi & H). right. exists i. split; [lia|exact H].
    + rewrite Ht. split.
      * intros [H|(j & Hj & H)]; [discriminate|]. exists j. split; [lia|exact H].
      * intros (j & Hj & H). right. exists j. split; [lia|exact H].
    + apply andb_false_iff in Hnot. exact Hnot.
Qed.

(** C5, as the code has it.  [waitForConnections] resolves true exactly
    when there is a polling round [k], within the ceiling of 5 rounds and
    with every round up to it started before the timeout has elapsed, by
    which the source has, in some round, answered the liveness query and
    reported a chain id equal to the configured [sourceNetwork.chainId],
    and the target has, in some round, answered the liveness query and
    reported chain id 1.  The target's expected id is the literal 1: the
    configured [ethereum.chainId] is not read, so overriding it changes
    nothing.  Otherwise the call throws, and the error carries the attempt
    count, the timeout and, for each side, whether it was verified: each
    flag is up exactly when that side reported its expected id in one of
    the rounds run, and at least one flag is down. *)
Theorem waitForConnections_resolves_iff_both_verify :
  forall (timeout : Z) (env : nat -> RelayManager.round) (m : RelayManager.t),
    let source_reports (i : nat) : Prop :=
      RelayManager.provider m = true /\
      exists b s c,
        RelayManager.onBlockNumber (RelayManager.src (env i)) = RelayManager.Resolves b /\
        RelayManager.onChainId (RelayManager.src (env i)) = RelayManager.Resolves s /\
        Js.parseInt16_number s = Some c /\
        RelayManager.sourceChainId m = Some c in
    let target_reports (j : nat) : Prop :=
      RelayManager.ethProvider m = true /\
      exists b s,
        RelayManager.onBlockNumber (RelayManager.tgt (env j)) = RelayManager.Resolves b /\
        RelayManager.onChainId (RelayManager.tgt (env j)) = RelayManager.Resolves s /\
        Js.parseInt16_number s = Some 1 in
    (fst (RelayManager.waitForConnections timeout env m) = RelayManager.ResolvesTrue <->
     exists k,
       (1 <= k <= RelayManager.maxAttempts)%nat /\
       (forall i, (1 <= i <= k)%nat -> RelayManager.elapsed (env i) < timeout) /\
       (exists i, (1 <= i <= k)%nat /\ source_reports i) /\
       (exists j, (1 <= j <= k)%nat /\ target_reports j)) /\
    (forall e,
        fst (RelayManager.waitForConnections timeout env m) = RelayManager.RejectsWith e ->
        (RelayManager.failure_attempts e <= RelayManager.maxAttempts)%nat /\
        RelayManager.failure_timeout e = timeout /\
        (RelayManager.failure_sourceVerified e = true <->
         exists i, (1 <= i <= RelayManager.failure_attempts e)%nat /\ source_reports i) /\
        (RelayManager.failure_targetVerified e = true <->
         exists j, (1 <= j <= RelayManager.failure_attempts e)%nat /\ target_reports j) /\
        (RelayManager.failure_sourceVerified e = false \/
         RelayManager.failure_targetVerified e = false)) /\
    (forall c : Z,
        fst (RelayManager.waitForConnections timeout env
               (RelayManager.with_ethereumChainId c m)) = RelayManager.ResolvesTrue <->
        fst (RelayManager.waitForConnections timeout env m) = RelayManager.ResolvesTrue).
Proof.
  intros timeout env m source_reports target_reports.
  assert (Hsrc : forall i, RelayManager.source_ok env m i = true <-> source_reports i)
    by (intros i; apply source_ok_reports).
  assert (Htgt : forall j, RelayManager.target_ok env m j = true <-> target_reports j)
    by (intros j; apply target_ok_reports).
  destruct (waitForConnections_verdict timeout env m) as [Hres Hrej].
  split; [|split].
  - rewrite Hres. split.
    + intros (k & Hk & Hel & (i & Hi & Hs) & (j & Hj & Ht)). exists k.
      split; [exact Hk|]. split; [exact Hel|]. split.
      * exists i. split; [exact Hi | now apply Hsrc].
      * exists j. split; [exact Hj | now apply Htgt].
    + intros (k & Hk & Hel & (i & Hi & Hs) & (j & Hj & Ht)). exists k.
      split; [exact Hk|]. split; [exact Hel|]. split.
      * exists i. split; [exact Hi | now apply Hsrc].
      * exists j. split; [exact Hj | now apply Htgt].
  - intros e He. destruct (Hrej e He) as (Hatt & Hto & Hs & Ht & Hnot).
    split; [exact Hatt|]. split; [exact Hto|]. split; [|split; [|exact Hnot]].
    + rewrite Hs. split; intros (i & Hi & H); exists i; (split; [exact Hi | now apply Hsrc]).
    + rewrite Ht. split; intros (j & Hj & H); exists j; (split; [exact Hj | now apply Htgt]).
  - intros c.
    destruct (waitForConnections_verdict timeout env (RelayManager.with_ethereumChainId c m))
      as [Hres' _].
    rewrite Hres', Hres. reflexivity.
Qed.

(** C5, on the spec's example: the mock source expects and reports chain
    id 138, the target reports chain id 1, the default timeout of 30s:
    resolved in the first round. *)
Lemma waitForConnections_resolves_iff_both_verify_witness :
  fst (RelayManager.waitForConnections 30000 (Scenario.rounds 1) Scenario.manager)
  = RelayManager.ResolvesTrue.
Proof.
  destruct (waitForConnections_resolves_iff_both_verify
              30000 (Scenario.rounds 1) Scenario.manager) as [Hres _].
  apply Hres.
  exists 1%nat. split; [unfold RelayManager.maxAttempts; lia|]. split.
  - intros i Hi. assert (i = 1%nat) as -> by lia. vm_compute. reflexivity.
  - split; exists 1%nat; (split; [lia|]).
    + split; [reflexivity|]. exists "0x0", "0x8a", 138. now repeat split.
    + split; [reflexivity|]. exists "0x12a05f2", "0x1". now repeat split.
Defined.

(** C5, counterexample.  A manager constructed with [ethereum.chainId]
    overridden to 5, the mock source on chain 138 and a target that
    reports chain 5 in every round: both endpoints report the chain id
    configured for them, the five rounds all start within the 30s timeout,
    and the call still throws after five attempts with the target
    unverified, because the target is compared with the literal 1. *)
Lemma target_expected_chain_id_is_the_literal_one :
  RelayManager.ethereumChainId Scenario.managerForChain5 = 5 /\
  RelayManager.sourceChainId Scenario.managerForChain5 = Some 138 /\
  (forall i,
      RelayManager.onChainId (RelayManager.src (Scenario.rounds 5 i))
      = RelayManager.Resolves "0x8a" /\
      RelayManager.onChainId (RelayManager.tgt (Scenario.rounds 5 i))
      = RelayManager.Resolves "0x5") /\
  Js.parseInt16_number "0x8a" = Some 138 /\
  Js.parseInt16_number "0x5" = Some 5 /\
  fst (RelayManager.waitForConnections 30000 (Scenario.rounds 5) Scenario.managerForChain5)
  = RelayManager.RejectsWith
      {| RelayManager.failure_attempts := 5;
         RelayManager.failure_timeout := 30000;
         RelayManager.failure_sourceVerified := true;
         RelayManager.failure_targetVerified := false |}.
Proof.
  split; [reflexivity|]. split; [reflexivity|]. split; [intros i; split; reflexivity|].
  split; [reflexivity|]. split; [reflexivity|]. vm_compute. reflexivity.
Qed.

(** C9.  Verification is sticky and each side progresses on its own: a
    round never lowers a flag; the RPCs a round adds go only to endpoints
    whose flag was down when the round started; and over a whole run, an
    RPC issued to an endpoint in round [i] means that the endpoint's answers
    had verified it in no round before [i].  So once an endpoint is marked
    verified no liveness or chain-id query is sent to it again, whatever the
    other endpoint does. *)
Theorem verified_endpoint_is_not_polled_again :
  forall (timeout : Z) (env : nat -> RelayManager.round) (m : RelayManager.t),
    (forall r l,
        (RelayManager.sourceVerified l = true ->
         RelayManager.sourceVerified (RelayManager.round_step r l) = true) /\
        (RelayManager.targetVerified l = true ->
         RelayManager.targetVerified (RelayManager.round_step r l) = true)) /\
    (forall r l c,
        In c (RelayManager.issued (RelayManager.round_step r l)) ->
        In c (RelayManager.issued l) \/
        (RelayManager.sourceVerified l = false /\
         exists method, c = (S (RelayManager.attempts l), RelayManager.source, method)) \/
        (RelayManager.targetVerified l = false /\
         exists method, c = (S (RelayManager.attempts l), RelayManager.target, method))) /\
    (forall i j n method,
        In (i, n, method)
           (RelayManager.issued (snd (RelayManager.waitForConnections timeout env m))) ->
        (1 <= j < i)%nat ->
        RelayManager.endpoint_ok env m n j = false).
Proof.
  intros timeout env m. split; [|split].
  - intros r l. apply round_step_sticky.
  - intros r l c. exact (round_step_new_calls r l c).
  - intros i j n method Hin Hj.
    unfold RelayManager.waitForConnections in Hin.
    assert (HJ : RelayManager.polls_justified env m
                   (snd (RelayManager.poll_loop RelayManager.maxAttempts env timeout
                           {| RelayManager.sourceVerified := false;
                              RelayManager.targetVerified := false;
                              RelayManager.attempts := 0; RelayManager.manager := m;
                              RelayManager.issued := [];
                              RelayManager.slept := [RelayManager.settleDelay] |}))).
    { apply poll_loop_justified.
      - repeat split.
      - split; [|split].
        + intros _ k Hk. cbn in Hk. lia.
        + intros _ k Hk. cbn in Hk. lia.
        + intros ? ? ? []. }
    destruct HJ as (_ & _ & Ji). destruct (Ji i n method Hin) as [_ Hearlier].
    apply Hearlier, Hj.
Qed.

(** C9, on a run where the source verifies in round 1 and the target only
    in round 3: rounds 2 and 3 query the target alone, and the target query
    of round 3 is justified by the target's failure to verify in round 2. *)
Lemma verified_endpoint_is_not_polled_again_witness :
  map fst (RelayManager.issued
             (snd (RelayManager.waitForConnections 30000 Scenario.slowTarget Scenario.manager)))
  = [(1%nat, RelayManager.source); (1%nat, RelayManager.source);
     (1%nat, RelayManager.target); (1%nat, RelayManager.target);
     (2%nat, RelayManager.target); (2%nat, RelayManager.target);
     (3%nat, RelayManager.target); (3%nat, RelayManager.target)] /\
  RelayManager.endpoint_ok Scenario.slowTarget Scenario.manager RelayManager.target 2 = false.
Proof.
  split; [vm_compute; reflexivity|].
  destruct (verified_endpoint_is_not_polled_again 30000 Scenario.slowTarget Scenario.manager)
    as (_ & _ & H).
  apply (H 3%nat 2%nat RelayManager.target "eth_chainId").
  - vm_compute. do 7 right. left. reflexivity.
  - lia.
Defined.

(* ===================================================================== *)
(** * Further properties: the RPC surface of the mock provider *)
(* ===================================================================== *)

Section HexFacts.
Import Js.

Lemma hex_value_digit d :
  (d < 16)%N -> hex_value (hex_digit d) = Some (Z.of_N d).
Proof.
  intros Hd.
  assert (Htable :
            forallb (fun x =>
              match hex_value (hex_digit x) with
              | Some v => (v =? Z.of_N x)%Z
              | None => false
              end) (map N.of_nat (seq 0 16)) = true) by (vm_compute; reflexivity).
  rewrite forallb_forall in Htable.
  specialize (Htable d (below_listed 16 d Hd)).
  destruct (hex_value (hex_digit d)) as [v|]; [|discriminate Htable].
  apply Z.eqb_eq in Htable. now subst v.
Qed.

Lemma size_nat_bound n : (n < 2 ^ N.of_nat (N.size_nat n))%N.
Proof.
  destruct n as [|q]; [cbn; lia|]. cbn [N.size_nat].
  induction q as [q IH|q IH|]; cbn [Pos.size_nat];
    rewrite ?Nnat.Nat2N.inj_succ, ?N.pow_succ_r'; try lia.
Qed.

(** Parsing the digits [hex_go] writes gives the number back. *)
Lemma hex_go_parse fuel : forall n s,
  (n < 2 ^ N.of_nat fuel)%N ->
  hex_prefix None (hex_go fuel n s)
  = hex_prefix (if (n =? 0)%N then None else Some (Z.of_N n)) s.
Proof.
  induction fuel as [|fuel IH]; intros n s Hn.
  - assert (n = 0%N) as -> by (cbn in Hn; lia). reflexivity.
  - cbn [hex_go]. destruct (N.eqb_spec n 0) as [->|Hpos]; [reflexivity|].
    rewrite Nnat.Nat2N.inj_succ, N.pow_succ_r' in Hn.
    rewrite IH by div_lia.
    cbn [hex_prefix]. rewrite hex_value_digit by (apply N.mod_lt; lia).
    do 2 f_equal.
    destruct (N.eqb_spec (n / 16) 0) as [Hz|Hnz]; cbn; div_lia.
Qed.

(** After a literal [0x] there is no white space and no sign to read. *)
Lemma parseInt16_0x t : parseInt16 ("0x" +:+ t) = hex_prefix None t.
Proof. reflexivity. Qed.

Lemma to_number_safe z : Z.abs z < 2 ^ 53 -> to_number z = Some z.
Proof.
  intros Hz. unfold to_number.
  destruct (Z.ltb_spec (Z.abs z) (2 ^ 53)); [reflexivity | lia].
Qed.

Lemma toString16_parses_back x :
  0 <= x -> parseInt16 ("0x" +:+ toString16 x) = Some x.
Proof.
  intros Hx. rewrite parseInt16_0x. unfold toString16.
  destruct (N.eqb_spec (Z.to_N x) 0) as [Hz|Hnz].
  - assert (x = 0) as -> by lia. reflexivity.
  - change (hex_prefix None (hex_go (N.size_nat (Z.to_N x)) (Z.to_N x) EmptyString) = Some x).
    rewrite hex_go_parse by apply size_nat_bound.
    destruct (N.eqb_spec (Z.to_N x) 0) as [|_]; [contradiction|].
    cbn [hex_prefix]. f_equal. lia.
Qed.

End HexFacts.

Section ProviderSurfaceFacts.
Import MockWebSocketProvider.

Lemma send_chainId w now params :
  connected w = true ->
  send "eth_chainId" params now w
  = Ok (VString ("0x" +:+ Js.toString16 (networkState_chainId w))).
Proof. intros Hc. unfold send, ensureConnected. now rewrite Hc. Qed.

Lemma send_blockNumber w now params :
  connected w = true ->
  send "eth_blockNumber" params now w
  = Ok (VString ("0x" +:+ Js.toString16 (MockProvider.blockNumber (mockProvider w)))).
Proof. intros Hc. unfold send, ensureConnected. now rewrite Hc. Qed.

Lemma connect_result_cases w :
  (connectionAttempts w < maxRetries w ->
   exists w', connect w = (w', [EvConnect], Ok tt) /\
              connected w' = true /\
              connectionAttempts w' = connectionAttempts w + 1 /\
              maxRetries w' = maxRetries w /\
              networkState_chainId w' = networkState_chainId w /\
              networkState_name w' = networkState_name w /\
              blockForwarders w' = S (blockForwarders w) /\
              MockProvider.blockNumber (mockProvider w') = MockProvider.blockNumber (mockProvider w) /\
              MockProvider.transactions (mockProvider w') = MockProvider.transactions (mockProvider w) /\
              MockProvider.interval (mockProvider w') = true).
Proof.
  intros Hroom. unfold connect.
  destruct (Z.leb_spec (maxRetries w) (connectionAttempts w)); [lia|].
  eexists. repeat split.
Qed.

End ProviderSurfaceFacts.

(** X1.  The hexadecimal answers of the mock's [send] parse back: on a
    connected provider whose chain id and height are not negative,
    [parseInt(answer, 16)] of the eth_chainId answer is the provider's
    chain id and that of the eth_blockNumber answer is the simulator's
    current block number, whatever the parameters. *)
Theorem mock_hex_answers_parse_back :
  forall (w : MockWebSocketProvider.t) (now : Z) (params : list string),
    MockWebSocketProvider.connected w = true ->
    0 <= MockWebSocketProvider.networkState_chainId w ->
    0 <= MockProvider.blockNumber (MockWebSocketProvider.mockProvider w) ->
    exists c b,
      MockWebSocketProvider.send "eth_chainId" params now w
      = MockWebSocketProvider.Ok (MockWebSocketProvider.VString c) /\
      Js.parseInt16 c = Some (MockWebSocketProvider.networkState_chainId w) /\
      MockWebSocketProvider.send "eth_blockNumber" params now w
      = MockWebSocketProvider.Ok (MockWebSocketProvider.VString b) /\
      Js.parseInt16 b
      = Some (MockProvider.blockNumber (MockWebSocketProvider.mockProvider w)).
Proof.
  intros w now params Hc Hid Hbn. do 2 eexists.
  split; [now apply send_chainId|]. split; [now apply toString16_parses_back|].
  split; [now apply send_blockNumber|]. now apply toString16_parses_back.
Qed.

Lemma mock_hex_answers_parse_back_witness :
  exists c b,
    MockWebSocketProvider.send "eth_chainId" [] 0 Scenario.connectedSource
    = MockWebSocketProvider.Ok (MockWebSocketProvider.VString c) /\
    Js.parseInt16 c = Some (MockWebSocketProvider.networkState_chainId Scenario.connectedSource) /\
    MockWebSocketProvider.send "eth_blockNumber" [] 0 Scenario.connectedSource
    = MockWebSocketProvider.Ok (MockWebSocketProvider.VString b) /\
    Js.parseInt16 b
    = Some (MockProvider.blockNumber
              (MockWebSocketProvider.mockProvider Scenario.connectedSource)).
Proof.
  apply (mock_hex_answers_parse_back Scenario.connectedSource 0 []).
  - reflexivity.
  - vm_compute. discriminate.
  - vm_compute. discriminate.
Defined.

(** X2.  Sequencing and dispatch faults of the mock provider.  While it is
    not connected, every query ([send] with any method, supported or not,
    and the direct getters and the test generator) fails with 'Provider not
    connected' and nothing is generated.  While it is connected, [send]
    with a method outside its dispatch table fails with 'Method ... not
    implemented', naming the method. *)
Theorem mock_provider_refuses_when_disconnected_or_unsupported :
  forall (w : MockWebSocketProvider.t) (method : string) (params : list string)
         (now : Z) (h : string),
    (MockWebSocketProvider.connected w = false ->
     MockWebSocketProvider.send method params now w
     = MockWebSocketProvider.Throw MockWebSocketProvider.ProviderNotConnected /\
     MockWebSocketProvider.getBlockNumber w
     = MockWebSocketProvider.Throw MockWebSocketProvider.ProviderNotConnected /\
     MockWebSocketProvider.getBlock now now w
     = MockWebSocketProvider.Throw MockWebSocketProvider.ProviderNotConnected /\
     MockWebSocketProvider.getTransaction h w
     = MockWebSocketProvider.Throw MockWebSocketProvider.ProviderNotConnected /\
     MockWebSocketProvider.getTransactionReceipt h w
     = MockWebSocketProvider.Throw MockWebSocketProvider.ProviderNotConnected /\
     MockWebSocketProvider.generateTestTransaction now w
     = MockWebSocketProvider.Throw MockWebSocketProvider.ProviderNotConnected) /\
    (MockWebSocketProvider.connected w = true ->
     ~ In method MockWebSocketProvider.supported_methods ->
     MockWebSocketProvider.send method params now w
     = MockWebSocketProvider.Throw (MockWebSocketProvider.MethodNotImplemented method)).
Proof.
  intros w method params now h. split.
  - intros Hc.
    unfold MockWebSocketProvider.send, MockWebSocketProvider.getBlockNumber,
      MockWebSocketProvider.getBlock, MockWebSocketProvider.getTransaction,
      MockWebSocketProvider.getTransactionReceipt,
      MockWebSocketProvider.generateTestTransaction,
      MockWebSocketProvider.ensureConnected.
    rewrite Hc. repeat split.
  - intros Hc Hout.
    unfold MockWebSocketProvider.send, MockWebSocketProvider.ensureConnected.
    rewrite Hc.
    repeat match goal with
           | |- context [String.eqb method ?name] =>
               destruct (String.eqb_spec method name) as [Heq|_];
               [exfalso; apply Hout; rewrite Heq; cbn; tauto|]
           end.
    reflexivity.
Qed.

Lemma mock_provider_refuses_when_disconnected_or_unsupported_witness :
  MockWebSocketProvider.send "eth_gasPrice" [] 0 Scenario.connectedSource
  = MockWebSocketProvider.Throw (MockWebSocketProvider.MethodNotImplemented "eth_gasPrice") /\
  MockWebSocketProvider.send "eth_chainId" [] 0
    (MockWebSocketProvider.new "wss://mock.defi-oracle.io" 138 "defi-oracle-meta")
  = MockWebSocketProvider.Throw MockWebSocketProvider.ProviderNotConnected.
Proof.
  split.
  - apply (mock_provider_refuses_when_disconnected_or_unsupported
             Scenario.connectedSource "eth_gasPrice" [] 0 EmptyString).
    + reflexivity.
    + vm_compute. intros H. repeat (destruct H as [H|H]; [discriminate H|]). exact H.
  - apply (mock_provider_refuses_when_disconnected_or_unsupported
             (MockWebSocketProvider.new "wss://mock.defi-oracle.io" 138 "defi-oracle-meta")
             "eth_chainId" [] 0 EmptyString).
    reflexivity.
Defined.

Section ProviderLifecycleFacts.
Import MockWebSocketProvider.

Lemma source_answers_verify w e :
  connected w = true ->
  0 <= networkState_chainId w < 2 ^ 53 ->
  RelayManager.answers_verify (Scenario.sourceAnswers w) e
  = Js.strict_eq (Some (networkState_chainId w)) e.
Proof.
  intros Hc Hid.
  unfold RelayManager.answers_verify, Scenario.sourceAnswers.
  cbn [RelayManager.onBlockNumber RelayManager.onChainId].
  rewrite send_blockNumber, send_chainId by assumption.
  cbn [Scenario.answer_of RelayManager.verifyChainId].
  unfold Js.parseInt16_number.
  rewrite toString16_parses_back by lia.
  rewrite to_number_safe by lia. reflexivity.
Qed.

Lemma after_ticks_fields ticks : forall w,
  connected (after_ticks ticks w) = connected w /\
  networkState_chainId (after_ticks ticks w) = networkState_chainId w.
Proof.
  unfold after_ticks.
  induction ticks as [|nows ticks IH]; intros w; cbn [fold_left]; [now split|].
  destruct (IH (fst (on_tick nows w))) as [Hc Hid]. rewrite Hc, Hid.
  unfold on_tick. destruct (MockProvider.tick nows (mockProvider w)) as [p n].
  now split.
Qed.

Lemma connect_new u c nm :
  exists w, connect (new u c nm) = (w, [EvConnect], Ok tt) /\
            connected w = true /\
            networkState_chainId w = Js.or_number c 138.
Proof. eexists. repeat split. Qed.

Lemma disconnect_fields w :
  connected (fst (disconnect w)) = false /\
  connectionAttempts (fst (disconnect w)) = 0 /\
  maxRetries (fst (disconnect w)) = maxRetries w /\
  blockForwarders (fst (disconnect w)) = blockForwarders w /\
  networkState_chainId (fst (disconnect w)) = networkState_chainId w /\
  MockProvider.interval (mockProvider (fst (disconnect w))) = false /\
  MockProvider.blockNumber (mockProvider (fst (disconnect w)))
  = MockProvider.blockNumber (mockProvider w) /\
  MockProvider.transactions (mockProvider (fst (disconnect w)))
  = MockProvider.transactions (mockProvider w).
Proof.
  unfold disconnect, MockProvider.stopBlockProduction. cbn [fst mockProvider connected
    connectionAttempts maxRetries blockForwarders networkState_chainId].
  destruct (MockProvider.interval (mockProvider w)) eqn:Hi; now repeat split.
Qed.

(** [disconnect()] clears the timer whose handle is stored, and no other. *)
Lemma disconnect_timers w :
  MockProvider.liveTimers (mockProvider (fst (disconnect w)))
  = if MockProvider.interval (mockProvider w)
    then Nat.pred (MockProvider.liveTimers (mockProvider w))
    else MockProvider.liveTimers (mockProvider w).
Proof.
  unfold disconnect, MockProvider.stopBlockProduction. cbn [fst mockProvider].
  destruct (MockProvider.interval (mockProvider w)); reflexivity.
Qed.

Lemma disconnect_twice w : fst (disconnect (fst (disconnect w))) = fst (disconnect w).
Proof.
  unfold disconnect, MockProvider.stopBlockProduction. cbn [fst mockProvider connected url
    networkState_chainId networkState_name connectionAttempts maxRetries blockForwarders].
  destruct (MockProvider.interval (mockProvider w)) eqn:Hi; cbn [MockProvider.interval].
  - reflexivity.
  - rewrite Hi. reflexivity.
Qed.

Lemma connect_timers w :
  connectionAttempts w < maxRetries w ->
  MockProvider.liveTimers (mockProvider (fst (fst (connect w))))
  = S (MockProvider.liveTimers (mockProvider w)).
Proof.
  intros Hroom. unfold connect.
  destruct (Z.leb_spec (maxRetries w) (connectionAttempts w)); [lia | reflexivity].
Qed.

Lemma reconnect_fields w :
  0 < maxRetries w ->
  exists w2, reconnect w = (w2, Ok tt) /\
             connected w2 = true /\
             connectionAttempts w2 = 1 /\
             maxRetries w2 = maxRetries w /\
             blockForwarders w2 = S (blockForwarders w) /\
             MockProvider.interval (mockProvider w2) = true /\
             MockProvider.blockNumber (mockProvider w2)
             = MockProvider.blockNumber (mockProvider w) /\
             MockProvider.transactions (mockProvider w2)
             = MockProvider.transactions (mockProvider w).
Proof.
  intros Hmax. unfold reconnect.
  destruct (disconnect w) as [w1 evs] eqn:Ed.
  pose proof (disconnect_fields w) as (_ & Ha & Hm & Hf & _ & _ & Hb & Ht).
  rewrite Ed in Ha, Hm, Hf, Hb, Ht. cbn [fst] in Ha, Hm, Hf, Hb, Ht.
  destruct (connect_result_cases w1) as (w2 & E & Hc2 & Ha2 & Hm2 & _ & _ & Hf2 & Hb2 & Ht2 & Hi2);
    [lia|].
  rewrite E. exists w2. repeat split; try assumption; try congruence; lia.
Qed.

Lemma iter_reconnect n : forall w,
  0 < maxRetries w ->
  let w' := Nat.iter n (fun v => fst (reconnect v)) w in
  maxRetries w' = maxRetries w /\
  blockForwarders w' = (n + blockForwarders w)%nat /\
  MockProvider.blockNumber (mockProvider w') = MockProvider.blockNumber (mockProvider w).
Proof.
  induction n as [|n IH]; intros w Hmax; [repeat split|].
  destruct (IH w Hmax) as (Hm & Hf & Hb). cbn zeta in Hm, Hf, Hb.
  destruct (reconnect_fields (Nat.iter n (fun v => fst (reconnect v)) w))
    as (w2 & E & _ & _ & Hm2 & Hf2 & _ & Hb2 & _); [lia|].
  cbn zeta. rewrite Nat.iter_succ, E. cbn [fst]. repeat split; try congruence. lia.
Qed.

End ProviderLifecycleFacts.

(** X3.  In mock mode the source side of the verification never holds the
    protocol back, unless the configured chain id is 0.  A mock provider
    constructed for a chain id [c] with [0 <= c < 2^53] and connected
    reports [c || 138], at whatever height its block timer has brought it:
    its answers verify against the expected id [c] exactly when [c] is not
    0.  With [c] not 0 and the source answering as this provider does while
    it goes on producing blocks, [waitForConnections] resolves exactly when
    the target, in some round within the ceiling whose predecessors all
    started before the timeout, answers the liveness query and reports
    chain id 1. *)
Theorem mock_source_verifies_unless_chain_is_zero :
  forall (u nm : string) (c : Z),
    0 <= c < 2 ^ 53 ->
    let w := fst (fst (MockWebSocketProvider.connect (MockWebSocketProvider.new u c nm))) in
    (forall ticks,
        RelayManager.answers_verify
          (Scenario.sourceAnswers (MockWebSocketProvider.after_ticks ticks w)) (Some c) = true
        <-> c <> 0) /\
    (forall (timeout : Z) (env : nat -> RelayManager.round) (m : RelayManager.t),
        c <> 0 ->
        RelayManager.provider m = true ->
        RelayManager.sourceChainId m = Some c ->
        (forall i, exists ticks,
            RelayManager.src (env i)
            = Scenario.sourceAnswers (MockWebSocketProvider.after_ticks ticks w)) ->
        (fst (RelayManager.waitForConnections timeout env m) = RelayManager.ResolvesTrue <->
         exists k j,
           (1 <= j <= k)%nat /\ (k <= RelayManager.maxAttempts)%nat /\
           (forall i, (1 <= i <= k)%nat -> RelayManager.elapsed (env i) < timeout) /\
           RelayManager.ethProvider m = true /\
           exists b s,
             RelayManager.onBlockNumber (RelayManager.tgt (env j)) = RelayManager.Resolves b /\
             RelayManager.onChainId (RelayManager.tgt (env j)) = RelayManager.Resolves s /\
             Js.parseInt16_number s = Some 1)).
Proof.
  intros u nm c Hc w.
  destruct (connect_new u c nm) as (w0 & E & Hconn & Hid).
  assert (Hw : w = w0) by (subst w; now rewrite E). rewrite Hw. clear w Hw.
  assert (Hver : forall ticks,
             RelayManager.answers_verify
               (Scenario.sourceAnswers (MockWebSocketProvider.after_ticks ticks w0)) (Some c)
             = (Js.or_number c 138 =? c)%Z).
  { intros ticks.
    destruct (after_ticks_fields ticks w0) as [Hc' Hid'].
    rewrite source_answers_verify; rewrite ?Hc', ?Hid', ?Hid; [reflexivity | exact Hconn |].
    unfold Js.or_number. destruct (c =? 0)%Z; lia. }
  split.
  - intros ticks. rewrite Hver. unfold Js.or_number.
    destruct (Z.eqb_spec c 0) as [->|Hne].
    + split; [discriminate | intros H; now contradiction H].
    + rewrite Z.eqb_refl. tauto.
  - intros timeout env m Hne Hp Hexp Hsrc.
    assert (Hok : forall i, RelayManager.source_ok env m i = true).
    { intros i. destruct (Hsrc i) as [ticks Hi].
      unfold RelayManager.source_ok. rewrite Hp, Hexp, Hi, Hver.
      unfold Js.or_number. destruct (Z.eqb_spec c 0); [contradiction|].
      cbn. apply Z.eqb_refl. }
    unfold RelayManager.waitForConnections.
    rewrite (poll_loop_resolves env timeout m) by (repeat split).
    cbn [RelayManager.attempts RelayManager.sourceVerified RelayManager.targetVerified].
    split.
    + intros (k & Hk & Hel & _ & Ht).
      destruct Ht as [Ht|(j & Hj & Ht)]; [discriminate|].
      apply target_ok_reports in Ht as (He & b & s & Hb & Hs & Hparse).
      exists k, j. split; [lia|]. split; [lia|].
      split; [intros i Hi; apply Hel; lia|].
      split; [exact He|]. exists b, s. now repeat split.
    + intros (k & j & Hj & Hk & Hel & He & b & s & Hb & Hs & Hparse). exists k.
      split; [lia|].
      split; [intros i Hi; apply Hel; lia|]. split; right.
      * exists 1%nat. split; [lia | apply Hok].
      * exists j. split; [lia|]. apply target_ok_reports.
        split; [exact He|]. exists b, s. now repeat split.
Qed.

(** X3, on chain 138 with the source's block timer firing between the
    rounds and a target that reports chain 1 from the third round on: the
    call resolves; and a provider constructed for chain 0 never verifies
    against 0. *)
Lemma mock_source_verifies_unless_chain_is_zero_witness :
  fst (RelayManager.waitForConnections 30000 Scenario.tickingSource Scenario.manager)
  = RelayManager.ResolvesTrue /\
  RelayManager.answers_verify
    (Scenario.sourceAnswers
       (fst (fst (MockWebSocketProvider.connect
                    (MockWebSocketProvider.new "wss://mock.defi-oracle.io" 0 "defi-oracle-meta")))))
    (Some 0) <> true.
Proof.
  split.
  - destruct (mock_source_verifies_unless_chain_is_zero
                "wss://mock.defi-oracle.io" "defi-oracle-meta" 138) as [_ Hrun]; [lia|].
    apply (Hrun 30000 Scenario.tickingSource Scenario.manager).
    + discriminate.
    + reflexivity.
    + reflexivity.
    + intros i. exists (Scenario.firings i). reflexivity.
    + exists 3%nat, 3%nat. split; [lia|]. split; [unfold RelayManager.maxAttempts; lia|].
      split.
      * intros i Hi. unfold Scenario.tickingSource. cbn [RelayManager.elapsed]. lia.
      * split; [reflexivity|]. exists "0x12a05f2", "0x1". now repeat split.
  - intros H.
    destruct (mock_source_verifies_unless_chain_is_zero
                "wss://mock.defi-oracle.io" "defi-oracle-meta" 0) as [Hver _]; [lia|].
    apply (Hver []) in H. now apply H.
Defined.

(** X4.  [disconnect()] is idempotent; it leaves the provider disconnected
    with its attempt counter at 0 and no timer handle stored, and it keeps
    the chain: the height and the stored transactions are untouched.  It
    clears only the timer whose handle was stored: the timers that earlier
    [connect()] calls started, and whose handles were overwritten, stay
    live.  After [n] connects in a row from a new provider ([n] from 1 to
    3) [n] timers are live, and a disconnect leaves [n - 1] of them
    producing blocks on the disconnected provider.  With a positive
    ceiling, a [connect()] right after a disconnect is let through, also on
    a provider that had used up its attempts, and starts one more timer at
    the same height. *)
Theorem disconnect_resets_attempts_and_keeps_the_chain :
  forall w : MockWebSocketProvider.t,
    let w1 := fst (MockWebSocketProvider.disconnect w) in
    MockWebSocketProvider.connected w1 = false /\
    MockWebSocketProvider.connectionAttempts w1 = 0 /\
    MockProvider.interval (MockWebSocketProvider.mockProvider w1) = false /\
    MockProvider.liveTimers (MockWebSocketProvider.mockProvider w1)
    = (if MockProvider.interval (MockWebSocketProvider.mockProvider w)
       then Nat.pred (MockProvider.liveTimers (MockWebSocketProvider.mockProvider w))
       else MockProvider.liveTimers (MockWebSocketProvider.mockProvider w)) /\
    MockProvider.blockNumber (MockWebSocketProvider.mockProvider w1)
    = MockProvider.blockNumber (MockWebSocketProvider.mockProvider w) /\
    MockProvider.transactions (MockWebSocketProvider.mockProvider w1)
    = MockProvider.transactions (MockWebSocketProvider.mockProvider w) /\
    fst (MockWebSocketProvider.disconnect w1) = w1 /\
    (forall (u nm : string) (c : Z) (n : nat),
        (1 <= n <= 3)%nat ->
        let v := fst (MockWebSocketProvider.connect_times n (MockWebSocketProvider.new u c nm)) in
        MockProvider.liveTimers (MockWebSocketProvider.mockProvider v) = n /\
        MockWebSocketProvider.connected (fst (MockWebSocketProvider.disconnect v)) = false /\
        MockProvider.liveTimers
          (MockWebSocketProvider.mockProvider (fst (MockWebSocketProvider.disconnect v)))
        = (n - 1)%nat) /\
    (0 < MockWebSocketProvider.maxRetries w ->
     exists w2,
       MockWebSocketProvider.reconnect w = (w2, MockWebSocketProvider.Ok tt) /\
       MockWebSocketProvider.connected w2 = true /\
       MockWebSocketProvider.connectionAttempts w2 = 1 /\
       MockProvider.interval (MockWebSocketProvider.mockProvider w2) = true /\
       MockProvider.liveTimers (MockWebSocketProvider.mockProvider w2)
       = S (MockProvider.liveTimers (MockWebSocketProvider.mockProvider w1)) /\
       MockProvider.blockNumber (MockWebSocketProvider.mockProvider w2)
       = MockProvider.blockNumber (MockWebSocketProvider.mockProvider w) /\
       MockProvider.transactions (MockWebSocketProvider.mockProvider w2)
       = MockProvider.transactions (MockWebSocketProvider.mockProvider w)).
Proof.
  intros w w1. subst w1.
  pose proof (disconnect_fields w) as (Hc & Ha & Hm & _ & _ & Hi & Hb & Ht).
  split; [exact Hc|]. split; [exact Ha|]. split; [exact Hi|].
  split; [apply disconnect_timers|]. split; [exact Hb|]. split; [exact Ht|].
  split; [apply disconnect_twice|]. split.
  - intros u nm c n Hn.
    assert (Hcases : n = 1%nat \/ n = 2%nat \/ n = 3%nat) by lia.
    destruct Hcases as [->|[->| ->]]; repeat split.
  - intros Hmax.
    destruct (reconnect_fields w Hmax) as (w2 & E & Hc2 & Ha2 & _ & _ & Hi2 & Hb2 & Ht2).
    exists w2. repeat split; try assumption.
    unfold MockWebSocketProvider.reconnect in E.
    destruct (MockWebSocketProvider.disconnect w) as [v evs] eqn:Ed. cbn [fst] in *.
    pose proof (connect_timers v) as Htimers.
    destruct (MockWebSocketProvider.connect v) as [[v2 evs2] res] eqn:Ec.
    injection E as <- _. cbn [fst] in Htimers. apply Htimers. lia.
Qed.

(** X4, on a provider that was connected three times in a row: the
    disconnect leaves two timers firing, and the connect after it is let
    through although the attempts had been used up. *)
Lemma disconnect_resets_attempts_and_keeps_the_chain_witness :
  let w := fst (MockWebSocketProvider.connect_times 3
                  (MockWebSocketProvider.new "wss://mock.defi-oracle.io" 138
                     "defi-oracle-meta")) in
  snd (MockWebSocketProvider.connect w)
  = MockWebSocketProvider.Throw MockWebSocketProvider.MaxConnectionAttempts /\
  MockWebSocketProvider.connected (fst (MockWebSocketProvider.disconnect w)) = false /\
  MockProvider.liveTimers
    (MockWebSocketProvider.mockProvider (fst (MockWebSocketProvider.disconnect w))) = 2%nat /\
  exists w2,
    MockWebSocketProvider.reconnect w = (w2, MockWebSocketProvider.Ok tt) /\
    MockWebSocketProvider.connected w2 = true /\
    MockWebSocketProvider.connectionAttempts w2 = 1 /\
    MockProvider.liveTimers (MockWebSocketProvider.mockProvider w2) = 3%nat.
Proof.
  intros w. split; [reflexivity|].
  destruct (disconnect_resets_attempts_and_keeps_the_chain w)
    as (_ & _ & _ & _ & _ & _ & _ & Hn & H).
  destruct (Hn "wss://mock.defi-oracle.io" "defi-oracle-meta" 138 3%nat) as (_ & Hd & Ht);
    [lia|].
  split; [exact Hd|]. split; [exact Ht|].
  destruct H as (w2 & E & Hc & Ha & _ & Hl & _); [vm_compute; reflexivity|].
  exists w2. split; [exact E|]. split; [exact Hc|]. split; [exact Ha|].
  rewrite Hl. apply (f_equal S). exact Ht.
Defined.

(** X5.  [getNetwork()] never throws and, for a chain id that is not
    negative, always reports the provider's configured chain id and name.
    On a connected provider it changes nothing; on a disconnected one it
    calls [connect()] first, which connects the provider and uses up one
    attempt while attempts remain, and otherwise leaves it as it was. *)
Theorem getNetwork_reports_the_configured_chain :
  forall (w : MockWebSocketProvider.t) (now : Z),
    0 <= MockWebSocketProvider.networkState_chainId w ->
    MockWebSocketProvider.net_chainId (snd (MockWebSocketProvider.getNetwork now w))
    = Some (MockWebSocketProvider.networkState_chainId w) /\
    MockWebSocketProvider.net_name (snd (MockWebSocketProvider.getNetwork now w))
    = MockWebSocketProvider.networkState_name w /\
    (MockWebSocketProvider.connected w = true ->
     fst (MockWebSocketProvider.getNetwork now w) = w) /\
    (MockWebSocketProvider.connected w = false ->
     MockWebSocketProvider.connectionAttempts w < MockWebSocketProvider.maxRetries w ->
     MockWebSocketProvider.connected (fst (MockWebSocketProvider.getNetwork now w)) = true /\
     MockWebSocketProvider.connectionAttempts (fst (MockWebSocketProvider.getNetwork now w))
     = MockWebSocketProvider.connectionAttempts w + 1) /\
    (MockWebSocketProvider.connected w = false ->
     MockWebSocketProvider.maxRetries w <= MockWebSocketProvider.connectionAttempts w ->
     fst (MockWebSocketProvider.getNetwork now w) = w).
Proof.
  intros w now Hid.
  assert (Hdetect : forall v,
             MockWebSocketProvider.connected v = true ->
             MockWebSocketProvider.networkState_chainId v
             = MockWebSocketProvider.networkState_chainId w ->
             MockWebSocketProvider.networkState_name v
             = MockWebSocketProvider.networkState_name w ->
             MockWebSocketProvider.detect_network now v
             = {| MockWebSocketProvider.net_chainId :=
                    Some (MockWebSocketProvider.networkState_chainId w);
                  MockWebSocketProvider.net_name :=
                    MockWebSocketProvider.networkState_name w |}).
  { intros v Hc Hi Hn. unfold MockWebSocketProvider.detect_network.
    rewrite send_chainId by exact Hc.
    rewrite toString16_parses_back by (rewrite Hi; exact Hid).
    now rewrite Hi, Hn. }
  unfold MockWebSocketProvider.getNetwork.
  destruct (MockWebSocketProvider.connected w) eqn:Hconn.
  - cbn [fst snd]. rewrite (Hdetect w Hconn eq_refl eq_refl). cbn.
    repeat split; try discriminate.
  - destruct (Z.le_gt_cases (MockWebSocketProvider.maxRetries w)
                (MockWebSocketProvider.connectionAttempts w)) as [Hfull|Hroom].
    + rewrite (connect_refused w Hfull). cbn.
      repeat split; try discriminate; intros; lia.
    + destruct (connect_result_cases w) as (w1 & E & Hc1 & Ha1 & _ & Hi1 & Hn1 & _); [lia|].
      rewrite E. cbn [fst snd]. rewrite (Hdetect w1 Hc1 Hi1 Hn1). cbn.
      repeat split; try discriminate; try assumption; intros; lia.
Qed.

Lemma getNetwork_reports_the_configured_chain_witness :
  let w := MockWebSocketProvider.new "wss://mock.defi-oracle.io" 138 "defi-oracle-meta" in
  MockWebSocketProvider.net_chainId (snd (MockWebSocketProvider.getNetwork 0 w)) = Some 138 /\
  MockWebSocketProvider.connected (fst (MockWebSocketProvider.getNetwork 0 w)) = true.
Proof.
  intros w.
  destruct (getNetwork_reports_the_configured_chain w 0) as (Hid & _ & _ & Hconn & _).
  { vm_compute. discriminate. }
  split; [exact Hid|]. apply Hconn; [reflexivity | vm_compute; reflexivity].
Defined.

(** X6.  The forwarding listener that [connect()] installs on the inner
    provider is never removed: [disconnect()] keeps the listeners and every
    [connect()] that is let through adds one.  After [n] disconnect/connect
    cycles a provider therefore announces each produced block [n] more
    times than before: one firing of the block timer emits the new block
    number once per installed listener. *)
Theorem every_reconnect_duplicates_block_announcements :
  forall (n : nat) (w : MockWebSocketProvider.t) (nows : list Z),
    0 < MockWebSocketProvider.maxRetries w ->
    let w' := Nat.iter n (fun v => fst (MockWebSocketProvider.reconnect v)) w in
    MockWebSocketProvider.blockForwarders w'
    = (n + MockWebSocketProvider.blockForwarders w)%nat /\
    snd (MockWebSocketProvider.on_tick nows w')
    = repeat (MockProvider.blockNumber (MockWebSocketProvider.mockProvider w) + 1)
        (n + MockWebSocketProvider.blockForwarders w).
Proof.
  intros n w nows Hmax w'.
  destruct (iter_reconnect n w Hmax) as (_ & Hf & Hb). fold w' in Hf, Hb.
  split; [exact Hf|].
  unfold MockWebSocketProvider.on_tick.
  pose proof (tick_event nows (MockWebSocketProvider.mockProvider w')) as Hev.
  destruct (MockProvider.tick nows (MockWebSocketProvider.mockProvider w')) as [q ev].
  cbn [snd] in Hev |- *. now rewrite Hev, Hf, Hb.
Qed.

Lemma every_reconnect_duplicates_block_announcements_witness :
  snd (MockWebSocketProvider.on_tick [1700000005000]
         (fst (MockWebSocketProvider.reconnect Scenario.connectedSource)))
  = [1; 1].
Proof.
  destruct (every_reconnect_duplicates_block_announcements
              1 Scenario.connectedSource [1700000005000]) as [_ H].
  { vm_compute. reflexivity. }
  exact H.
Defined.

(* ===================================================================== *)
(** * Further properties: the simulator's transaction store *)
(* ===================================================================== *)

Section StoreFacts.
Context {V : Type}.
Implicit Types (m : JsMap.t V) (k : string) (v : V).

Lemma elem_of_keys_set x k v m :
  x ∈ JsMap.keys (JsMap.set k v m) <-> x ∈ JsMap.keys m \/ x = k.
Proof.
  rewrite keys_set. case_bool_decide as Hin.
  - split; [now left | intros [H| ->]; assumption].
  - rewrite elem_of_app, list_elem_of_singleton. reflexivity.
Qed.

Lemma NoDup_keys_set k v m :
  NoDup (JsMap.keys m) -> NoDup (JsMap.keys (JsMap.set k v m)).
Proof.
  intros Hnd. rewrite keys_set. case_bool_decide as Hin; [exact Hnd|].
  apply NoDup_app. split; [exact Hnd|]. split.
  - intros x Hx Hk. apply list_elem_of_singleton in Hk. now subst x.
  - apply NoDup_singleton.
Qed.

Lemma Forall_set (P : string * V -> Prop) k v m :
  P (k, v) -> Forall P m -> Forall P (JsMap.set k v m).
Proof.
  intros Hnew. induction m as [|[k' v'] m IH]; intros Hall; cbn [JsMap.set].
  - now constructor.
  - inversion Hall as [|? ? Hhd Htl]; subst.
    destruct (String.eqb k k'); constructor; auto.
Qed.

Lemma get_listed k m :
  k ∈ JsMap.keys m -> exists v, JsMap.get k m = Some v /\ In (k, v) m.
Proof.
  induction m as [|[k' v'] m IH]; cbn [JsMap.keys map fst JsMap.get].
  - intros H. now apply not_elem_of_nil in H.
  - intros H. destruct (String.eqb_spec k k') as [->|Hne].
    + exists v'. split; [reflexivity | now left].
    + apply elem_of_cons in H as [H|H]; [contradiction|].
      destruct (IH H) as (v & Hget & Hin). exists v. split; [exact Hget | now right].
Qed.

Lemma get_unlisted k m : k ∉ JsMap.keys m -> JsMap.get k m = None.
Proof.
  induction m as [|[k' v'] m IH]; cbn [JsMap.keys map fst JsMap.get]; [reflexivity|].
  intros H. apply not_elem_of_cons in H as [Hne Hrest].
  destruct (String.eqb_spec k k'); [contradiction | now apply IH].
Qed.

End StoreFacts.

Section SimulatorStoreFacts.
Import MockProvider.
#[local] Arguments tick : simpl never.

Lemma synthesized_entry_mono h h' kv :
  h <= h' -> synthesized_entry h kv -> synthesized_entry h' kv.
Proof.
  unfold synthesized_entry. intros Hle (H1 & H2 & H3 & H4 & H5 & H6 & H7 & H8).
  repeat split; try assumption. lia.
Qed.

Lemma generate_store_ok now p :
  store_ok p -> store_ok (fst (generateMockTransaction now p)).
Proof.
  intros [Hnd Hall]. unfold store_ok, generateMockTransaction.
  cbn [fst transactions blockNumber]. split.
  - now apply NoDup_keys_set.
  - apply Forall_set; [|exact Hall].
    unfold synthesized_entry. cbn [fst snd Tx.hash Tx.to Tx.value Tx.gasLimit
      Tx.gasPrice Tx.data Tx.status Tx.blockNumber].
    repeat split; first [reflexivity | lia].
Qed.

Lemma generate_all_store_ok nows : forall p,
  store_ok p ->
  store_ok (fold_left (fun q now => fst (generateMockTransaction now q)) nows p).
Proof.
  induction nows as [|now nows IH]; intros p Hok; cbn [fold_left]; [exact Hok|].
  apply IH, generate_store_ok, Hok.
Qed.

Lemma tick_store_ok nows p : store_ok p -> store_ok (fst (tick nows p)).
Proof.
  intros [Hnd Hall]. unfold tick. cbn [fst].
  apply (generate_all_store_ok nows). split; [exact Hnd|].
  cbn [transactions blockNumber].
  eapply Forall_impl; [exact Hall|]. intros kv. apply synthesized_entry_mono. lia.
Qed.

Lemma produce_store_ok ticks : forall p,
  store_ok p -> store_ok (fst (produce ticks p)).
Proof.
  induction ticks as [|nows rest IH]; intros p Hok; [exact Hok|].
  rewrite produce_cons. cbn [fst]. apply IH, tick_store_ok, Hok.
Qed.

Lemma new_store_ok c nm : store_ok (new c nm).
Proof. split; [apply NoDup_nil_2 | constructor]. Qed.

Lemma generate_keys x now p :
  x ∈ JsMap.keys (transactions (fst (generateMockTransaction now p))) <->
  x ∈ JsMap.keys (transactions p) \/ x = hash_of_time now.
Proof. apply elem_of_keys_set. Qed.

Lemma generate_all_keys x nows : forall p,
  x ∈ JsMap.keys (transactions
                    (fold_left (fun q now => fst (generateMockTransaction now q)) nows p)) <->
  x ∈ JsMap.keys (transactions p) \/ x ∈ map hash_of_time nows.
Proof.
  induction nows as [|now nows IH]; intros p; cbn [fold_left map].
  - split; [now left | intros [H|H]; [exact H | now apply not_elem_of_nil in H]].
  - rewrite IH, generate_keys, elem_of_cons. tauto.
Qed.

Lemma tick_keys x nows p :
  x ∈ JsMap.keys (transactions (fst (tick nows p))) <->
  x ∈ JsMap.keys (transactions p) \/ x ∈ map hash_of_time nows.
Proof. unfold tick. cbn [fst]. now rewrite generate_all_keys. Qed.

Lemma produce_keys x ticks : forall p,
  x ∈ JsMap.keys (transactions (fst (produce ticks p))) <->
  x ∈ JsMap.keys (transactions p) \/ x ∈ map hash_of_time (concat ticks).
Proof.
  induction ticks as [|nows rest IH]; intros p.
  - cbn. split; [now left | intros [H|H]; [exact H | now apply not_elem_of_nil in H]].
  - rewrite produce_cons. cbn [fst concat]. rewrite IH, tick_keys, map_app, elem_of_app.
    tauto.
Qed.

Lemma NoDup_hashes (l : list Z) : NoDup l -> NoDup (map hash_of_time l).
Proof.
  induction 1 as [|t l Hnot Hnd IH]; cbn [map]; constructor; [|exact IH].
  intros Hin. apply Hnot. apply list_elem_of_In in Hin. apply in_map_iff in Hin.
  destruct Hin as (t' & Heq & Hin'). apply hash_of_time_inj in Heq. subst t'.
  now apply list_elem_of_In.
Qed.

End SimulatorStoreFacts.

(** X7.  Whatever the run of the block timer from a fresh simulator, the
    transaction list of the block that [getBlock] serves never names a hash
    twice, and every hash it names can be fetched: [getTransaction] returns
    a transaction that carries that very hash, has status 1 and is stamped
    with a block number not above the current height, and
    [getTransactionReceipt] returns a receipt for it with status 1.  For a
    hash that is not listed both return null. *)
Theorem listed_transactions_are_retrievable :
  forall (c : Z) (nm : string) (ticks : list (list Z)) (n now : Z),
    let p := fst (MockProvider.produce ticks (MockProvider.new c nm)) in
    let listed := Block.transactions (MockProvider.getBlock n now p) in
    NoDup listed /\
    (forall h, h ∈ listed ->
       exists tx rc,
         MockProvider.getTransaction h p = Some tx /\
         Tx.hash tx = h /\ Tx.status tx = 1 /\
         Tx.blockNumber tx <= MockProvider.blockNumber p /\
         MockProvider.getTransactionReceipt h p = Some rc /\
         Tx.hash (MockProvider.receipt_tx rc) = h /\
         Tx.status (MockProvider.receipt_tx rc) = 1) /\
    (forall h, h ∉ listed ->
       MockProvider.getTransaction h p = None /\
       MockProvider.getTransactionReceipt h p = None).
Proof.
  intros c nm ticks n now p listed.
  pose proof (produce_store_ok ticks (MockProvider.new c nm) (new_store_ok c nm))
    as [Hnd Hall].
  fold p in Hnd, Hall. subst listed. cbn [MockProvider.getBlock Block.transactions].
  split; [exact Hnd|]. split.
  - intros h Hin. destruct (get_listed h _ Hin) as (tx & Hget & Hmem).
    rewrite Forall_forall in Hall. apply list_elem_of_In, Hall in Hmem.
    destruct Hmem as (Hh & _ & _ & _ & _ & _ & Hst & Hbn). cbn [fst snd] in Hh, Hst, Hbn.
    unfold MockProvider.getTransactionReceipt, MockProvider.getTransaction.
    rewrite Hget. eexists _, _. repeat split; try eassumption; reflexivity.
  - intros h Hout. unfold MockProvider.getTransactionReceipt, MockProvider.getTransaction.
    now rewrite (get_unlisted h _ Hout).
Qed.

(** X8.  After any run of the block timer from a fresh simulator, the
    number of stored transactions is the number of distinct millisecond
    clock readings among all the syntheses of the run: every synthesis that
    reads a millisecond already used replaces a transaction instead of
    adding one. *)
Theorem store_size_counts_distinct_clock_readings :
  forall (c : Z) (nm : string) (ticks : list (list Z)),
    JsMap.size (MockProvider.transactions
                  (fst (MockProvider.produce ticks (MockProvider.new c nm))))
    = length (remove_dups (concat ticks)).
Proof.
  intros c nm ticks.
  pose proof (produce_store_ok ticks (MockProvider.new c nm) (new_store_ok c nm))
    as [Hnd _].
  set (p := fst (MockProvider.produce ticks (MockProvider.new c nm))) in *.
  unfold JsMap.size. rewrite <- (length_map fst).
  fold (JsMap.keys (MockProvider.transactions p)).
  rewrite <- (length_map MockProvider.hash_of_time (remove_dups (concat ticks))).
  apply Permutation_length, NoDup_Permutation.
  - exact Hnd.
  - apply NoDup_hashes, NoDup_remove_dups.
  - intros x. subst p. rewrite produce_keys, !list_elem_of_In, !in_map_iff.
    assert (Hsame : forall t, In t (remove_dups (concat ticks)) <-> In t (concat ticks)).
    { intros t. rewrite <- !list_elem_of_In. apply elem_of_remove_dups. }
    split.
    + intros [[]|(t & Heq & Ht)]. exists t. split; [exact Heq | now apply Hsame].
    + intros (t & Heq & Ht). right. exists t. split; [exact Heq | now apply Hsame].
Qed.

(* ===================================================================== *)
(** * Further properties: relaying, block handling and shutdown *)
(* ===================================================================== *)

Section RelayBoundsFacts.
Import RelayManager.



Lemma relay_confirms env h m w f :
  confirms (env (calls w)) f ->
  relayTransaction env h m w
  = Some (with_metrics m (incr_successful (incr_transactions (metrics m))),
          submit h f (enter w)).
Proof.
  intros Hc. unfold relayTransaction, depth. cbn [relayTransaction_fuel].
  now rewrite (try_block_confirms _ f h _ _ Hc).
Qed.

Lemma relay_absent env h m w :
  onGetTransaction (env (calls w)) = GetTransactionResolves None ->
  relayTransaction env h m w
  = Some (with_metrics m (incr_transactions (metrics m)), enter w).
Proof.
  intros Ha. unfold relayTransaction, depth. cbn [relayTransaction_fuel].
  unfold try_block. now rewrite Ha.
Qed.

End RelayBoundsFacts.


Section BlockHandlingFacts.
Import RelayManager.

Lemma relay_each_spec envFor (present : string -> bool) : forall hashes m w,
  (forall h, In h hashes ->
     if present h then forall k, exists f, confirms (envFor h k) f
     else forall k, onGetTransaction (envFor h k) = GetTransactionResolves None) ->
  exists m' w',
    relay_each envFor hashes m w = Some (m', w') /\
    map fst (submissions w')
    = (map fst (submissions w) ++ List.filter present hashes)%list /\
    successful (metrics m')
    = successful (metrics m) + Z.of_nat (length (List.filter present hashes)) /\
    transactions (metrics m') = transactions (metrics m) + Z.of_nat (length hashes) /\
    failed (metrics m') = failed (metrics m) /\
    retries (metrics m') = retries (metrics m) /\
    sleeps w' = sleeps w /\
    calls w' = (calls w + length hashes)%nat.
Proof.
  induction hashes as [|h rest IH]; intros m w Hans.
  - exists m, w. cbn. rewrite app_nil_r. repeat split; lia.
  - cbn [relay_each List.filter].
    pose proof (Hans h (in_eq h rest)) as Hh.
    assert (Hrest : forall x, In x rest ->
              if present x then forall k, exists f, confirms (envFor x k) f
              else forall k, onGetTransaction (envFor x k) = GetTransactionResolves None)
      by (intros x Hx; apply Hans; now right).
    destruct (present h).
    + destruct (Hh (calls w)) as [f Hc]. rewrite (relay_confirms _ h m w f Hc).
      destruct (IH (with_metrics m (incr_successful (incr_transactions (metrics m))))
                  (submit h f (enter w)) Hrest)
        as (m' & w' & Erun & Hsub & Hsu & Htr & Hfa & Hre & Hsl & Hca).
      exists m', w'. split; [exact Erun|].
      cbn [metrics with_metrics incr_successful incr_transactions successful transactions
           failed retries submit enter submissions sleeps calls] in Hsub, Hsu, Htr, Hfa, Hre,
           Hsl, Hca.
      rewrite map_app in Hsub. cbn [map fst] in Hsub. rewrite <- app_assoc in Hsub.
      cbn [length]. repeat split; try assumption; lia.
    + rewrite (relay_absent _ h m w (Hh (calls w))).
      destruct (IH (with_metrics m (incr_transactions (metrics m))) (enter w) Hrest)
        as (m' & w' & Erun & Hsub & Hsu & Htr & Hfa & Hre & Hsl & Hca).
      exists m', w'. split; [exact Erun|].
      cbn [metrics with_metrics incr_transactions successful transactions
           failed retries enter submissions sleeps calls] in Hsub, Hsu, Htr, Hfa, Hre,
           Hsl, Hca.
      cbn [length]. repeat split; try assumption; lia.
Qed.

Lemma format_synthesized height kv :
  MockProvider.synthesized_entry height kv ->
  format (snd kv)
  = Some {| f_to := "0x2222222222222222222222222222222222222222";
            f_value := 1000000000000000000; f_data := "0x";
            f_gasLimit := 21000; f_gasPrice := 1000000000 |}.
Proof.
  intros (_ & Hto & Hval & Hgl & Hgp & Hdata & _ & _).
  unfold format. rewrite Hto, Hval, Hgl, Hgp, Hdata. reflexivity.
Qed.

Lemma on_tick_fields nows w :
  MockWebSocketProvider.connected (fst (MockWebSocketProvider.on_tick nows w))
  = MockWebSocketProvider.connected w /\
  MockWebSocketProvider.mockProvider (fst (MockWebSocketProvider.on_tick nows w))
  = fst (MockProvider.tick nows (MockWebSocketProvider.mockProvider w)).
Proof.
  unfold MockWebSocketProvider.on_tick.
  destruct (MockProvider.tick nows (MockWebSocketProvider.mockProvider w)) as [q ev].
  split; reflexivity.
Qed.

End BlockHandlingFacts.

(** X10.  [handleNewBlock] relays the hashes of the block one after the
    other in the block's order.  When each hash either cannot be fetched
    from the source (the source returns null) or relays and confirms, the
    unfetchable ones are skipped without a submission and without a counted
    failure, and the others are submitted exactly once each, in block
    order: the counter of transactions grows by the number of hashes, the
    counter of successes by the number of fetchable ones, no retry and no
    sleep happens.  A block that the source returns as null is ignored, and
    a failure of [getBlock] is not caught by the handler. *)
Theorem handleNewBlock_relays_in_block_order :
  forall (envFor : string -> nat -> RelayManager.answers) (present : string -> bool)
         (b : Block.t) (m : RelayManager.t) (w : RelayManager.world),
    (forall h, In h (Block.transactions b) ->
       if present h then forall k, exists f, RelayManager.confirms (envFor h k) f
       else forall k, RelayManager.onGetTransaction (envFor h k)
                      = RelayManager.GetTransactionResolves None) ->
    (exists m' w',
        RelayManager.handleNewBlock (RelayManager.GetBlockResolves (Some b)) envFor m w
        = Some (RelayManager.Handled m' w') /\
        map fst (RelayManager.submissions w')
        = (map fst (RelayManager.submissions w)
             ++ List.filter present (Block.transactions b))%list /\
        RelayManager.successful (RelayManager.metrics m')
        = RelayManager.successful (RelayManager.metrics m)
          + Z.of_nat (length (List.filter present (Block.transactions b))) /\
        RelayManager.transactions (RelayManager.metrics m')
        = RelayManager.transactions (RelayManager.metrics m)
          + Z.of_nat (length (Block.transactions b)) /\
        RelayManager.failed (RelayManager.metrics m')
        = RelayManager.failed (RelayManager.metrics m) /\
        RelayManager.retries (RelayManager.metrics m')
        = RelayManager.retries (RelayManager.metrics m) /\
        RelayManager.sleeps w' = RelayManager.sleeps w) /\
    RelayManager.handleNewBlock (RelayManager.GetBlockResolves None) envFor m w
    = Some (RelayManager.Handled m w) /\
    RelayManager.handleNewBlock RelayManager.GetBlockRejects envFor m w
    = Some RelayManager.GetBlockFailed.
Proof.
  intros envFor present b m w Hans. split; [|split; reflexivity].
  destruct (relay_each_spec envFor present (Block.transactions b) m w Hans)
    as (m' & w' & Erun & Hsub & Hsu & Htr & Hfa & Hre & Hsl & _).
  exists m', w'. cbn [RelayManager.handleNewBlock]. rewrite Erun.
  repeat split; assumption.
Qed.

Lemma handleNewBlock_relays_in_block_order_witness :
  exists m' w',
    RelayManager.handleNewBlock (RelayManager.GetBlockResolves (Some Scenario.threeHashes))
      Scenario.patchy Scenario.manager RelayManager.world0
    = Some (RelayManager.Handled m' w') /\
    map fst (RelayManager.submissions w') = ["0xa"; "0xc"] /\
    RelayManager.successful (RelayManager.metrics m') = 2 /\
    RelayManager.transactions (RelayManager.metrics m') = 3 /\
    RelayManager.failed (RelayManager.metrics m') = 0.
Proof.
  destruct (handleNewBlock_relays_in_block_order Scenario.patchy Scenario.fetchable
              Scenario.threeHashes Scenario.manager RelayManager.world0)
    as [(m' & w' & E & Hsub & Hsu & Htr & Hfa & _) _].
  { intros h Hin. unfold Scenario.patchy. destruct (Scenario.fetchable h).
    - intros k. eexists. exists Scenario.sourceTx, "0xtarget".
      split; [reflexivity|]. split; [vm_compute; reflexivity | reflexivity].
    - intros k. reflexivity. }
  exists m', w'. repeat split; assumption.
Defined.

(** X11.  With the mock provider as source, every new block makes the
    relay submit the whole store again.  On a connected source holding
    synthesized transactions and a target that confirms, [handleNewBlock]
    (for whatever block number) submits every stored transaction once, in
    insertion order, and counts a success for each.  A firing of the block
    timer keeps this situation and only appends to the store, so the
    submissions made for one block are made again, as a prefix, for the
    next one.  On a disconnected source the handler ends with the
    uncaught 'Provider not connected'. *)
Theorem handleNewBlock_on_the_mock_resubmits_the_store :
  forall (src : MockWebSocketProvider.t) (target : nat -> RelayManager.send_answer)
         (n now : Z) (m : RelayManager.t) (w : RelayManager.world),
    MockProvider.store_ok (MockWebSocketProvider.mockProvider src) ->
    (forall k, exists th,
        target k = RelayManager.SendResolves th (RelayManager.WaitResolves 1)) ->
    (MockWebSocketProvider.connected src = true ->
     exists m' w',
       RelayManager.handleNewBlock_mock src target n now m w
       = Some (RelayManager.Handled m' w') /\
       map fst (RelayManager.submissions w')
       = (map fst (RelayManager.submissions w)
            ++ JsMap.keys (MockProvider.transactions
                             (MockWebSocketProvider.mockProvider src)))%list /\
       RelayManager.successful (RelayManager.metrics m')
       = RelayManager.successful (RelayManager.metrics m)
         + Z.of_nat (JsMap.size (MockProvider.transactions
                                   (MockWebSocketProvider.mockProvider src))) /\
       RelayManager.failed (RelayManager.metrics m')
       = RelayManager.failed (RelayManager.metrics m)) /\
    (MockWebSocketProvider.connected src = false ->
     RelayManager.handleNewBlock_mock src target n now m w
     = Some RelayManager.GetBlockFailed) /\
    (forall nows,
        let src2 := fst (MockWebSocketProvider.on_tick nows src) in
        MockWebSocketProvider.connected src2 = MockWebSocketProvider.connected src /\
        MockProvider.store_ok (MockWebSocketProvider.mockProvider src2) /\
        JsMap.keys (MockProvider.transactions (MockWebSocketProvider.mockProvider src))
          `prefix_of`
        JsMap.keys (MockProvider.transactions (MockWebSocketProvider.mockProvider src2))).
Proof.
  intros src target n now m w [Hnd Hall] Htarget. split; [|split].
  - intros Hconn.
    unfold RelayManager.handleNewBlock_mock, MockWebSocketProvider.getBlock,
      MockWebSocketProvider.ensureConnected.
    rewrite Hconn. cbn [RelayManager.block_of RelayManager.handleNewBlock
                        MockProvider.getBlock Block.transactions].
    set (store := MockProvider.transactions (MockWebSocketProvider.mockProvider src)) in *.
    destruct (relay_each_spec (RelayManager.mock_answers src target) (fun _ => true)
                (JsMap.keys store) m w)
      as (m' & w' & Erun & Hsub & Hsu & _ & Hfa & _).
    { intros h Hin k. apply list_elem_of_In in Hin.
      destruct (get_listed h store Hin) as (tx & Hget & Hmem).
      rewrite Forall_forall in Hall. apply list_elem_of_In, Hall in Hmem.
      apply format_synthesized in Hmem. cbn [snd] in Hmem.
      destruct (Htarget k) as [th Hth].
      eexists. exists tx, th. split; [|split; [exact Hmem|]].
      - unfold RelayManager.mock_answers. cbn [RelayManager.onGetTransaction].
        unfold MockWebSocketProvider.getTransaction, MockWebSocketProvider.ensureConnected,
          MockProvider.getTransaction.
        rewrite Hconn. fold store. now rewrite Hget.
      - unfold RelayManager.mock_answers. cbn [RelayManager.onSendTransaction]. exact Hth. }
    assert (Hall_true : List.filter (fun _ : string => true) (JsMap.keys store)
                        = JsMap.keys store).
    { clear. induction (JsMap.keys store) as [|x l IH]; cbn; [reflexivity | now rewrite IH]. }
    rewrite Hall_true in Hsub, Hsu.
    exists m', w'. rewrite Erun. split; [reflexivity|]. split; [exact Hsub|].
    split; [|exact Hfa].
    rewrite Hsu. unfold JsMap.size, JsMap.keys. now rewrite length_map.
  - intros Hconn.
    unfold RelayManager.handleNewBlock_mock, MockWebSocketProvider.getBlock,
      MockWebSocketProvider.ensureConnected.
    now rewrite Hconn.
  - intros nows src2. subst src2.
    destruct (on_tick_fields nows src) as [Hc Hp]. rewrite Hc, Hp.
    split; [reflexivity|]. split.
    + apply tick_store_ok. now split.
    + apply tick_keys_prefix.
Qed.

Lemma handleNewBlock_on_the_mock_resubmits_the_store_witness :
  exists m' w',
    RelayManager.handleNewBlock_mock Scenario.sourceAfterTwoBlocks Scenario.confirmingTarget
      2 1700000010001 Scenario.manager RelayManager.world0
    = Some (RelayManager.Handled m' w') /\
    map fst (RelayManager.submissions w')
    = (map fst (RelayManager.submissions RelayManager.world0)
         ++ JsMap.keys (MockProvider.transactions
                          (MockWebSocketProvider.mockProvider
                             Scenario.sourceAfterTwoBlocks)))%list /\
    RelayManager.successful (RelayManager.metrics m') = 3.
Proof.
  destruct (handleNewBlock_on_the_mock_resubmits_the_store
              Scenario.sourceAfterTwoBlocks Scenario.confirmingTarget
              2 1700000010001 Scenario.manager RelayManager.world0)
    as (H & _ & _).
  - assert (Hrun : MockWebSocketProvider.mockProvider Scenario.sourceAfterTwoBlocks
                   = fst (MockProvider.produce
                            [[1700000005000; 1700000005001]; [1700000010000]]
                            (MockProvider.startBlockProduction
                               (MockProvider.new 138 "defi-oracle-meta"))))
      by (vm_compute; reflexivity).
    rewrite Hrun. apply produce_store_ok. split; [apply NoDup_nil_2 | constructor].
  - intros k. eexists. reflexivity.
  - destruct H as (m' & w' & E & Hsub & Hsu & _); [reflexivity|].
    exists m', w'. split; [exact E|]. split; [exact Hsub|]. rewrite Hsu. reflexivity.
Defined.

(** X12.  [stop()] does not leave the mock source stopped.  Its
    [disconnect()] resets the attempt counter and emits 'disconnect', whose
    listener is [handleDisconnect]: the disconnection counter goes up by one
    and [connect()] is called and, with a positive ceiling, let through.
    When this has settled the source is connected again with its block
    timer running, one more block forwarder installed, and the manager's
    source flag is up.  A manager without a provider does nothing. *)
Theorem stop_leaves_the_mock_source_reconnected :
  forall (m : RelayManager.t) (src : MockWebSocketProvider.t),
    (RelayManager.provider m = true ->
     0 < MockWebSocketProvider.maxRetries src ->
     exists m' src',
       RelayManager.stop_mock m src = (m', src', MockWebSocketProvider.Ok tt) /\
       MockWebSocketProvider.connected src' = true /\
       MockProvider.interval (MockWebSocketProvider.mockProvider src') = true /\
       MockWebSocketProvider.connectionAttempts src' = 1 /\
       MockWebSocketProvider.blockForwarders src'
       = S (MockWebSocketProvider.blockForwarders src) /\
       RelayManager.disconnections (RelayManager.metrics m')
       = RelayManager.disconnections (RelayManager.metrics m) + 1 /\
       RelayManager.connectionState_source m' = true) /\
    (RelayManager.provider m = false ->
     RelayManager.stop_mock m src = (m, src, MockWebSocketProvider.Ok tt)).
Proof.
  intros m src. split.
  - intros Hp Hmax. unfold RelayManager.stop_mock. rewrite Hp.
    destruct (MockWebSocketProvider.disconnect src) as [src1 evs] eqn:Ed.
    pose proof (disconnect_fields src) as (_ & Ha & Hm & Hf & _).
    rewrite Ed in Ha, Hm, Hf. cbn [fst] in Ha, Hm, Hf.
    destruct (connect_result_cases src1)
      as (src2 & E & Hc2 & Ha2 & _ & _ & _ & Hf2 & _ & _ & Hi2); [lia|].
    unfold RelayManager.handleDisconnect_mock. cbn [RelayManager.handleDisconnect].
    rewrite E. eexists _, src2. split; [reflexivity|].
    cbn. repeat split; try assumption; try congruence; lia.
  - intros Hp. unfold RelayManager.stop_mock. now rewrite Hp.
Qed.

Lemma stop_leaves_the_mock_source_reconnected_witness :
  exists m' src',
    RelayManager.stop_mock Scenario.manager Scenario.connectedSource
    = (m', src', MockWebSocketProvider.Ok tt) /\
    MockWebSocketProvider.connected src' = true /\
    MockProvider.interval (MockWebSocketProvider.mockProvider src') = true.
Proof.
  destruct (stop_leaves_the_mock_source_reconnected Scenario.manager Scenario.connectedSource)
    as [H _].
  destruct H as (m' & src' & E & Hc & Hi & _); [reflexivity | vm_compute; reflexivity |].
  exists m', src'. repeat split; assumption.
Defined.

(* ===================================================================== *)
(** * Further properties: the monitor's backoff *)
(* ===================================================================== *)

Section BackoffFacts.
Import TransactionMonitor.

Lemma run_cons e rest m :
  run (e :: rest) m =
  (fst (run rest (fst (on_event e m))),
   (snd (on_event e m) ++ snd (run rest (fst (on_event e m))))%list).
Proof.
  cbn [run]. destruct (on_event e m) as [m1 acts]. cbn [fst snd].
  destruct (run rest m1) as [m2 more]. reflexivity.
Qed.

Lemma on_event_consistent e m :
  backoff_consistent m ->
  backoff_consistent (fst (on_event e m)) /\
  forall d, In (ScheduleReconnect d) (snd (on_event e m)) ->
            exists i, 1 <= i <= 5 /\ d = 1000 * 2 ^ i.
Proof.
  intros (Hmax & Hatt & Hdel). destruct e; cbn [on_event].
  - cbn [fst snd on_open]. split; [|intros d []].
    unfold backoff_consistent. cbn. repeat split; try assumption; lia.
  - unfold handleReconnection.
    destruct (Z.leb_spec (maxReconnectAttempts m) (reconnectAttempts m)) as [Hfull|Hroom];
      cbn [fst snd].
    + split.
      * unfold backoff_consistent, stop. destruct (isRunning m); cbn; repeat split;
          try assumption; lia.
      * intros d [H|[]]. discriminate H.
    + cbn [reconnectDelay]. split.
      * unfold backoff_consistent.
        cbn [maxReconnectAttempts reconnectAttempts reconnectDelay].
        split; [exact Hmax|]. split; [lia|].
        rewrite Hdel, Z.pow_add_r by lia. change (2 ^ 1) with 2. lia.
      * intros d [H|[]]. injection H as <-.
        exists (reconnectAttempts m + 1). split; [lia|].
        rewrite Hdel, Z.pow_add_r by lia. change (2 ^ 1) with 2. lia.
Qed.

Lemma run_consistent events : forall m,
  backoff_consistent m ->
  backoff_consistent (fst (run events m)) /\
  forall d, In (ScheduleReconnect d) (snd (run events m)) ->
            exists i, 1 <= i <= 5 /\ d = 1000 * 2 ^ i.
Proof.
  induction events as [|e rest IH]; intros m Hm.
  - split; [exact Hm | intros d []].
  - rewrite run_cons. cbn [fst snd].
    destruct (on_event_consistent e m Hm) as [Hm1 Hacts].
    destruct (IH _ Hm1) as [Hm2 Hmore].
    split; [exact Hm2|]. intros d Hin. apply in_app_iff in Hin as [Hin|Hin]; auto.
Qed.

Lemma closes_at_ceiling k : forall m,
  maxReconnectAttempts m <= reconnectAttempts m ->
  snd (closes k m) = repeat Stop k /\
  reconnectAttempts (fst (closes k m)) = reconnectAttempts m /\
  maxReconnectAttempts (fst (closes k m)) = maxReconnectAttempts m /\
  reconnectDelay (fst (closes k m)) = reconnectDelay m /\
  ((0 < k)%nat -> isRunning (fst (closes k m)) = false).
Proof.
  induction k as [|k IH]; intros m Hfull.
  - cbn. repeat split. lia.
  - rewrite closes_S, handleReconnection_at_ceiling by exact Hfull. cbn [fst snd].
    assert (Hstop : reconnectAttempts (stop m) = reconnectAttempts m /\
                    maxReconnectAttempts (stop m) = maxReconnectAttempts m /\
                    reconnectDelay (stop m) = reconnectDelay m /\
                    isRunning (stop m) = false).
    { unfold stop. destruct (isRunning m) eqn:E; repeat split; assumption. }
    destruct Hstop as (Ha & Hm & Hd & Hr).
    destruct (IH (stop m)) as (Hacts & Ha' & Hm' & Hd' & Hr'); [lia|].
    rewrite Hacts, Ha', Hm', Hd'. cbn [repeat]. repeat split; try assumption.
    intros _. destruct k as [|k]; [exact Hr | apply Hr'; lia].
Qed.

End BackoffFacts.

(** X13.  Over any history of socket 'open' and 'close' events starting
    from a consistent monitor (such as a new one), the backoff fields stay
    consistent: the attempt counter stays within 0..5 and the delay stays
    the 1s base doubled once per counted attempt.  Every reconnect the
    monitor schedules therefore waits 1000 * 2^i ms for some i in 1..5: at
    least 2s and never more than 32s. *)
Theorem monitor_backoff_stays_bounded :
  forall (events : list TransactionMonitor.socket_event) (m : TransactionMonitor.t),
    TransactionMonitor.backoff_consistent m ->
    TransactionMonitor.backoff_consistent (fst (TransactionMonitor.run events m)) /\
    forall d,
      In (TransactionMonitor.ScheduleReconnect d) (snd (TransactionMonitor.run events m)) ->
      (exists i, 1 <= i <= 5 /\ d = 1000 * 2 ^ i) /\ 2000 <= d <= 32000.
Proof.
  intros events m Hm. destruct (run_consistent events m Hm) as [Hend Hacts].
  split; [exact Hend|]. intros d Hin. destruct (Hacts d Hin) as (i & Hi & ->).
  split; [exists i; split; [exact Hi | reflexivity]|].
  assert (Hpow : 2 <= 2 ^ i <= 32).
  { replace i with (1 + (i - 1)) by lia. rewrite Z.pow_add_r by lia.
    change (2 ^ 1) with 2.
    assert (1 <= 2 ^ (i - 1) <= 16).
    { assert (Hle : 2 ^ (i - 1) <= 2 ^ 4) by (apply Z.pow_le_mono_r; lia).
      assert (Hpos : 0 < 2 ^ (i - 1)) by (apply Z.pow_pos_nonneg; lia).
      change (2 ^ 4) with 16 in Hle. lia. }
    lia. }
  lia.
Qed.

Lemma monitor_backoff_stays_bounded_witness :
  let events := [TransactionMonitor.SocketClose; TransactionMonitor.SocketClose;
                 TransactionMonitor.SocketOpen; TransactionMonitor.SocketClose] in
  snd (TransactionMonitor.run events TransactionMonitor.new)
  = [TransactionMonitor.ScheduleReconnect 2000; TransactionMonitor.ScheduleReconnect 4000;
     TransactionMonitor.ScheduleReconnect 2000] /\
  TransactionMonitor.backoff_consistent
    (fst (TransactionMonitor.run events TransactionMonitor.new)).
Proof.
  intros events. split; [reflexivity|].
  apply (monitor_backoff_stays_bounded events TransactionMonitor.new).
  unfold TransactionMonitor.backoff_consistent. cbn. lia.
Defined.

(** X14.  Once the attempt counter has reached the ceiling, every further
    socket close only calls [stop()]: nothing is scheduled, the counter and
    the delay stay as they are and the monitor is left not running.  Only a
    socket 'open' re-arms the backoff: after it the next close schedules a
    reconnect 2s later. *)
Theorem monitor_at_ceiling_only_stops :
  forall (k : nat) (m : TransactionMonitor.t),
    TransactionMonitor.maxReconnectAttempts m <= TransactionMonitor.reconnectAttempts m ->
    snd (TransactionMonitor.closes k m) = repeat TransactionMonitor.Stop k /\
    TransactionMonitor.reconnectAttempts (fst (TransactionMonitor.closes k m))
    = TransactionMonitor.reconnectAttempts m /\
    TransactionMonitor.reconnectDelay (fst (TransactionMonitor.closes k m))
    = TransactionMonitor.reconnectDelay m /\
    ((0 < k)%nat ->
     TransactionMonitor.isRunning (fst (TransactionMonitor.closes k m)) = false) /\
    (0 < TransactionMonitor.maxReconnectAttempts m ->
     snd (TransactionMonitor.handleReconnection
            (TransactionMonitor.on_open (fst (TransactionMonitor.closes k m))))
     = TransactionMonitor.ScheduleReconnect 2000).
Proof.
  intros k m Hfull.
  destruct (closes_at_ceiling k m Hfull) as (Hacts & Ha & Hm & Hd & Hr).
  repeat split; try assumption.
  intros Hpos. unfold TransactionMonitor.handleReconnection.
  cbn [TransactionMonitor.on_open TransactionMonitor.maxReconnectAttempts
       TransactionMonitor.reconnectAttempts].
  rewrite Hm.
  destruct (Z.leb_spec (TransactionMonitor.maxReconnectAttempts m) 0); [lia | reflexivity].
Qed.

Lemma monitor_at_ceiling_only_stops_witness :
  let m := fst (TransactionMonitor.closes 5
                  (TransactionMonitor.start TransactionMonitor.new)) in
  snd (TransactionMonitor.closes 3 m)
  = [TransactionMonitor.Stop; TransactionMonitor.Stop; TransactionMonitor.Stop] /\
  TransactionMonitor.isRunning (fst (TransactionMonitor.closes 3 m)) = false.
Proof.
  intros m.
  destruct (monitor_at_ceiling_only_stops 3 m) as (Hacts & _ & _ & Hr & _).
  { vm_compute. discriminate. }
  split; [exact Hacts | apply Hr; lia].
Defined.

(* ===================================================================== *)
(** * Further properties: [MainnetRelay] *)
(* ===================================================================== *)

Section MainnetFacts.
Import MainnetRelay.

Lemma In_set_same {V : Type} (k : string) (v : V) (m : JsMap.t V) :
  In (k, v) (JsMap.set k v m).
Proof.
  induction m as [|[k' v'] m IH]; cbn [JsMap.set]; [now left|].
  destruct (String.eqb k k'); [now left | now right].
Qed.


(** The price fields of whatever the [try] block submits. *)
Lemma mainnet_try_block_pricing maxGasPrice a x s req :
  In req (snd (fst (try_block maxGasPrice a x s))) ->
  r_to req = to x /\
  onGetTransactionCount a = Resolves (r_nonce req) /\
  (falsy (maxFeePerGas x) || falsy (maxPriorityFeePerGas x) = true ->
   exists gasPrice,
     onGetGasPrice a = Resolves gasPrice /\ gasPrice <= maxGasPrice /\
     r_gasPrice req = Some gasPrice /\ r_type req = None /\
     r_maxFeePerGas req = None /\ r_maxPriorityFeePerGas req = None) /\
  (falsy (maxFeePerGas x) || falsy (maxPriorityFeePerGas x) = false ->
   r_gasPrice req = None /\ r_type req = Some 2 /\
   r_maxFeePerGas req = maxFeePerGas x /\
   r_maxPriorityFeePerGas req = maxPriorityFeePerGas x).
Proof.
  unfold try_block.
  destruct (onGetTransactionCount a) as [msg|nonce]; [intros []|].
  destruct (falsy (maxFeePerGas x) || falsy (maxPriorityFeePerGas x)).
  - destruct (onGetGasPrice a) as [msg|gasPrice]; [intros []|].
    destruct (Z.ltb_spec maxGasPrice gasPrice) as [Hgt|Hle]; [intros []|].
    assert (Hreq : forall r0 : Request,
               r0 = {| r_to := to x; r_value := default 0 (value x);
                       r_data := Js.or_string (default EmptyString (data x)) "0x";
                       r_gasLimit := match gasLimit x with
                                     | Some g => if (g =? 0)%Z then onEstimateGas a else g
                                     | None => onEstimateGas a
                                     end;
                       r_nonce := nonce; r_type := None; r_maxFeePerGas := None;
                       r_maxPriorityFeePerGas := None; r_gasPrice := Some gasPrice |} ->
               r_to r0 = to x /\ Resolves nonce = Resolves (r_nonce r0) /\
               (true = true ->
                exists gp, Resolves gasPrice = Resolves gp /\ gp <= maxGasPrice /\
                           r_gasPrice r0 = Some gp /\ r_type r0 = None /\
                           r_maxFeePerGas r0 = None /\ r_maxPriorityFeePerGas r0 = None) /\
               (true = false ->
                r_gasPrice r0 = None /\ r_type r0 = Some 2 /\
                r_maxFeePerGas r0 = maxFeePerGas x /\
                r_maxPriorityFeePerGas r0 = maxPriorityFeePerGas x)).
    { intros r0 ->. cbn. repeat split; try discriminate.
      intros _. exists gasPrice. repeat split. exact Hle. }
    destruct (onSendTransaction a) as [msg|h];
      [intros [<-|[]]; now apply Hreq|].
    destruct (onGetNetwork a) as [msg|u];
      [intros [<-|[]]; now apply Hreq|].
    destruct (onWait a) as [msg|rc];
      [intros [<-|[]]; now apply Hreq|].
    destruct (status rc =? 0)%Z; intros [<-|[]]; now apply Hreq.
  - assert (Hreq : forall r0 : Request,
               r0 = {| r_to := to x; r_value := default 0 (value x);
                       r_data := Js.or_string (default EmptyString (data x)) "0x";
                       r_gasLimit := match gasLimit x with
                                     | Some g => if (g =? 0)%Z then onEstimateGas a else g
                                     | None => onEstimateGas a
                                     end;
                       r_nonce := nonce; r_type := Some 2;
                       r_maxFeePerGas := maxFeePerGas x;
                       r_maxPriorityFeePerGas := maxPriorityFeePerGas x;
                       r_gasPrice := None |} ->
               r_to r0 = to x /\ Resolves nonce = Resolves (r_nonce r0) /\
               (false = true ->
                exists gp, onGetGasPrice a = Resolves gp /\ gp <= maxGasPrice /\
                           r_gasPrice r0 = Some gp /\ r_type r0 = None /\
                           r_maxFeePerGas r0 = None /\ r_maxPriorityFeePerGas r0 = None) /\
               (false = false ->
                r_gasPrice r0 = None /\ r_type r0 = Some 2 /\
                r_maxFeePerGas r0 = maxFeePerGas x /\
                r_maxPriorityFeePerGas r0 = maxPriorityFeePerGas x)).
    { intros r0 ->. cbn. repeat split; discriminate. }
    destruct (onSendTransaction a) as [msg|h];
      [intros [<-|[]]; now apply Hreq|].
    destruct (onGetNetwork a) as [msg|u];
      [intros [<-|[]]; now apply Hreq|].
    destruct (onWait a) as [msg|rc];
      [intros [<-|[]]; now apply Hreq|].
    destruct (status rc =? 0)%Z; intros [<-|[]]; now apply Hreq.
Qed.

(** Every request a call hands over is one the [try] block made. *)
Lemma mainnet_relay_submitted maxRetries maxGasPrice a x s req :
  In req (submitted (relayTransaction maxRetries maxGasPrice a x s)) ->
  In req (snd (fst (try_block maxGasPrice a x s))).
Proof.
  unfold relayTransaction.
  destruct (isInitialized s); cbn [negb]; [|intros []].
  destruct (0 <? maxRetries)%Z; [|intros []].
  destruct (try_block maxGasPrice a x s) as [[s' reqs] [[h info]|e]]; intros H; exact H.
Qed.


End MainnetFacts.


(** X16.  Whatever [MainnetRelay.relayTransaction] submits is priced in
    one of two ways, never a mixture.  When the transaction does not carry
    both EIP-1559 fee fields, the request carries the target's current gas
    price, which is then not above the configured maximum, and no type or
    fee field.  When it carries both, the request has type 2 and the
    caller's fee fields and no gas price.  In both cases the recipient is
    the transaction's and the nonce is the wallet's transaction count. *)
Theorem mainnet_requests_are_priced_within_the_ceiling :
  forall (maxRetries maxGasPrice : Z) (a : MainnetRelay.answers)
         (x : MainnetRelay.Transaction) (s : MainnetRelay.t) (req : MainnetRelay.Request),
    In req (MainnetRelay.submitted
              (MainnetRelay.relayTransaction maxRetries maxGasPrice a x s)) ->
    MainnetRelay.r_to req = MainnetRelay.to x /\
    MainnetRelay.onGetTransactionCount a = MainnetRelay.Resolves (MainnetRelay.r_nonce req) /\
    (MainnetRelay.falsy (MainnetRelay.maxFeePerGas x)
       || MainnetRelay.falsy (MainnetRelay.maxPriorityFeePerGas x) = true ->
     exists gasPrice,
       MainnetRelay.onGetGasPrice a = MainnetRelay.Resolves gasPrice /\
       gasPrice <= maxGasPrice /\
       MainnetRelay.r_gasPrice req = Some gasPrice /\
       MainnetRelay.r_type req = None /\
       MainnetRelay.r_maxFeePerGas req = None /\
       MainnetRelay.r_maxPriorityFeePerGas req = None) /\
    (MainnetRelay.falsy (MainnetRelay.maxFeePerGas x)
       || MainnetRelay.falsy (MainnetRelay.maxPriorityFeePerGas x) = false ->
     MainnetRelay.r_gasPrice req = None /\
     MainnetRelay.r_type req = Some 2 /\
     MainnetRelay.r_maxFeePerGas req = MainnetRelay.maxFeePerGas x /\
     MainnetRelay.r_maxPriorityFeePerGas req = MainnetRelay.maxPriorityFeePerGas x).
Proof.
  intros maxRetries maxGasPrice a x s req Hin.
  apply (mainnet_try_block_pricing maxGasPrice a x s req).
  exact (mainnet_relay_submitted maxRetries maxGasPrice a x s req Hin).
Qed.

Lemma mainnet_requests_are_priced_within_the_ceiling_witness :
  exists req gasPrice,
    MainnetRelay.submitted
      (MainnetRelay.relayTransaction 3 MainnetRelay.defaultMaxGasPrice
         (Scenario.targetAt (Scenario.gwei 50)) Scenario.legacyTransfer
         (MainnetRelay.initialize MainnetRelay.new)) = [req] /\
    MainnetRelay.r_gasPrice req = Some gasPrice /\
    gasPrice <= MainnetRelay.defaultMaxGasPrice.
Proof.
  eexists.
  destruct (mainnet_requests_are_priced_within_the_ceiling
              3 MainnetRelay.defaultMaxGasPrice (Scenario.targetAt (Scenario.gwei 50))
              Scenario.legacyTransfer (MainnetRelay.initialize MainnetRelay.new)
              {| MainnetRelay.r_to := "0x2222222222222222222222222222222222222222";
                 MainnetRelay.r_value := 1; MainnetRelay.r_data := "0x";
                 MainnetRelay.r_gasLimit := 21000; MainnetRelay.r_nonce := 7;
                 MainnetRelay.r_type := None; MainnetRelay.r_maxFeePerGas := None;
                 MainnetRelay.r_maxPriorityFeePerGas := None;
                 MainnetRelay.r_gasPrice := Some 50000000000 |})
    as (_ & _ & Hlegacy & _).
  { left. reflexivity. }
  destruct Hlegacy as (gp & _ & Hle & Hgp & _); [reflexivity|].
  exists gp. split; [reflexivity|]. split; [exact Hgp | exact Hle].
Defined.

(** X17.  A relay that the target confirms is recorded and counted as a
    success, and the call throws all the same.  On an initialized relay
    with a positive ceiling, when the nonce is obtained, the price passes
    (where it is checked), the submission resolves with hash [h], the
    network is detected and the receipt has a status other than 0: the
    record built from the receipt is stored, [getTransaction(h)] returns it
    and [getAllTransactions()] contains it, and one success is counted.
    [updateGasUsage] then throws on the string it is given, so the timer is
    not ended, the call ends with the [catch] block's ReferenceError and
    the attempt counter at 1, after exactly one submission, and no failure
    is counted. *)
Theorem mainnet_confirmed_relay_is_recorded_but_throws :
  forall (maxRetries maxGasPrice : Z) (a : MainnetRelay.answers)
         (x : MainnetRelay.Transaction) (s : MainnetRelay.t)
         (nonce : Z) (h : string) (rc : MainnetRelay.Receipt),
    MainnetRelay.isInitialized s = true ->
    0 < maxRetries ->
    MainnetRelay.onGetTransactionCount a = MainnetRelay.Resolves nonce ->
    (MainnetRelay.falsy (MainnetRelay.maxFeePerGas x)
       || MainnetRelay.falsy (MainnetRelay.maxPriorityFeePerGas x) = true ->
     exists gasPrice,
       MainnetRelay.onGetGasPrice a = MainnetRelay.Resolves gasPrice /\
       gasPrice <= maxGasPrice) ->
    MainnetRelay.onSendTransaction a = MainnetRelay.Resolves h ->
    MainnetRelay.onGetNetwork a = MainnetRelay.Resolves tt ->
    MainnetRelay.onWait a = MainnetRelay.Resolves rc ->
    MainnetRelay.status rc <> 0 ->
    let r := MainnetRelay.relayTransaction maxRetries maxGasPrice a x s in
    exists info,
      MainnetRelay.result r = MainnetRelay.Throws (MainnetRelay.ReferenceError "sentTx") /\
      MainnetRelay.attempts r = 1 /\
      length (MainnetRelay.submitted r) = 1%nat /\
      MainnetRelay.getTransaction h (MainnetRelay.relay r) = Some info /\
      In (h, info) (MainnetRelay.getAllTransactions (MainnetRelay.relay r)) /\
      MainnetRelay.i_status info = MainnetRelay.status rc /\
      MainnetRelay.i_blockNumber info = MainnetRelay.blockNumber rc /\
      MainnetRelay.i_gasUsed info = Js.toString (MainnetRelay.gasUsed rc) /\
      MainnetRelay.successesRecorded (MainnetRelay.relay r)
      = MainnetRelay.successesRecorded s + 1 /\
      MainnetRelay.failuresRecorded (MainnetRelay.relay r) = MainnetRelay.failuresRecorded s /\
      MainnetRelay.timersEnded (MainnetRelay.relay r) = MainnetRelay.timersEnded s.
Proof.
  intros maxRetries maxGasPrice a x s nonce h rc Hinit Hpos Hnonce Hprice Hsend Hnet
    Hwait Hst r. subst r.
  unfold MainnetRelay.relayTransaction. rewrite Hinit. cbn [negb].
  destruct (Z.ltb_spec 0 maxRetries) as [_|Hno]; [|lia].
  unfold MainnetRelay.try_block. rewrite Hnonce.
  destruct (MainnetRelay.falsy (MainnetRelay.maxFeePerGas x)
            || MainnetRelay.falsy (MainnetRelay.maxPriorityFeePerGas x)) eqn:Hlegacy.
  - destruct (Hprice eq_refl) as (gasPrice & Hgp & Hle). rewrite Hgp.
    destruct (Z.ltb_spec maxGasPrice gasPrice) as [Hgt|_]; [lia|].
    rewrite Hsend, Hnet, Hwait.
    destruct (Z.eqb_spec (MainnetRelay.status rc) 0) as [Hz|_]; [contradiction|].
    cbn [MainnetRelay.updateGasUsage MainnetRelay.result MainnetRelay.attempts
         MainnetRelay.submitted MainnetRelay.relay length].
    unfold MainnetRelay.getTransaction, MainnetRelay.getAllTransactions.
    cbn [MainnetRelay.transactions MainnetRelay.successesRecorded
         MainnetRelay.failuresRecorded MainnetRelay.timersEnded].
    eexists. split; [reflexivity|]. split; [reflexivity|]. split; [reflexivity|].
    split; [apply get_set_same|]. split; [apply In_set_same|].
    now repeat split.
  - rewrite Hsend, Hnet, Hwait.
    destruct (Z.eqb_spec (MainnetRelay.status rc) 0) as [Hz|_]; [contradiction|].
    cbn [MainnetRelay.updateGasUsage MainnetRelay.result MainnetRelay.attempts
         MainnetRelay.submitted MainnetRelay.relay length].
    unfold MainnetRelay.getTransaction, MainnetRelay.getAllTransactions.
    cbn [MainnetRelay.transactions MainnetRelay.successesRecorded
         MainnetRelay.failuresRecorded MainnetRelay.timersEnded].
    eexists. split; [reflexivity|]. split; [reflexivity|]. split; [reflexivity|].
    split; [apply get_set_same|]. split; [apply In_set_same|].
    now repeat split.
Qed.

Lemma mainnet_confirmed_relay_is_recorded_but_throws_witness :
  let r := MainnetRelay.relayTransaction 3 MainnetRelay.defaultMaxGasPrice
             (Scenario.targetAt (Scenario.gwei 50)) Scenario.legacyTransfer
             (MainnetRelay.initialize MainnetRelay.new) in
  exists info,
    MainnetRelay.result r = MainnetRelay.Throws (MainnetRelay.ReferenceError "sentTx") /\
    MainnetRelay.getTransaction "0xsent" (MainnetRelay.relay r) = Some info /\
    MainnetRelay.successesRecorded (MainnetRelay.relay r) = 1 /\
    MainnetRelay.timersEnded (MainnetRelay.relay r) = 0.
Proof.
  intros r.
  destruct (mainnet_confirmed_relay_is_recorded_but_throws
              3 MainnetRelay.defaultMaxGasPrice (Scenario.targetAt (Scenario.gwei 50))
              Scenario.legacyTransfer (MainnetRelay.initialize MainnetRelay.new)
              7 "0xsent"
              {| MainnetRelay.status := 1; MainnetRelay.blockNumber := 42;
                 MainnetRelay.gasUsed := 21000;
                 MainnetRelay.effectiveGasPrice := Scenario.gwei 50 |})
    as (info & Hres & _ & _ & Hget & _ & _ & _ & _ & Hsucc & _ & Htimer).
  - reflexivity.
  - lia.
  - reflexivity.
  - intros _. exists (Scenario.gwei 50). split; [reflexivity|]. vm_compute. discriminate.
  - reflexivity.
  - reflexivity.
  - reflexivity.
  - discriminate.
  - exists info. split; [exact Hres|]. split; [exact Hget|].
    split; [exact Hsucc | exact Htimer].
Defined.

(** X18.  [estimateGas] never throws.  When the provider's estimate fails
    it returns the fallback of 500000.  Otherwise, for an estimate that is
    not negative and a buffer of at least 100 hundredths, it returns the
    estimate scaled by the buffer and rounded down, which is never below
    the estimate itself. *)
Theorem estimateGas_buffer_never_lowers_the_estimate :
  forall (bufferBasisPoints estimate : Z) (message : string),
    0 <= estimate ->
    100 <= bufferBasisPoints ->
    let g := MainnetRelay.estimateGas bufferBasisPoints (MainnetRelay.Resolves estimate) in
    estimate <= g /\
    100 * g <= estimate * bufferBasisPoints < 100 * (g + 1) /\
    MainnetRelay.estimateGas bufferBasisPoints (MainnetRelay.Rejects message) = 500000.
Proof.
  intros bp estimate message He Hbp g. subst g. cbn [MainnetRelay.estimateGas].
  assert (Hnn : 0 <= estimate * bp) by nia.
  rewrite Z.quot_div_nonneg by lia.
  pose proof (Z.div_mod (estimate * bp) 100 ltac:(lia)) as Hdm.
  pose proof (Z.mod_pos_bound (estimate * bp) 100 ltac:(lia)) as Hmod.
  repeat split; try lia.
  apply Z.div_le_lower_bound; nia.
Qed.

Lemma estimateGas_buffer_never_lowers_the_estimate_witness :
  MainnetRelay.estimateGas 120 (MainnetRelay.Resolves 21001) = 25201 /\
  21001 <= MainnetRelay.estimateGas 120 (MainnetRelay.Resolves 21001).
Proof.
  split; [reflexivity|].
  apply (estimateGas_buffer_never_lowers_the_estimate 120 21001 EmptyString); lia.
Defined.

(* ===================================================================== *)
(** * Further properties: [MockRelay] *)
(* ===================================================================== *)

Section MockRelayFacts.
Import MockRelay.

Lemma add_relayed_gas g : add_gas (Some g) "50000" = Some (g + 50000).
Proof. reflexivity. Qed.

Lemma processTransaction_disconnected h now r :
  MockWebSocketProvider.connected (wsProvider r) = false ->
  processTransaction h now r
  = with_metrics r
      {| started := started (metrics r); successful := successful (metrics r);
         failed := failed (metrics r) + 1; gasUsed := gasUsed (metrics r);
         lastBlockNumber := lastBlockNumber (metrics r) |}.
Proof.
  intros Hc. unfold processTransaction, MockWebSocketProvider.getTransaction,
    MockWebSocketProvider.ensureConnected. now rewrite Hc.
Qed.

Lemma processTransaction_listed h now r :
  MockWebSocketProvider.connected (wsProvider r) = true ->
  h ∈ JsMap.keys (MockProvider.transactions (MockWebSocketProvider.mockProvider (wsProvider r))) ->
  processTransaction h now r
  = with_metrics r
      {| started := started (metrics r) + 1; successful := successful (metrics r) + 1;
         failed := failed (metrics r);
         gasUsed := add_gas (gasUsed (metrics r)) "50000";
         lastBlockNumber := lastBlockNumber (metrics r) |}.
Proof.
  intros Hc Hin. unfold processTransaction, MockWebSocketProvider.getTransaction,
    MockWebSocketProvider.ensureConnected, MockProvider.getTransaction. rewrite Hc.
  destruct (get_listed _ _ Hin) as (v & -> & _). reflexivity.
Qed.

Lemma processTransaction_unlisted h now r :
  MockWebSocketProvider.connected (wsProvider r) = true ->
  h ∉ JsMap.keys (MockProvider.transactions (MockWebSocketProvider.mockProvider (wsProvider r))) ->
  processTransaction h now r = r.
Proof.
  intros Hc Hin. unfold processTransaction, MockWebSocketProvider.getTransaction,
    MockWebSocketProvider.ensureConnected, MockProvider.getTransaction. rewrite Hc.
  now rewrite (get_unlisted _ _ Hin).
Qed.

Lemma processTransaction_provider h now r :
  wsProvider (processTransaction h now r) = wsProvider r /\
  isRunning (processTransaction h now r) = isRunning r /\
  lastBlockNumber (metrics (processTransaction h now r)) = lastBlockNumber (metrics r).
Proof.
  unfold processTransaction.
  destruct (MockWebSocketProvider.getTransaction h (wsProvider r)) as [[x|]|e];
    now repeat split.
Qed.

Lemma processTransaction_consistent h now r :
  metrics_consistent r -> metrics_consistent (processTransaction h now r).
Proof.
  intros (Hs & Hg & Hsucc & Hfail).
  destruct (MockWebSocketProvider.connected (wsProvider r)) eqn:Hc.
  - destruct (decide (h ∈ JsMap.keys (MockProvider.transactions
                (MockWebSocketProvider.mockProvider (wsProvider r))))) as [Hin|Hout].
    + rewrite (processTransaction_listed h now r Hc Hin).
      unfold metrics_consistent. cbn [with_metrics metrics started successful failed gasUsed].
      rewrite Hg, add_relayed_gas.
      split; [lia|]. split; [f_equal; lia|]. split; lia.
    + rewrite (processTransaction_unlisted h now r Hc Hout). now repeat split.
  - rewrite (processTransaction_disconnected h now r Hc).
    unfold metrics_consistent. cbn [with_metrics metrics started successful failed gasUsed].
    split; [exact Hs|]. split; [exact Hg|]. split; lia.
Qed.

Lemma processEach_consistent hashes clock : forall i r,
  metrics_consistent r -> metrics_consistent (processEach hashes clock i r).
Proof.
  induction hashes as [|h rest IH]; intros i r Hr; cbn [processEach]; [exact Hr|].
  apply IH, processTransaction_consistent, Hr.
Qed.

Lemma perform_consistent s r : metrics_consistent r -> metrics_consistent (perform s r).
Proof.
  intros Hr. destruct s as [| |n clock|g n|h now|nows]; cbn [perform].
  - unfold start. destruct (MockWebSocketProvider.connect (wsProvider r)) as [[w ev] res].
    exact Hr.
  - exact Hr.
  - unfold on_block, processBlock.
    match goal with |- context [MockWebSocketProvider.getBlock ?a ?b ?c] =>
      destruct (MockWebSocketProvider.getBlock a b c) as [block|e] end.
    + apply processEach_consistent. exact Hr.
    + exact Hr.
  - unfold generateAndProcessTransaction.
    destruct (MockWebSocketProvider.generateTestTransaction g (wsProvider r)) as [[w x]|e];
      [|exact Hr].
    apply processTransaction_consistent. exact Hr.
  - apply processTransaction_consistent, Hr.
  - exact Hr.
Qed.

(** The loop of [processBlock] over hashes that are all in the store of a
    connected provider. *)
Lemma processEach_listed hashes clock : forall i r g,
  MockWebSocketProvider.connected (wsProvider r) = true ->
  Forall (fun h => h ∈ JsMap.keys (MockProvider.transactions
                         (MockWebSocketProvider.mockProvider (wsProvider r)))) hashes ->
  gasUsed (metrics r) = Some g ->
  wsProvider (processEach hashes clock i r) = wsProvider r /\
  isRunning (processEach hashes clock i r) = isRunning r /\
  started (metrics (processEach hashes clock i r))
  = started (metrics r) + Z.of_nat (length hashes) /\
  successful (metrics (processEach hashes clock i r))
  = successful (metrics r) + Z.of_nat (length hashes) /\
  failed (metrics (processEach hashes clock i r)) = failed (metrics r) /\
  gasUsed (metrics (processEach hashes clock i r))
  = Some (g + 50000 * Z.of_nat (length hashes)) /\
  lastBlockNumber (metrics (processEach hashes clock i r)) = lastBlockNumber (metrics r).
Proof.
  induction hashes as [|h rest IH]; intros i r g Hc Hall Hg; cbn [processEach length].
  - repeat split; try lia. rewrite Hg. f_equal. lia.
  - inversion Hall as [|? ? Hh Hrest]; subst.
    rewrite (processTransaction_listed h (clock i) r Hc Hh).
    edestruct (IH (S i)
                 (with_metrics r
                    {| started := started (metrics r) + 1;
                       successful := successful (metrics r) + 1;
                       failed := failed (metrics r);
                       gasUsed := add_gas (gasUsed (metrics r)) "50000";
                       lastBlockNumber := lastBlockNumber (metrics r) |})
                 (g + 50000))
      as (Hw & Hrun & Hst & Hsu & Hf & Hgas & Hl).
    + exact Hc.
    + exact Hrest.
    + cbn [with_metrics metrics gasUsed]. rewrite Hg. apply add_relayed_gas.
    + rewrite Hw, Hrun, Hst, Hsu, Hf, Hgas, Hl.
      cbn [with_metrics metrics wsProvider isRunning started successful failed
           lastBlockNumber].
      repeat split; try lia. f_equal. lia.
Qed.

End MockRelayFacts.

(** X19.  The counters of the mock relay agree with each other whatever
    happens to it.  Starting from a new relay and performing any sequence of
    starts, stops, block announcements, periodic generations, single
    transaction processings and simulator ticks, each run to completion
    before the next, the number of relays started equals the number that
    succeeded, the gas total is a number (never NaN) and equals 50000 per
    success, and no counter is negative. *)
Theorem mock_relay_counters_stay_consistent :
  forall (steps : list MockRelay.step) (chain : Z) (nm : string),
    let r := MockRelay.perform_all steps (MockRelay.new chain nm) in
    MockRelay.started (MockRelay.metrics r) = MockRelay.successful (MockRelay.metrics r) /\
    MockRelay.gasUsed (MockRelay.metrics r)
    = Some (50000 * MockRelay.successful (MockRelay.metrics r)) /\
    0 <= MockRelay.successful (MockRelay.metrics r) /\
    0 <= MockRelay.failed (MockRelay.metrics r).
Proof.
  intros steps chain nm r. subst r. unfold MockRelay.perform_all.
  change (MockRelay.metrics_consistent
            (fold_left (fun acc s => MockRelay.perform s acc) steps (MockRelay.new chain nm))).
  assert (H0 : MockRelay.metrics_consistent (MockRelay.new chain nm)).
  { unfold MockRelay.metrics_consistent. cbn. repeat split; lia. }
  revert H0. generalize (MockRelay.new chain nm).
  induction steps as [|s steps IH]; intros r Hr; cbn [fold_left]; [exact Hr|].
  apply IH, perform_consistent, Hr.
Qed.

(** X20.  Every block announcement makes the mock relay process the whole
    store again.  While the provider is connected, the 'block' listener
    records the announced number and relays every transaction the simulator
    has ever stored, whatever block was announced: started and successful
    both grow by the size of the store, the gas total by 50000 times that
    size, and nothing is counted as failed. *)
Theorem mock_relay_block_reprocesses_the_store :
  forall (blockNumber : Z) (clock : nat -> Z) (r : MockRelay.t) (g : Z),
    MockWebSocketProvider.connected (MockRelay.wsProvider r) = true ->
    MockRelay.gasUsed (MockRelay.metrics r) = Some g ->
    let n := Z.of_nat (JsMap.size (MockProvider.transactions
                          (MockWebSocketProvider.mockProvider (MockRelay.wsProvider r)))) in
    let r' := MockRelay.on_block blockNumber clock r in
    MockRelay.wsProvider r' = MockRelay.wsProvider r /\
    MockRelay.started (MockRelay.metrics r') = MockRelay.started (MockRelay.metrics r) + n /\
    MockRelay.successful (MockRelay.metrics r')
    = MockRelay.successful (MockRelay.metrics r) + n /\
    MockRelay.failed (MockRelay.metrics r') = MockRelay.failed (MockRelay.metrics r) /\
    MockRelay.gasUsed (MockRelay.metrics r') = Some (g + 50000 * n) /\
    MockRelay.lastBlockNumber (MockRelay.metrics r') = blockNumber.
Proof.
  intros blockNumber clock r g Hc Hg n r'. subst n r'.
  unfold MockRelay.on_block, MockRelay.processBlock, MockWebSocketProvider.getBlock,
    MockWebSocketProvider.ensureConnected.
  cbn [MockRelay.with_metrics MockRelay.wsProvider]. rewrite Hc.
  unfold MockProvider.getBlock. cbn [Block.transactions].
  edestruct (processEach_listed
               (JsMap.keys (MockProvider.transactions
                  (MockWebSocketProvider.mockProvider (MockRelay.wsProvider r))))
               clock 1%nat
               (MockRelay.with_metrics r
                  {| MockRelay.started := MockRelay.started (MockRelay.metrics r);
                     MockRelay.successful := MockRelay.successful (MockRelay.metrics r);
                     MockRelay.failed := MockRelay.failed (MockRelay.metrics r);
                     MockRelay.gasUsed := MockRelay.gasUsed (MockRelay.metrics r);
                     MockRelay.lastBlockNumber := blockNumber |}) g)
    as (Hw & _ & Hst & Hsu & Hf & Hgas & Hl).
  - exact Hc.
  - apply Forall_forall. intros h Hin. exact Hin.
  - exact Hg.
  - unfold JsMap.keys in *. rewrite length_map in *. unfold JsMap.size.
    repeat split; assumption.
Qed.

Lemma mock_relay_block_reprocesses_the_store_witness :
  MockRelay.successful (MockRelay.metrics Scenario.runningMockRelay) = 2 /\
  MockRelay.successful
    (MockRelay.metrics (MockRelay.on_block 1 Scenario.blockClock Scenario.runningMockRelay))
  = 4 /\
  MockRelay.gasUsed
    (MockRelay.metrics (MockRelay.on_block 1 Scenario.blockClock Scenario.runningMockRelay))
  = Some 200000.
Proof.
  destruct (mock_relay_block_reprocesses_the_store
              1 Scenario.blockClock Scenario.runningMockRelay 100000)
    as (_ & _ & Hsu & _ & Hgas & _).
  - reflexivity.
  - reflexivity.
  - split; [reflexivity|]. split; [exact Hsu | exact Hgas].
Defined.

(** X21.  The mock relay counts a failure only when its provider is not
    connected.  While disconnected, processing a transaction adds one to
    the failed count without counting a start, whereas [processBlock] and
    the periodic generator leave the relay as it was (their errors are
    caught and logged).  While connected, processing any hash leaves the
    failed count alone. *)
Theorem mock_relay_fails_only_when_disconnected :
  forall (r : MockRelay.t) (h : string) (now now' blockNumber : Z) (clock : nat -> Z),
    (MockWebSocketProvider.connected (MockRelay.wsProvider r) = false ->
     MockRelay.failed (MockRelay.metrics (MockRelay.processTransaction h now r))
     = MockRelay.failed (MockRelay.metrics r) + 1 /\
     MockRelay.started (MockRelay.metrics (MockRelay.processTransaction h now r))
     = MockRelay.started (MockRelay.metrics r) /\
     MockRelay.successful (MockRelay.metrics (MockRelay.processTransaction h now r))
     = MockRelay.successful (MockRelay.metrics r) /\
     MockRelay.processBlock blockNumber clock r = r /\
     MockRelay.generateAndProcessTransaction now now' r = r) /\
    (MockWebSocketProvider.connected (MockRelay.wsProvider r) = true ->
     MockRelay.failed (MockRelay.metrics (MockRelay.processTransaction h now r))
     = MockRelay.failed (MockRelay.metrics r)).
Proof.
  intros r h now now' blockNumber clock. split; intros Hc.
  - rewrite (processTransaction_disconnected h now r Hc).
    cbn [MockRelay.with_metrics MockRelay.metrics MockRelay.failed MockRelay.started
         MockRelay.successful].
    repeat split.
    + unfold MockRelay.processBlock, MockWebSocketProvider.getBlock,
        MockWebSocketProvider.ensureConnected. now rewrite Hc.
    + unfold MockRelay.generateAndProcessTransaction,
        MockWebSocketProvider.generateTestTransaction,
        MockWebSocketProvider.ensureConnected. now rewrite Hc.
  - destruct (decide (h ∈ JsMap.keys (MockProvider.transactions
                (MockWebSocketProvider.mockProvider (MockRelay.wsProvider r))))) as [Hin|Hout].
    + now rewrite (processTransaction_listed h now r Hc Hin).
    + now rewrite (processTransaction_unlisted h now r Hc Hout).
Qed.

Lemma mock_relay_fails_only_when_disconnected_witness :
  MockRelay.failed
    (MockRelay.metrics
       (MockRelay.processTransaction (MockProvider.hash_of_time 1700000010000) 1700000030000
          (MockRelay.stop Scenario.runningMockRelay))) = 1 /\
  MockRelay.failed
    (MockRelay.metrics
       (MockRelay.processTransaction (MockProvider.hash_of_time 1700000010000) 1700000030000
          Scenario.runningMockRelay)) = 0.
Proof.
  split.
  - apply (mock_relay_fails_only_when_disconnected
             (MockRelay.stop Scenario.runningMockRelay)
             (MockProvider.hash_of_time 1700000010000) 1700000030000 0 0 Scenario.blockClock).
    reflexivity.
  - apply (mock_relay_fails_only_when_disconnected
             Scenario.runningMockRelay
             (MockProvider.hash_of_time 1700000010000) 1700000030000 0 0 Scenario.blockClock).
    reflexivity.
Defined.

(** X22.  The periodic generator of a connected mock relay always counts
    one success.  The transaction it synthesizes is stored under the hash
    of the clock reading and can be fetched from the provider afterwards,
    the store grows by at most one entry, and started and successful grow
    by one and the gas total by 50000. *)
Theorem mock_relay_generator_counts_one_success :
  forall (now_generate now_relay : Z) (r : MockRelay.t) (g : Z),
    MockWebSocketProvider.connected (MockRelay.wsProvider r) = true ->
    MockRelay.gasUsed (MockRelay.metrics r) = Some g ->
    let r' := MockRelay.generateAndProcessTransaction now_generate now_relay r in
    let store r := MockProvider.transactions
                     (MockWebSocketProvider.mockProvider (MockRelay.wsProvider r)) in
    (exists x, MockWebSocketProvider.getTransaction
                 (MockProvider.hash_of_time now_generate) (MockRelay.wsProvider r')
               = MockWebSocketProvider.Ok (Some x) /\
               Tx.hash x = MockProvider.hash_of_time now_generate) /\
    (JsMap.size (store r) <= JsMap.size (store r') <= S (JsMap.size (store r)))%nat /\
    MockRelay.started (MockRelay.metrics r') = MockRelay.started (MockRelay.metrics r) + 1 /\
    MockRelay.successful (MockRelay.metrics r')
    = MockRelay.successful (MockRelay.metrics r) + 1 /\
    MockRelay.failed (MockRelay.metrics r') = MockRelay.failed (MockRelay.metrics r) /\
    MockRelay.gasUsed (MockRelay.metrics r') = Some (g + 50000).
Proof.
  intros now_generate now_relay r g Hc Hg r' store. subst r' store.
  unfold MockRelay.generateAndProcessTransaction,
    MockWebSocketProvider.generateTestTransaction, MockWebSocketProvider.ensureConnected.
  rewrite Hc.
  destruct (MockProvider.generateMockTransaction now_generate
              (MockWebSocketProvider.mockProvider (MockRelay.wsProvider r)))
    as [p x] eqn:Egen.
  pose proof (generate_hash now_generate
                (MockWebSocketProvider.mockProvider (MockRelay.wsProvider r))) as Hhash.
  pose proof (generate_listed now_generate
                (MockWebSocketProvider.mockProvider (MockRelay.wsProvider r))) as Hlisted.
  pose proof (generate_stores now_generate
                (MockWebSocketProvider.mockProvider (MockRelay.wsProvider r))) as Hstored.
  rewrite Egen in Hhash, Hlisted, Hstored. cbn [fst snd] in Hhash, Hlisted, Hstored.
  rewrite Hhash.
  rewrite processTransaction_listed; [| exact Hc | exact Hlisted].
  cbn [MockRelay.with_metrics MockRelay.with_provider MockRelay.wsProvider
       MockRelay.metrics MockRelay.started MockRelay.successful MockRelay.failed
       MockRelay.gasUsed MockWebSocketProvider.with_mockProvider
       MockWebSocketProvider.mockProvider].
  split.
  { exists x. unfold MockWebSocketProvider.getTransaction,
      MockWebSocketProvider.ensureConnected.
    cbn [MockWebSocketProvider.with_mockProvider MockWebSocketProvider.connected
         MockWebSocketProvider.mockProvider].
    rewrite Hc, Hstored. split; [reflexivity | exact Hhash]. }
  split.
  { assert (Hp : p = fst (MockProvider.generateMockTransaction now_generate
                     (MockWebSocketProvider.mockProvider (MockRelay.wsProvider r))))
      by now rewrite Egen.
    rewrite Hp. unfold MockProvider.generateMockTransaction.
    cbn [fst MockProvider.transactions]. unfold JsMap.size.
    rewrite <- !(length_map fst).
    change (map fst ?m) with (JsMap.keys m).
    rewrite keys_set. case_bool_decide; [lia|]. rewrite length_app. cbn [length]. lia. }
  rewrite Hg, add_relayed_gas. now repeat split.
Qed.

Lemma mock_relay_generator_counts_one_success_witness :
  MockRelay.successful
    (MockRelay.metrics
       (MockRelay.generateAndProcessTransaction 1700000030000 1700000031000
          Scenario.runningMockRelay)) = 3.
Proof.
  destruct (mock_relay_generator_counts_one_success
              1700000030000 1700000031000 Scenario.runningMockRelay 100000)
    as (_ & _ & _ & Hsu & _); [reflexivity | reflexivity | exact Hsu].
Defined.
